(** * Weekly grocery optimizer: the optimization engine of [app.py]

    A shallow embedding of the "Generate Shopping List" handler of
    [src/app.py] (tab 3): the requirement resolver, the catalog join, the
    construction of the PuLP model, the call of the solver and the
    extraction of the purchase plan.

    Conventions of the embedding.
    - pandas and PuLP numbers are floats; they are idealised as exact
      rationals ([Q]).  Statements about values are up to [==] on [Q].
    - A DataFrame is the list of its rows, in index order; the tables have
      the typed columns the handler reads.
    - A Python [dict] whose iteration order matters is an association list
      with the update discipline of [dict]: a key keeps the position of its
      first insertion and the value of its last.
    - The MILP solver is external to the repository: it is a variable of a
      section, a function from the model to a status and a value per
      variable object.
    - The Streamlit calls ([st.warning], [st.success], [st.error], the
      tables shown) and the calls of [model.solve()] are effects; they are
      recorded, in order, in an explicit world threaded through the
      handler. *)

From Stdlib Require Import ZArith QArith Qround Lqa Lia.
From Stdlib Require Import List String Ascii Bool.
From Stdlib Require Permutation.
Import ListNotations.

Open Scope string_scope.
Open Scope list_scope.
Open Scope Q_scope.

(** ** Python primitives *)

(** [str.lower()] on ASCII text: the letters A..Z move to a..z. *)
Definition lower_ascii (c : ascii) : ascii :=
  let n := nat_of_ascii c in
  if (65 <=? n)%nat && (n <=? 90)%nat then ascii_of_nat (n + 32) else c.

Fixpoint lower (s : string) : string :=
  match s with
  | EmptyString => EmptyString
  | String c s' => String (lower_ascii c) (lower s')
  end.

(** [s.replace(c, by)] for a one-character pattern [c]. *)
Fixpoint replace (c : ascii) (by_ : string) (s : string) : string :=
  match s with
  | EmptyString => EmptyString
  | String a s' =>
      if Ascii.eqb a c then (by_ ++ replace c by_ s')%string
      else String a (replace c by_ s')
  end.

(** [round(x)]: the nearest integer, a tie going to the even neighbour. *)
Definition py_round (x : Q) : Z :=
  let f := Qfloor x in
  let r := x - inject_Z f in
  match Qcompare r (1 # 2) with
  | Lt => f
  | Gt => (f + 1)%Z
  | Eq => if Z.even f then f else (f + 1)%Z
  end.

(** [round(x, 2)]: the value in hundredths nearest to [x].  On floats the
    direction taken when [x] lies exactly between two hundredths depends on
    the binary value of [x]; this idealisation on [Q] sends such a tie to
    the even hundredth.  The properties stated of the stored amounts use
    only that the result is a whole number of hundredths at most half a
    hundredth away from [x], never the direction of a tie. *)
Definition py_round2 (x : Q) : Q := inject_Z (py_round (x * 100)) / 100.

(** [sum(...)] over a list of numbers, starting from the integer 0. *)
Definition py_sum (l : list Q) : Q := fold_left Qplus l 0.

(** Truthiness of a number or [None]: [None] and zero are falsy. *)
Definition truthy (v : option Q) : bool :=
  match v with
  | None => false
  | Some x => negb (Qeq_bool x 0)
  end.

(** ** The input tables *)

(** Sheet [Cost_List]. *)
Record cost_row := {
  cost_Food : string;
  cost_Package_Description : string;
  cost_Store : string;
  cost_price : Q;
  cost_lb : Q
}.

(** Sheet [Nutrition_List]. *)
Record nutrition_row := {
  nut_Food : string;
  nut_kcal : Q;
  nut_Protein : Q;
  nut_Carbs : Q;
  nut_Fat : Q;
  nut_Food_Basket : string;
  nut_Max_quantity : Q
}.

(** Sheet [Check_Nutrition]. *)
Record check_row := {
  Age_Sex_Group : string;
  Min_Age : Q;
  Max_Age : Q;
  Min_Calorie : Q;
  min_Protein : Q;
  min_Carbohydrate : Q;
  min_Fat : Q
}.

(** [Stock.xlsx]. *)
Record stock_row := {
  stock_Package_Description : string;
  stock_Quantity_in_Stock_lb : Q
}.

(** The select box of tab 1 offers exactly ["male"] and ["female"]. *)
Inductive gender_t := male | female.

Definition gender_str (g : gender_t) : string :=
  match g with
  | male => "male"
  | female => "female"
  end.

(** An entry of [st.session_state.household_members]. *)
Record member := {
  age : Z;
  gender : gender_t
}.

(** ** Requirement resolver *)

(** The dict [required_nutrients]. *)
Record required := {
  req_Min_Calorie : Q;
  req_Min_Protein : Q;
  req_Min_Carbohydrate : Q;
  req_Min_Fat : Q
}.

Definition required_zero : required :=
  {| req_Min_Calorie := 0; req_Min_Protein := 0;
     req_Min_Carbohydrate := 0; req_Min_Fat := 0 |}.

(** The boolean mask of the row filter:
    [(group.str.lower() == gender) & (Min_Age <= age) & (Max_Age >= age)]. *)
Definition row_mask (m : member) (r : check_row) : bool :=
  (lower (Age_Sex_Group r) =? gender_str (gender m))%string
  && Qle_bool (Min_Age r) (inject_Z (age m))
  && Qle_bool (inject_Z (age m)) (Max_Age r).

(** One iteration of the member loop: [row.values[0]] is the first of the
    filtered rows; an empty filter leaves the dict untouched. *)
Definition add_member (check_df : list check_row) (acc : required) (m : member)
  : required :=
  match filter (row_mask m) check_df with
  | [] => acc
  | row :: _ =>
      {| req_Min_Calorie := req_Min_Calorie acc + Min_Calorie row;
         req_Min_Protein := req_Min_Protein acc + min_Protein row;
         req_Min_Carbohydrate := req_Min_Carbohydrate acc + min_Carbohydrate row;
         req_Min_Fat := req_Min_Fat acc + min_Fat row |}
  end.

Definition required_nutrients (check_df : list check_row) (members : list member)
  : required :=
  fold_left (add_member check_df) members required_zero.

(** ** Exceptions and the error monad *)

Inductive exn :=
| KeyError (key : string)
| IndexError (msg : string)
| TypeError (msg : string).

Inductive result (A : Type) :=
| Ok (a : A)
| Raise (e : exn).
Arguments Ok {A} a.
Arguments Raise {A} e.

Definition bind {A B} (r : result A) (k : A -> result B) : result B :=
  match r with
  | Ok a => k a
  | Raise e => Raise e
  end.

Notation "x <- e ;; k" := (bind e (fun x => k))
  (at level 61, e at next level, right associativity).

(** A comprehension or generator whose body may raise: left to right,
    stopping at the first exception. *)
Fixpoint for_each {A B} (f : A -> result B) (l : list A) : result (list B) :=
  match l with
  | [] => Ok []
  | a :: l' => b <- f a ;; bs <- for_each f l' ;; Ok (b :: bs)
  end.

(** A loop that threads a value through its iterations and may raise. *)
Fixpoint for_loop {A S} (body : S -> A -> result S) (l : list A) (s : S)
  : result S :=
  match l with
  | [] => Ok s
  | a :: l' => s' <- body s a ;; for_loop body l' s'
  end.

(** ** Python dicts with string keys *)

Definition pydict (V : Type) := list (string * V).

(** [d[k] = v]: an existing key keeps its position, a new key is appended. *)
Fixpoint dict_setitem {V} (d : pydict V) (k : string) (v : V) : pydict V :=
  match d with
  | [] => [(k, v)]
  | (k', v') :: d' =>
      if (k' =? k)%string then (k', v) :: d'
      else (k', v') :: dict_setitem d' k v
  end.

(** [d[k]], raising [KeyError] on a missing key. *)
Fixpoint dict_getitem {V} (d : pydict V) (k : string) : result V :=
  match d with
  | [] => Raise (KeyError k)
  | (k', v) :: d' => if (k' =? k)%string then Ok v else dict_getitem d' k
  end.

(** [{key(x): val(x) for x in l}]. *)
Definition dict_comprehension {A V} (key : A -> string) (val : A -> V)
  (l : list A) : pydict V :=
  fold_left (fun d x => dict_setitem d (key x) (val x)) l [].

(** ** Catalog joiner *)

(** A row of the merged frame [data]. *)
Record data_row := {
  Food : string;
  Package_Description : string;
  Store : string;
  price : Q;
  lb : Q;
  kcal : Q;
  Protein_g : Q;
  Carbs_g : Q;
  Fat_g : Q;
  Food_Basket : string;
  Max_quantity : Q;
  Quantity_in_Stock_lb : Q
}.

Definition joined (c : cost_row) (n : nutrition_row) (stock : Q) : data_row :=
  {| Food := cost_Food c;
     Package_Description := cost_Package_Description c;
     Store := cost_Store c;
     price := cost_price c;
     lb := cost_lb c;
     kcal := nut_kcal n;
     Protein_g := nut_Protein n;
     Carbs_g := nut_Carbs n;
     Fat_g := nut_Fat n;
     Food_Basket := nut_Food_Basket n;
     Max_quantity := nut_Max_quantity n;
     Quantity_in_Stock_lb := stock |}.

(** [pd.merge(cost_df, nutrition_df, on="Food")]: the inner join, in the
    order of the left rows; a cost row meets every nutrition row of its
    food, and is dropped when there is none. *)
Definition merge_on_Food (cost_df : list cost_row) (nutrition_df : list nutrition_row)
  : list (cost_row * nutrition_row) :=
  flat_map
    (fun c => map (pair c)
                (filter (fun n => (nut_Food n =? cost_Food c)%string) nutrition_df))
    cost_df.

(** [pd.merge(data, stock_df, on="Package Description", how="left").fillna(0)]:
    every left row is kept, once per stock row of its description; without
    a stock row its stock is NaN, which [fillna(0)] turns into 0. *)
Definition merge_left_stock (d : list (cost_row * nutrition_row))
  (stock_df : list stock_row) : list data_row :=
  flat_map
    (fun cn =>
       match filter (fun s => (stock_Package_Description s
                               =? cost_Package_Description (fst cn))%string)
                    stock_df with
       | [] => [joined (fst cn) (snd cn) 0]
       | found =>
           map (fun s => joined (fst cn) (snd cn) (stock_Quantity_in_Stock_lb s))
               found
       end)
    d.

Definition merge_data (cost_df : list cost_row) (nutrition_df : list nutrition_row)
  (stock_df : list stock_row) : list data_row :=
  merge_left_stock (merge_on_Food cost_df nutrition_df) stock_df.

(** ** PuLP objects *)

Inductive LpCategory := LpContinuous | LpInteger | LpBinary.

(** PuLP variables are Python objects, compared and hashed by identity.
    The handler keeps each object in one slot of one of its two dicts, so
    an object is identified by that slot. *)
Inductive var_id :=
| buy_qty_slot (food : string)
| has_cat_slot (cat : string).


Record LpVariable := {
  var_slot : var_id;
  var_name : string;
  lowBound : option Q;
  upBound : option Q;
  var_cat : LpCategory
}.

(** An affine expression as it is written: its terms and its constant. *)
Record LpAffineExpression := {
  terms : list (Q * LpVariable);
  constant : Q
}.

Definition expr_of_var (v : LpVariable) : LpAffineExpression :=
  {| terms := [(1, v)]; constant := 0 |}.

Definition expr_of_number (c : Q) : LpAffineExpression :=
  {| terms := []; constant := c |}.

Inductive LpSense := LpConstraintGE | LpConstraintLE | LpConstraintEQ.

Record LpConstraint := {
  con_name : option string;
  con_lhs : LpAffineExpression;
  con_sense : LpSense;
  con_rhs : LpAffineExpression
}.

Record LpProblem := {
  prob_name : string;
  objective : option LpAffineExpression;
  constraints : list LpConstraint
}.

(** [model += expression]. *)
Definition set_objective (m : LpProblem) (e : LpAffineExpression) : LpProblem :=
  {| prob_name := prob_name m; objective := Some e; constraints := constraints m |}.

(** [model += constraint] and [model += (constraint, name)]. *)
Definition add_constraint (m : LpProblem) (c : LpConstraint) : LpProblem :=
  {| prob_name := prob_name m; objective := objective m;
     constraints := constraints m ++ [c] |}.

(** ** Model builder *)

(** The [name=] argument of a purchase variable. *)
Definition buy_var_name (desc : string) : string :=
  replace ")" "" (replace "(" "" (replace "," "" (replace " " "_" desc))).

Definition make_buy_var (row : data_row) : LpVariable :=
  {| var_slot := buy_qty_slot (Package_Description row);
     var_name := buy_var_name (Package_Description row);
     lowBound := Some 0;
     upBound := Some (Max_quantity row);
     var_cat := LpInteger |}.

(** The dict [buy_qty], keyed by package description. *)
Definition buy_qty (data : list data_row) : pydict LpVariable :=
  dict_comprehension Package_Description make_buy_var data.

(** [lpSum(coef(i) * buy_qty[data.loc[i, "Package Description"]] for i in rows)]. *)
Definition lpSum_rows (bq : pydict LpVariable) (coef : data_row -> Q)
  (rows : list data_row) : result (list (Q * LpVariable)) :=
  for_each
    (fun r => v <- dict_getitem bq (Package_Description r) ;; Ok (coef r, v))
    rows.

Definition build_objective (bq : pydict LpVariable) (data : list data_row)
  : result LpAffineExpression :=
  ts <- lpSum_rows bq price data ;;
  Ok {| terms := ts; constant := 0 |}.

(** The four nutrients: key of [required_nutrients], column of [data]. *)
Inductive nutrient := Protein | Carbohydrate | Fat | Calorie.

Definition nutrient_key (n : nutrient) : string :=
  match n with
  | Protein => "Min_Protein"
  | Carbohydrate => "Min_Carbohydrate"
  | Fat => "Min_Fat"
  | Calorie => "Min_Calorie"
  end.

Definition nutrient_col (n : nutrient) : data_row -> Q :=
  match n with
  | Protein => Protein_g
  | Carbohydrate => Carbs_g
  | Fat => Fat_g
  | Calorie => kcal
  end.

Definition required_get (req : required) (n : nutrient) : Q :=
  match n with
  | Protein => req_Min_Protein req
  | Carbohydrate => req_Min_Carbohydrate req
  | Fat => req_Min_Fat req
  | Calorie => req_Min_Calorie req
  end.

(** The list the nutrient loop runs over, in its order. *)
Definition nutrient_loop : list nutrient := [Protein; Carbohydrate; Fat; Calorie].

(** The constant of a nutrient constraint: the built-in [sum] over the
    rows of [col * Quantity_in_Stock_lb]. *)
Definition stock_term (data : list data_row) (n : nutrient) : Q :=
  py_sum (map (fun r => nutrient_col n r * Quantity_in_Stock_lb r) data).

Definition nutrient_step (bq : pydict LpVariable) (data : list data_row)
  (req : required) (m : LpProblem) (n : nutrient) : result LpProblem :=
  ts <- lpSum_rows bq (nutrient_col n) data ;;
  Ok (add_constraint m
        {| con_name := Some (nutrient_key n ++ "_requirement")%string;
           con_lhs := {| terms := ts; constant := stock_term data n |};
           con_sense := LpConstraintGE;
           con_rhs := expr_of_number (required_get req n * 7) |}).

Definition basket_categories : list string :=
  [ "Protein";
    "Grains & Carbohydrate Sources";
    "Vegetables";
    "Fruits";
    "Fats, Nuts & Seeds" ].

Definition has_cat_name (cat : string) : string :=
  ("Has_" ++ replace "&" "and" (replace "," "" (replace " " "_" cat)))%string.

Definition make_has_cat (cat : string) : LpVariable :=
  {| var_slot := has_cat_slot cat;
     var_name := has_cat_name cat;
     lowBound := None;
     upBound := None;
     var_cat := LpBinary |}.

(** The dict [has_cat]: one binary variable per listed category. *)
Definition has_cat : pydict LpVariable :=
  dict_comprehension (fun cat => cat) make_has_cat basket_categories.

(** [data[data["Food Basket"] == cat]], as rows. *)
Definition cat_items (data : list data_row) (cat : string) : list data_row :=
  filter (fun r => (Food_Basket r =? cat)%string) data.

(** [lpSum(1 for i in cat_items if data.loc[i, "Quantity_in_Stock_lb"] > 0)]. *)
Definition stocked_count (items : list data_row) : Q :=
  py_sum (map (fun _ => 1)
            (filter (fun r => negb (Qle_bool (Quantity_in_Stock_lb r) 0)) items)).

Definition diversity_step (bq hc : pydict LpVariable) (data : list data_row)
  (m : LpProblem) (cat : string) : result LpProblem :=
  let items := cat_items data cat in
  if (0 <? List.length items)%nat then
    ts <- lpSum_rows bq (fun _ => 1) items ;;
    h <- dict_getitem hc cat ;;
    let m1 :=
      add_constraint m
        {| con_name := Some (cat ++ "_presence")%string;
           con_lhs := {| terms := ts; constant := stocked_count items |};
           con_sense := LpConstraintGE;
           con_rhs := expr_of_var h |} in
    h' <- dict_getitem hc cat ;;
    Ok (add_constraint m1
          {| con_name := None;
             con_lhs := expr_of_var h';
             con_sense := LpConstraintLE;
             con_rhs := expr_of_number 1 |})
  else Ok m.

Definition empty_problem : LpProblem :=
  {| prob_name := "Weekly_Shopping_Optimization";
     objective := None;
     constraints := [] |}.

(** The model after the objective and the nutrient loop, before the
    diversity loop. *)
Definition build_nutrient_model (data : list data_row) (req : required)
  : result LpProblem :=
  let bq := buy_qty data in
  obj <- build_objective bq data ;;
  for_loop (nutrient_step bq data req) nutrient_loop
    (set_objective empty_problem obj).

(** The model handed to the solver. *)
Definition build_model (data : list data_row) (req : required)
  : result LpProblem :=
  m <- build_nutrient_model data req ;;
  for_loop (diversity_step (buy_qty data) has_cat data) basket_categories m.

(** ** Meaning of a model *)

(** A value for every variable object. *)
Definition assignment := var_id -> Q.

Definition eval_terms (a : assignment) (ts : list (Q * LpVariable)) : Q :=
  fold_right (fun t acc => fst t * a (var_slot (snd t)) + acc) 0 ts.

Definition eval_expr (a : assignment) (e : LpAffineExpression) : Q :=
  eval_terms a (terms e) + constant e.

Definition holds (a : assignment) (c : LpConstraint) : bool :=
  match con_sense c with
  | LpConstraintGE => Qle_bool (eval_expr a (con_rhs c)) (eval_expr a (con_lhs c))
  | LpConstraintLE => Qle_bool (eval_expr a (con_lhs c)) (eval_expr a (con_rhs c))
  | LpConstraintEQ => Qeq_bool (eval_expr a (con_lhs c)) (eval_expr a (con_rhs c))
  end.

Definition is_integer (x : Q) : bool := Qeq_bool (inject_Z (Qfloor x)) x.

(** The bounds and the category of a variable. *)
Definition in_domain (v : LpVariable) (x : Q) : bool :=
  match lowBound v with None => true | Some l => Qle_bool l x end
  && match upBound v with None => true | Some u => Qle_bool x u end
  && match var_cat v with
     | LpContinuous => true
     | LpInteger => is_integer x
     | LpBinary => Qeq_bool x 0 || Qeq_bool x 1
     end.

(** The variables a model mentions, objective first. *)
Definition expr_vars (e : LpAffineExpression) : list LpVariable :=
  map snd (terms e).

Definition model_vars (m : LpProblem) : list LpVariable :=
  match objective m with None => [] | Some e => expr_vars e end
  ++ flat_map (fun c => expr_vars (con_lhs c) ++ expr_vars (con_rhs c))
       (constraints m).

Definition feasible (m : LpProblem) (a : assignment) : Prop :=
  (forall v, In v (model_vars m) -> in_domain v (a (var_slot v)) = true)
  /\ (forall c, In c (constraints m) -> holds a c = true).

Definition objective_value (m : LpProblem) (a : assignment) : Q :=
  match objective m with None => 0 | Some e => eval_expr a e end.

(** [v] is the least objective value over the feasible assignments. *)
Definition optimal_value (m : LpProblem) (v : Q) : Prop :=
  (exists a, feasible m a /\ objective_value m a == v)
  /\ (forall a, feasible m a -> v <= objective_value m a).

(** ** Solver adapter *)

(** PuLP's status codes and the table [LpStatus]. *)
Inductive status_t :=
| LpStatusNotSolved
| LpStatusOptimal
| LpStatusInfeasible
| LpStatusUnbounded
| LpStatusUndefined.

Definition LpStatus (s : status_t) : string :=
  match s with
  | LpStatusNotSolved => "Not Solved"
  | LpStatusOptimal => "Optimal"
  | LpStatusInfeasible => "Infeasible"
  | LpStatusUnbounded => "Unbounded"
  | LpStatusUndefined => "Undefined"
  end.

(** What [.value()] returns for each variable object after a solve. *)
Definition values := var_id -> option Q.

(** ** Result extractor *)

(** A dict appended to [results]. *)
Record result_row := {
  res_Store : string;
  res_Food : string;
  res_Package_Description : string;
  lb_per_package : Q;
  price_per_package : Q;
  Qty_to_Buy : Z;
  Total_Weight_lb : Q;
  Weekly_Cost : Q
}.

(** [if qty and qty > 0]. *)
Definition qty_selected (qty : option Q) : bool :=
  truthy qty
  && match qty with None => false | Some x => negb (Qle_bool x 0) end.

(** [data.loc[data["Package Description"] == food].iloc[0]]. *)
Definition first_row_of (data : list data_row) (food : string) : result data_row :=
  match filter (fun r => (Package_Description r =? food)%string) data with
  | [] => Raise (IndexError "single positional indexer is out-of-bounds")
  | row_data :: _ => Ok row_data
  end.

(** One iteration of [for food in buy_qty]. *)
Definition collect_step (data : list data_row) (vals : values)
  (results : list result_row) (entry : string * LpVariable)
  : result (list result_row) :=
  let food := fst entry in
  let qty := vals (var_slot (snd entry)) in
  if qty_selected qty then
    let qty := py_round (match qty with Some x => x | None => 0 end) in
    row_data <- first_row_of data food ;;
    let cost := price row_data * inject_Z qty in
    let total_weight := lb row_data * inject_Z qty in
    Ok (results ++
        [ {| res_Store := Store row_data;
             res_Food := Food row_data;
             res_Package_Description := food;
             lb_per_package := lb row_data;
             price_per_package := price row_data;
             Qty_to_Buy := qty;
             Total_Weight_lb := py_round2 total_weight;
             Weekly_Cost := py_round2 cost |} ])
  else Ok results.

Definition collect_results (data : list data_row) (vals : values)
  : result (list result_row) :=
  for_loop (collect_step data vals) (buy_qty data) [].

(** [pd.DataFrame(results)]: the columns are the keys of the dicts, so an
    empty list gives a frame without columns. *)
Record DataFrame := {
  df_columns : list string;
  df_rows : list result_row
}.

Definition result_columns : list string :=
  [ "Store"; "Food"; "Package Description"; "lb_per_package";
    "price_per_package"; "Qty_to_Buy"; "Total_Weight_lb"; "Weekly_Cost" ].

Definition DataFrame_of (results : list result_row) : DataFrame :=
  {| df_columns := match results with [] => [] | _ :: _ => result_columns end;
     df_rows := results |}.

(** [df[name]], raising [KeyError] when the frame has no such column. *)
Definition getcol {A} (df : DataFrame) (name : string) (field : result_row -> A)
  : result (list A) :=
  if existsb (String.eqb name) (df_columns df)
  then Ok (map field (df_rows df))
  else Raise (KeyError name).

Definition sum_Z (l : list Z) : Z := fold_left Z.add l 0%Z.

(** [Series.unique()]: first occurrences, in order. *)
Fixpoint unique (l : list string) : list string :=
  match l with
  | [] => []
  | x :: l' => x :: filter (fun y => negb (y =? x)%string) (unique l')
  end.

Fixpoint insert_sorted (x : string) (l : list string) : list string :=
  match l with
  | [] => [x]
  | y :: l' => if String.leb x y then x :: l else y :: insert_sorted x l'
  end.

(** [sorted(...)] on strings. *)
Definition sorted (l : list string) : list string :=
  fold_right insert_sorted [] l.

(** ** Effects of the handler *)

Inductive event :=
| st_warning (msg : string)
| st_success (msg : string)
| st_error (msg : string)
| st_exception (e : exn)
| model_solve (m : LpProblem)
| st_metrics (total_cost : Q) (total_items : Z) (total_weight : Q)
| st_dataframe (rows : list result_row)
| st_store (store : string) (store_packages : Z) (store_cost : Q)
    (rows : list result_row).

(** A computation of the handler: it extends the trace of effects and
    returns normally or raises. *)
Definition App (A : Type) := list event -> result A * list event.

Definition ret {A} (a : A) : App A := fun w => (Ok a, w).

Definition bindA {A B} (c : App A) (k : A -> App B) : App B :=
  fun w =>
    match c w with
    | (Ok a, w') => k a w'
    | (Raise e, w') => (Raise e, w')
    end.

Notation "x <~ c ;; k" := (bindA c (fun x => k))
  (at level 61, c at next level, right associativity).
Notation "c ;;; k" := (bindA c (fun _ => k))
  (at level 61, right associativity).

Definition emit (e : event) : App unit := fun w => (Ok tt, w ++ [e]).

Definition lift {A} (r : result A) : App A := fun w => (r, w).

(** [try: body  except Exception as e: handler(e)]. *)
Definition try_except (body : App unit) (handler : exn -> App unit) : App unit :=
  fun w =>
    match body w with
    | (Ok tt, w') => (Ok tt, w')
    | (Raise e, w') => handler e w'
    end.

Fixpoint for_app {A} (body : A -> App unit) (l : list A) : App unit :=
  match l with
  | [] => ret tt
  | a :: l' => body a ;;; for_app body l'
  end.

(** [str(e)]. *)
Definition exn_str (e : exn) : string :=
  match e with
  | KeyError key => ("'" ++ key ++ "'")%string
  | IndexError msg => msg
  | TypeError msg => msg
  end.

(** ** The handler of tab 3 *)

Record session_state := {
  household_members : list member;
  cost_df : option (list cost_row);
  nutrition_df : option (list nutrition_row);
  check_df : option (list check_row);
  stock_df : option (list stock_row)
}.

(** One iteration of the member loop on the session's [check_df], which is
    [None] when the sheet could not be loaded. *)
Definition resolve_member (check : option (list check_row)) (acc : required)
  (m : member) : result required :=
  match check with
  | None => Raise (TypeError "'NoneType' object is not subscriptable")
  | Some t => Ok (add_member t acc m)
  end.

Definition resolve_requirements (s : session_state) : result required :=
  for_loop (resolve_member (check_df s)) (household_members s) required_zero.

Definition merge_error : exn :=
  TypeError
    "Can only merge Series or DataFrame objects, a <class 'NoneType'> was passed".

Definition merge_session (cost : list cost_row) (s : session_state)
  : result (list data_row) :=
  match nutrition_df s with
  | None => Raise merge_error
  | Some nutrition =>
      match stock_df s with
      | None => Raise merge_error
      | Some stock => Ok (merge_data cost nutrition stock)
      end
  end.

Definition store_frame (df : DataFrame) (store : string) : DataFrame :=
  {| df_columns := df_columns df;
     df_rows := filter (fun r => (res_Store r =? store)%string) (df_rows df) |}.

Definition show_store (df : DataFrame) (store : string) : App unit :=
  let store_items := store_frame df store in
  costs <~ lift (getcol store_items "Weekly_Cost" Weekly_Cost) ;;
  qtys <~ lift (getcol store_items "Qty_to_Buy" Qty_to_Buy) ;;
  emit (st_store store (sum_Z qtys) (py_sum costs) (df_rows store_items)).

(** The branch taken on status Optimal, from [st.success] to the last
    store table.  The statements that follow it inside the same [try],
    the Excel workbook written with [pd.ExcelWriter] and the download
    button, are not modelled: they run after every event recorded here,
    they depend on the installed Excel engine and on the store names used
    as sheet names, and they can raise, in which case the handler of the
    [try] adds its error lines after the tables.  A trace of this model is
    therefore the run up to and including the last store table, and no
    property below speaks of what the page shows after it. *)
Definition show_plan (data : list data_row) (vals : values) : App unit :=
  emit (st_success "✅ Optimization Complete!") ;;;
  results <~ lift (collect_results data vals) ;;
  let results_df := DataFrame_of results in
  costs <~ lift (getcol results_df "Weekly_Cost" Weekly_Cost) ;;
  qtys <~ lift (getcol results_df "Qty_to_Buy" Qty_to_Buy) ;;
  weights <~ lift (getcol results_df "Total_Weight_lb" Total_Weight_lb) ;;
  emit (st_metrics (py_sum costs) (sum_Z qtys) (py_sum weights)) ;;;
  emit (st_dataframe (df_rows results_df)) ;;;
  stores <~ lift (getcol results_df "Store" res_Store) ;;
  for_app (show_store results_df) (sorted (unique stores)).

Section Handler.

(** The external solver: [model.solve()] followed by the reads of
    [.value()]. *)
Variable solver : LpProblem -> status_t * values.

Definition solve (m : LpProblem) : App (status_t * values) :=
  fun w => (Ok (solver m), w ++ [model_solve m]).

(** The body of the [try]. *)
Definition optimize (s : session_state) (cost : list cost_row) : App unit :=
  required_nutrients <~ lift (resolve_requirements s) ;;
  data <~ lift (merge_session cost s) ;;
  model <~ lift (build_model data required_nutrients) ;;
  sv <~ solve model ;;
  if (LpStatus (fst sv) =? "Optimal")%string then show_plan data (snd sv)
  else emit (st_error ("Optimization failed with status: "
                       ++ LpStatus (fst sv))%string).

Definition on_exception (e : exn) : App unit :=
  emit (st_error ("Error during optimization: " ++ exn_str e)%string) ;;;
  emit (st_exception e).

(** [with tab3:], [button] telling whether "Generate Shopping List" was
    pressed in this run of the script. *)
Definition tab3 (s : session_state) (button : bool) : App unit :=
  match household_members s with
  | [] => emit (st_warning "⚠️ Please add household members first")
  | _ :: _ =>
      match cost_df s with
      | None => emit (st_warning "⚠️ Please upload the grocery list file")
      | Some cost =>
          if button then try_except (optimize s cost) on_exception
          else ret tt
      end
  end.

(** The effects of one run of tab 3 from an empty trace. *)
Definition run_tab3 (s : session_state) (button : bool) : list event :=
  snd (tab3 s button []).

End Handler.

(** Observations on a trace. *)
Definition is_model_solve (e : event) : bool :=
  match e with model_solve _ => true | _ => false end.

Definition solve_calls (w : list event) : list event := filter is_model_solve w.

(** The rows of the purchase plan a trace shows. *)
Definition plan_rows (w : list event) : list result_row :=
  flat_map (fun e => match e with st_dataframe rows => rows | _ => [] end) w.

(** ** Vocabulary of the specification *)

(** Σ over a list. *)
Definition sumQ (l : list Q) : Q := fold_right Qplus 0 l.

(** The alphabet: each capital Latin letter with its small letter; any
    other character stands for itself. *)
Definition fold_case (c : ascii) : ascii :=
  match c with
  | "A" => "a"
  | "B" => "b"
  | "C" => "c"
  | "D" => "d"
  | "E" => "e"
  | "F" => "f"
  | "G" => "g"
  | "H" => "h"
  | "I" => "i"
  | "J" => "j"
  | "K" => "k"
  | "L" => "l"
  | "M" => "m"
  | "N" => "n"
  | "O" => "o"
  | "P" => "p"
  | "Q" => "q"
  | "R" => "r"
  | "S" => "s"
  | "T" => "t"
  | "U" => "u"
  | "V" => "v"
  | "W" => "w"
  | "X" => "x"
  | "Y" => "y"
  | "Z" => "z"
  | other => other
  end%char.

Fixpoint fold_case_text (s : string) : string :=
  match s with
  | EmptyString => EmptyString
  | String c s' => String (fold_case c) (fold_case_text s')
  end.

(** Equality of two texts up to letter case: they are the same once every
    capital letter is replaced by its small letter. *)
Definition case_insensitive_eq (s t : string) : Prop :=
  fold_case_text s = fold_case_text t.

(** A requirement row suits a member: same gender group up to case, and
    the age inside the inclusive range. *)
Definition row_suits (m : member) (r : check_row) : Prop :=
  case_insensitive_eq (Age_Sex_Group r) (gender_str (gender m))
  /\ Min_Age r <= inject_Z (age m) <= Max_Age r.

(** What one member adds to the aggregate: the minimums of [row], or
    nothing. *)
Definition contribution (row : option check_row) : required :=
  match row with
  | Some r =>
      {| req_Min_Calorie := Min_Calorie r; req_Min_Protein := min_Protein r;
         req_Min_Carbohydrate := min_Carbohydrate r; req_Min_Fat := min_Fat r |}
  | None => required_zero
  end.

Definition required_eq (a b : required) : Prop :=
  req_Min_Calorie a == req_Min_Calorie b
  /\ req_Min_Protein a == req_Min_Protein b
  /\ req_Min_Carbohydrate a == req_Min_Carbohydrate b
  /\ req_Min_Fat a == req_Min_Fat b.

Definition required_add (a b : required) : required :=
  {| req_Min_Calorie := req_Min_Calorie a + req_Min_Calorie b;
     req_Min_Protein := req_Min_Protein a + req_Min_Protein b;
     req_Min_Carbohydrate := req_Min_Carbohydrate a + req_Min_Carbohydrate b;
     req_Min_Fat := req_Min_Fat a + req_Min_Fat b |}.

(** The last row of the joined catalog with a given description: the one
    whose variable stays in [buy_qty]. *)
Definition last_row_of (data : list data_row) (d : string) : option data_row :=
  find (fun r => (Package_Description r =? d)%string) (rev data).

Definition declared_max (data : list data_row) (d : string) : Q :=
  match last_row_of data d with
  | Some r => Max_quantity r
  | None => 0
  end.

(** PurchaseDecision[p]: an integer variable in [0, max_quantity]. *)
Definition PurchaseDecision (data : list data_row) (d : string) : LpVariable :=
  {| var_slot := buy_qty_slot d;
     var_name := buy_var_name d;
     lowBound := Some 0;
     upBound := Some (declared_max data d);
     var_cat := LpInteger |}.

(** Σ_p coef(p) × PurchaseDecision[p], over the given rows. *)
Definition purchase_terms (data : list data_row) (coef : data_row -> Q)
  (rows : list data_row) : list (Q * LpVariable) :=
  map (fun p => (coef p, PurchaseDecision data (Package_Description p))) rows.

(** The nutrient constraint of nutrient [n]. *)
Definition nutrient_requirement (data : list data_row) (req : required)
  (n : nutrient) : LpConstraint :=
  {| con_name := Some (nutrient_key n ++ "_requirement")%string;
     con_lhs := {| terms := purchase_terms data (nutrient_col n) data;
                   constant := stock_term data n |};
     con_sense := LpConstraintGE;
     con_rhs := expr_of_number (required_get req n * 7) |}.

(** CategoryPresenceIndicator[c]. *)
Definition CategoryPresenceIndicator (c : string) : LpVariable := make_has_cat c.

(** The two diversity constraints of category [c]. *)
Definition presence_constraint (data : list data_row) (c : string) : LpConstraint :=
  {| con_name := Some (c ++ "_presence")%string;
     con_lhs := {| terms := purchase_terms data (fun _ => 1) (cat_items data c);
                   constant := stocked_count (cat_items data c) |};
     con_sense := LpConstraintGE;
     con_rhs := expr_of_var (CategoryPresenceIndicator c) |}.

Definition indicator_bound (c : string) : LpConstraint :=
  {| con_name := None;
     con_lhs := expr_of_var (CategoryPresenceIndicator c);
     con_sense := LpConstraintLE;
     con_rhs := expr_of_number 1 |}.

Definition diversity_of (data : list data_row) (c : string) : list LpConstraint :=
  match cat_items data c with
  | [] => []
  | _ :: _ => [presence_constraint data c; indicator_bound c]
  end.

Definition diversity_constraints (data : list data_row) : list LpConstraint :=
  flat_map (diversity_of data) basket_categories.

(** The number of packages of a list with stock strictly above zero. *)
Definition stocked_packages (items : list data_row) : nat :=
  List.length (filter (fun r => negb (Qle_bool (Quantity_in_Stock_lb r) 0)) items).


(** A constraint with a plain number on its right-hand side and sense [>=]. *)
Definition floor_shaped (c : LpConstraint) : bool :=
  match con_sense c, terms (con_rhs c) with
  | LpConstraintGE, [] => true
  | _, _ => false
  end.

Definition named (name : string) (c : LpConstraint) : bool :=
  match con_name c with
  | Some s => (s =? name)%string
  | None => false
  end.

(** The purchase variables lie in their domains under [a]. *)
Definition purchases_in_bounds (data : list data_row) (a : assignment) : Prop :=
  forall food v, In (food, v) (buy_qty data) -> in_domain v (a (var_slot v)) = true.

(** Every category-presence indicator set to 0, the rest unchanged. *)
Definition zero_indicators (a : assignment) : assignment :=
  fun id => match id with has_cat_slot _ => 0 | buy_qty_slot _ => a id end.


(** The row the extractor writes for package [food] solved at [x]. *)
Definition plan_row (row_data : data_row) (food : string) (x : Q) : result_row :=
  {| res_Store := Store row_data;
     res_Food := Food row_data;
     res_Package_Description := food;
     lb_per_package := lb row_data;
     price_per_package := price row_data;
     Qty_to_Buy := py_round x;
     Total_Weight_lb := py_round2 (lb row_data * inject_Z (py_round x));
     Weekly_Cost := py_round2 (price row_data * inject_Z (py_round x)) |}.

Definition status_message (st : status_t) : string :=
  ("Optimization failed with status: " ++ LpStatus st)%string.

(** The model before the diversity loop, written out. *)
Definition nutrient_model (data : list data_row) (req : required) : LpProblem :=
  {| prob_name := "Weekly_Shopping_Optimization";
     objective := Some {| terms := purchase_terms data price data; constant := 0 |};
     constraints := map (nutrient_requirement data req) nutrient_loop |}.

(** The model handed to the solver, written out. *)
Definition full_model (data : list data_row) (req : required) : LpProblem :=
  {| prob_name := "Weekly_Shopping_Optimization";
     objective := Some {| terms := purchase_terms data price data; constant := 0 |};
     constraints := map (nutrient_requirement data req) nutrient_loop
                    ++ diversity_constraints data |}.

(** The aggregate of a list of contributions. *)
Definition required_total (l : list required) : required :=
  fold_right required_add required_zero l.

(** [r] is the first row of the table that suits [m]. *)
Definition first_suiting (check : list check_row) (m : member) (r : check_row)
  : Prop :=
  exists before after,
    check = before ++ r :: after
    /\ row_suits m r
    /\ forall r', In r' before -> ~ row_suits m r'.

(** The row the resolver reads for a member, if any. *)
Definition selected_row (check : list check_row) (m : member) : option check_row :=
  hd_error (filter (row_mask m) check).

(** The first row of the joined catalog with a given description: the one
    the extractor reads. *)
Definition first_row_with (data : list data_row) (food : string) : option data_row :=
  find (fun r => (Package_Description r =? food)%string) data.

(** The rows the extractor writes for one entry of [buy_qty]: one row when
    the value is present and above zero, none otherwise. *)
Definition extracted (data : list data_row) (vals : values)
  (entry : string * LpVariable) : list result_row :=
  match vals (var_slot (snd entry)), first_row_with data (fst entry) with
  | Some x, Some r => if Qle_bool x 0 then [] else [plan_row r (fst entry) x]
  | _, _ => []
  end.

(** The line shown for one store. *)
Definition store_event (df : DataFrame) (store : string) : event :=
  st_store store
    (sum_Z (map Qty_to_Buy (df_rows (store_frame df store))))
    (py_sum (map Weekly_Cost (df_rows (store_frame df store))))
    (df_rows (store_frame df store)).

(** What the Optimal branch shows for a non-empty list of result rows. *)
Definition plan_events (results : list result_row) : list event :=
  [ st_success "✅ Optimization Complete!";
    st_metrics (py_sum (map Weekly_Cost results)) (sum_Z (map Qty_to_Buy results))
      (py_sum (map Total_Weight_lb results));
    st_dataframe results ]
  ++ map (store_event (DataFrame_of results))
       (sorted (unique (map res_Store results))).

(** What the Optimal branch leaves when no row was collected. *)
Definition empty_plan_events : list event :=
  [ st_success "✅ Optimization Complete!";
    st_error "Error during optimization: 'Weekly_Cost'";
    st_exception (KeyError "Weekly_Cost") ].

(** The joined catalog and the model of a session whose tables are loaded. *)
Definition session_data (cost : list cost_row) (nutrition : list nutrition_row)
  (stock : list stock_row) : list data_row :=
  merge_data cost nutrition stock.

Definition session_model (s : session_state) (cost : list cost_row)
  (nutrition : list nutrition_row) (check : list check_row)
  (stock : list stock_row) : LpProblem :=
  full_model (session_data cost nutrition stock)
    (required_nutrients check (household_members s)).

(** The session has its four tables and at least one member. *)
Definition loaded (s : session_state) (cost : list cost_row)
  (nutrition : list nutrition_row) (check : list check_row)
  (stock : list stock_row) : Prop :=
  household_members s <> []
  /\ cost_df s = Some cost
  /\ nutrition_df s = Some nutrition
  /\ check_df s = Some check
  /\ stock_df s = Some stock.

Definition is_st_exception (e : event) : bool :=
  match e with st_exception _ => true | _ => false end.

(** In model [m] exactly one constraint bears the name [name], and it
    says Σ_p content(p) × PurchaseDecision[p] + Σ_p content(p) × stock_lb(p)
    >= daily × 7: its terms are the contents of the rows on the purchase
    variables of their descriptions, the stock sum is the constant of its
    left-hand side, and the right-hand side is the number [daily × 7]. *)
Definition floor_constraint_reads (data : list data_row) (m : LpProblem)
  (name : string) (content : data_row -> Q) (daily : Q) : Prop :=
  exists c,
    filter (named name) (constraints m) = [c]
    /\ con_sense c = LpConstraintGE
    /\ con_rhs c = expr_of_number (daily * 7)
    /\ map fst (terms (con_lhs c)) = map content data
    /\ map (fun t => var_slot (snd t)) (terms (con_lhs c))
       = map (fun p => buy_qty_slot (Package_Description p)) data
    /\ constant (con_lhs c)
       == sumQ (map (fun p => content p * Quantity_in_Stock_lb p) data)
    /\ forall a : assignment,
         holds a c = true
         <-> daily * 7
             <= sumQ (map (fun p => content p * a (buy_qty_slot (Package_Description p)))
                        data)
                + sumQ (map (fun p => content p * Quantity_in_Stock_lb p) data).

(** ** Sample inputs *)

Definition rice : cost_row :=
  {| cost_Food := "Rice"; cost_Package_Description := "Rice, 5 lb (bag)";
     cost_Store := "Aldi"; cost_price := 5; cost_lb := 5 |}.

Definition milk : cost_row :=
  {| cost_Food := "Milk"; cost_Package_Description := "Milk 1 gal";
     cost_Store := "Costco"; cost_price := 333 # 100; cost_lb := 69 # 8 |}.

(** A second cost row with the description of [rice]. *)
Definition rice_again : cost_row :=
  {| cost_Food := "Rice"; cost_Package_Description := "Rice, 5 lb (bag)";
     cost_Store := "Costco"; cost_price := 4; cost_lb := 5 |}.

Definition rice_nutrition : nutrition_row :=
  {| nut_Food := "Rice"; nut_kcal := 8000; nut_Protein := 160;
     nut_Carbs := 1800; nut_Fat := 10;
     nut_Food_Basket := "Grains & Carbohydrate Sources";
     nut_Max_quantity := 3 |}.

(** A category outside the five listed ones. *)
Definition milk_nutrition : nutrition_row :=
  {| nut_Food := "Milk"; nut_kcal := 2400; nut_Protein := 128;
     nut_Carbs := 190; nut_Fat := 128;
     nut_Food_Basket := "Dairy";
     nut_Max_quantity := 4 |}.

Definition milk_stock : stock_row :=
  {| stock_Package_Description := "Milk 1 gal";
     stock_Quantity_in_Stock_lb := 2 |}.

Definition men_19_30 : check_row :=
  {| Age_Sex_Group := "Male"; Min_Age := 19; Max_Age := 30;
     Min_Calorie := 2400; min_Protein := 56; min_Carbohydrate := 130;
     min_Fat := 60 |}.

Definition women_19_30 : check_row :=
  {| Age_Sex_Group := "Female"; Min_Age := 19; Max_Age := 30;
     Min_Calorie := 2000; min_Protein := 46; min_Carbohydrate := 130;
     min_Fat := 50 |}.

Definition adam : member := {| age := 25; gender := male |}.
Definition eve : member := {| age := 30; gender := female |}.
Definition elder : member := {| age := 95; gender := male |}.

Definition sample_session : session_state :=
  {| household_members := [adam; eve];
     cost_df := Some [rice; milk];
     nutrition_df := Some [rice_nutrition; milk_nutrition];
     check_df := Some [men_19_30; women_19_30];
     stock_df := Some [milk_stock] |}.

(** The same session with a duplicated package description. *)
Definition duplicate_session : session_state :=
  {| household_members := [adam; eve];
     cost_df := Some [rice; milk; rice_again];
     nutrition_df := Some [rice_nutrition; milk_nutrition];
     check_df := Some [men_19_30; women_19_30];
     stock_df := Some [milk_stock] |}.

Definition empty_session : session_state :=
  {| household_members := [];
     cost_df := Some [rice; milk];
     nutrition_df := Some [rice_nutrition; milk_nutrition];
     check_df := Some [men_19_30; women_19_30];
     stock_df := Some [milk_stock] |}.

Definition sample_data : list data_row :=
  merge_data [rice; milk] [rice_nutrition; milk_nutrition] [milk_stock].

Definition sample_required : required :=
  required_nutrients [men_19_30; women_19_30] [adam; eve].

(** Solvers standing for possible answers of the external solver. *)
Definition infeasible_solver (m : LpProblem) : status_t * values :=
  (LpStatusInfeasible, fun _ => None).

Definition zero_solver (m : LpProblem) : status_t * values :=
  (LpStatusOptimal, fun _ => Some 0).

Definition sample_solver (m : LpProblem) : status_t * values :=
  (LpStatusOptimal,
   fun id =>
     match id with
     | buy_qty_slot "Rice, 5 lb (bag)" => Some 3
     | buy_qty_slot _ => Some 1
     | has_cat_slot _ => Some 0
     end).

(** An Optimal answer with one value a billionth above zero. *)
Definition near_zero_solver (m : LpProblem) : status_t * values :=
  (LpStatusOptimal,
   fun id =>
     match id with
     | buy_qty_slot "Rice, 5 lb (bag)" => Some (1 # 1000000000)
     | buy_qty_slot _ => Some 1
     | has_cat_slot _ => Some 0
     end).

Definition sample_assignment : assignment :=
  fun id =>
    match id with
    | buy_qty_slot "Rice, 5 lb (bag)" => 3
    | buy_qty_slot _ => 4
    | has_cat_slot _ => 1
    end.








(** ** Tab 1: the household roster *)

(** [str.upper()] on one ASCII character. *)
Definition upper_ascii (c : ascii) : ascii :=
  let n := nat_of_ascii c in
  if (97 <=? n)%nat && (n <=? 122)%nat then ascii_of_nat (n - 32) else c.

(** [str.capitalize()]: first character upper-cased, the rest lower-cased. *)
Definition capitalize (s : string) : string :=
  match s with
  | EmptyString => EmptyString
  | String c s' => String (upper_ascii c) (lower s')
  end.

Definition with_members (s : session_state) (members : list member) : session_state :=
  {| household_members := members;
     cost_df := cost_df s;
     nutrition_df := nutrition_df s;
     check_df := check_df s;
     stock_df := stock_df s |}.

(** The button "Add Member": [household_members.append({...})]. *)
Definition add_member_click (s : session_state) (member_age : Z)
  (member_gender : gender_t) : session_state :=
  with_members s
    (household_members s ++ [ {| age := member_age; gender := member_gender |} ]).

(** A row of [members_data]. *)
Record member_line := {
  Member_no : nat;
  line_Age : Z;
  line_Gender : string
}.

(** [for idx, member in enumerate(household_members)], [idx] starting at
    [start]. *)
Fixpoint members_data_from (start : nat) (members : list member) : list member_line :=
  match members with
  | [] => []
  | m :: rest =>
      {| Member_no := start + 1;
         line_Age := age m;
         line_Gender := capitalize (gender_str (gender m)) |}
      :: members_data_from (S start) rest
  end.

Definition members_data (members : list member) : list member_line :=
  members_data_from 0 members.

(** The dict [total_requirements] of tab 1. *)
Record total_requirements_t := {
  tot_Calories : Q;
  tot_Protein : Q;
  tot_Carbohydrates : Q;
  tot_Fat : Q
}.

Definition total_zero : total_requirements_t :=
  {| tot_Calories := 0; tot_Protein := 0; tot_Carbohydrates := 0; tot_Fat := 0 |}.

(** One iteration of the member loop of tab 1. *)
Definition total_step (check : list check_row) (acc : total_requirements_t)
  (m : member) : total_requirements_t :=
  match filter (row_mask m) check with
  | [] => acc
  | row :: _ =>
      {| tot_Calories := tot_Calories acc + Min_Calorie row;
         tot_Protein := tot_Protein acc + min_Protein row;
         tot_Carbohydrates := tot_Carbohydrates acc + min_Carbohydrate row;
         tot_Fat := tot_Fat acc + min_Fat row |}
  end.

Definition total_requirements (check : list check_row) (members : list member)
  : total_requirements_t :=
  fold_left (total_step check) members total_zero.

(** [f"{x:.0f}"]: the nearest whole number, a tie going to the even one.
    Only the number printed is kept: the text "-0" that Python prints for
    a value between -1/2 and 0 is the number 0. *)
Definition format_0f (x : Q) : Z := py_round x.

(** The four numbers printed in the "Weekly Requirements" line: calories,
    protein, carbohydrates and fat, each the daily total times 7, printed
    with [:.0f]. *)
Record weekly_line_t := {
  shown_calories : Z;
  shown_protein : Z;
  shown_carbs : Z;
  shown_fat : Z
}.

Definition weekly_line (t : total_requirements_t) : weekly_line_t :=
  {| shown_calories := format_0f (tot_Calories t * 7);
     shown_protein := format_0f (tot_Protein t * 7);
     shown_carbs := format_0f (tot_Carbohydrates t * 7);
     shown_fat := format_0f (tot_Fat t * 7) |}.

(** ** Tab 2 and the sidebar: the stock inventory *)

(** [stock_df[stock_df['Quantity_in_Stock_lb'] > 0]]. *)
Definition stock_display (stock : list stock_row) : list stock_row :=
  filter (fun r => negb (Qle_bool (stock_Quantity_in_Stock_lb r) 0)) stock.

(** What tab 2 shows. *)
Inductive tab2_view :=
| stock_table (rows : list stock_row) (total : nat)
| no_items_warning
| no_file_warning.

Definition tab2 (s : session_state) : tab2_view :=
  match stock_df s with
  | Some stock =>
      match stock_display stock with
      | [] => no_items_warning
      | r :: rs => stock_table (r :: rs) (List.length (r :: rs))
      end
  | None => no_file_warning
  end.

(** [len(stock_df[stock_df['Quantity_in_Stock_lb'] > 0])], computed by the
    sidebar on the table the session holds at that point of the script. *)
Definition stock_count (stock : list stock_row) : nat :=
  List.length
    (filter (fun r => negb (Qle_bool (stock_Quantity_in_Stock_lb r) 0)) stock).

Definition with_stock (s : session_state) (stock : list stock_row) : session_state :=
  {| household_members := household_members s;
     cost_df := cost_df s;
     nutrition_df := nutrition_df s;
     check_df := check_df s;
     stock_df := Some stock |}.

(** What the stock uploader of the sidebar holds in one run of the script:
    nothing, a file on which [pd.read_excel] raises (with the text of the
    error), or a workbook read as a stock table.  A workbook that is read
    is taken to have the column [Quantity_in_Stock_lb], as every stock
    table of this development has. *)
Inductive upload :=
| no_file
| unreadable_file (message : string)
| stock_file (table : list stock_row).

(** The lines the stock section of the sidebar writes. *)
Inductive sidebar_line :=
| stock_loaded (count : nat)
| custom_stock_loaded
| items_in_stock (count : nat)
| stock_error (message : string).

(** The stock section of the sidebar, in the order of the script: the line
    "Stock loaded (n items)" on the table the session holds, then the
    upload block, which on a workbook that is read replaces the session's
    table, announces it and counts again, and on an error reports it and
    leaves the session as it was.  The result is the lines written and the
    session the rest of the script sees. *)
Definition sidebar_stock (s : session_state) (u : upload)
  : list sidebar_line * session_state :=
  let loaded_line :=
    match stock_df s with
    | Some stock => [stock_loaded (stock_count stock)]
    | None => []
    end in
  match u with
  | no_file => (loaded_line, s)
  | unreadable_file message =>
      (loaded_line ++ [stock_error ("Error loading stock file: " ++ message)%string], s)
  | stock_file table =>
      (loaded_line ++ [custom_stock_loaded; items_in_stock (stock_count table)],
       with_stock s table)
  end.

(** One run of the script through the stock section of the sidebar and
    tab 2, which comes later in the script and reads the session the
    sidebar has left. *)
Definition stock_page (s : session_state) (u : upload)
  : list sidebar_line * tab2_view :=
  (fst (sidebar_stock s u), tab2 (snd (sidebar_stock s u))).

(** ** Vocabulary for the further properties *)

(** A character occurs in a text. *)
Fixpoint occurs (c : ascii) (s : string) : bool :=
  match s with
  | EmptyString => false
  | String a s' => Ascii.eqb a c || occurs c s'
  end.

(** A list of texts in ascending order. *)
Fixpoint ascending (l : list string) : Prop :=
  match l with
  | [] => True
  | x :: rest => (forall y, In y rest -> String.leb x y = true) /\ ascending rest
  end.

(** The listed categories that have a package in the joined catalog. *)
Definition present_categories (data : list data_row) : list string :=
  filter (fun c => match cat_items data c with [] => false | _ :: _ => true end)
    basket_categories.

(** No assignment satisfies the model. *)
Definition infeasible (m : LpProblem) : Prop := forall a, ~ feasible m a.

(** Buying nothing, every indicator at 0. *)
Definition buy_nothing : assignment := zero_indicators (fun _ => 0).

(** All numbers of the joined catalog are non-negative. *)
Definition nonneg_catalog (data : list data_row) : Prop :=
  forall p, In p data ->
    0 <= price p /\ 0 <= Quantity_in_Stock_lb p
    /\ forall n, 0 <= nutrient_col n p.

(** The store lines of a trace: store, packages, cost, rows. *)
Definition store_lines (w : list event) : list (string * Z * Q * list result_row) :=
  flat_map (fun e => match e with
                     | st_store store packages cost rows => [(store, packages, cost, rows)]
                     | _ => []
                     end) w.

Definition line_store (l : string * Z * Q * list result_row) : string :=
  fst (fst (fst l)).
Definition line_packages (l : string * Z * Q * list result_row) : Z :=
  snd (fst (fst l)).
Definition line_cost (l : string * Z * Q * list result_row) : Q := snd (fst l).
Definition line_rows (l : string * Z * Q * list result_row) : list result_row := snd l.

(** The metrics lines of a trace: total cost, total packages, total weight. *)
Definition metrics_lines (w : list event) : list (Q * Z * Q) :=
  flat_map (fun e => match e with
                     | st_metrics tc ti tw => [(tc, ti, tw)]
                     | _ => []
                     end) w.

(** The scenario of an unreachable protein floor: one package without
    protein, one man of 25. *)
Definition broth : cost_row :=
  {| cost_Food := "Broth"; cost_Package_Description := "Broth 1 qt";
     cost_Store := "Aldi"; cost_price := 10; cost_lb := 2 |}.

Definition broth_nutrition : nutrition_row :=
  {| nut_Food := "Broth"; nut_kcal := 2000; nut_Protein := 0;
     nut_Carbs := 0; nut_Fat := 0;
     nut_Food_Basket := "Protein";
     nut_Max_quantity := 10 |}.

Definition broth_data : list data_row := merge_data [broth] [broth_nutrition] [].

Definition broth_required : required :=
  required_nutrients
    [ {| Age_Sex_Group := "Male"; Min_Age := 19; Max_Age := 30;
         Min_Calorie := 2000; min_Protein := 50; min_Carbohydrate := 0;
         min_Fat := 0 |} ]
    [adam].

(** The printed whole number [shown] stands for the floor of the one
    constraint of the model named [name]: that constraint is a >= whose
    right-hand side is a number at most one half away from [shown], and
    equal to it when the number is whole. *)
Definition shown_floor (m : LpProblem) (name : string) (shown : Z) : Prop :=
  exists c w,
    filter (named name) (constraints m) = [c]
    /\ con_sense c = LpConstraintGE
    /\ con_rhs c = expr_of_number w
    /\ - (1 # 2) <= inject_Z shown - w <= 1 # 2
    /\ (is_integer w = true -> inject_Z shown == w).

(** The rows of a stock table with a quantity above zero, in the order of
    the table. *)
Fixpoint positive_rows (stock : list stock_row) : list stock_row :=
  match stock with
  | [] => []
  | r :: rest =>
      if Qlt_le_dec 0 (stock_Quantity_in_Stock_lb r)
      then r :: positive_rows rest
      else positive_rows rest
  end.

(** The table tab 2 reads in a run: the uploaded one when a workbook was
    read in that run, otherwise the one the session held. *)
Definition table_after (s : session_state) (u : upload) : option (list stock_row) :=
  match u with
  | stock_file table => Some table
  | _ => stock_df s
  end.

(** A session holding an empty pantry, into which a workbook with the
    sample stock is uploaded. *)
Definition empty_pantry_session : session_state := with_stock sample_session [].

(** Two stock tables with the same descriptions, row by row, the second
    with at least the quantities of the first. *)
Definition restocked (stock stock' : list stock_row) : Prop :=
  Forall2 (fun st st' =>
             stock_Package_Description st' = stock_Package_Description st
             /\ stock_Quantity_in_Stock_lb st <= stock_Quantity_in_Stock_lb st')
    stock stock'.

(** Two rows of a joined catalog that differ at most by a larger stock in
    the second. *)
Definition same_but_more_stock (p p' : data_row) : Prop :=
  exists q, Quantity_in_Stock_lb p <= q
            /\ p' = {| Food := Food p;
                       Package_Description := Package_Description p;
                       Store := Store p; price := price p; lb := lb p;
                       kcal := kcal p; Protein_g := Protein_g p;
                       Carbs_g := Carbs_g p; Fat_g := Fat_g p;
                       Food_Basket := Food_Basket p;
                       Max_quantity := Max_quantity p;
                       Quantity_in_Stock_lb := q |}.

(** A second pantry with one more stock row than the sample one. *)
Definition fuller_milk_stock : stock_row :=
  {| stock_Package_Description := "Milk 1 gal";
     stock_Quantity_in_Stock_lb := 3 |}.
(** * Properties *)

(** ** Sums *)

Lemma fold_left_Qplus_acc (l : list Q) (acc : Q) :
  fold_left Qplus l acc == acc + sumQ l.
Proof.
  revert acc; induction l as [|x l IH]; intros acc; simpl.
  - ring.
  - rewrite IH. ring.
Qed.

Lemma py_sum_sumQ (l : list Q) : py_sum l == sumQ l.
Proof. unfold py_sum. rewrite fold_left_Qplus_acc. ring. Qed.

Lemma sumQ_ones {A} (l : list A) :
  sumQ (map (fun _ => 1) l) == inject_Z (Z.of_nat (List.length l)).
Proof.
  induction l as [|x l IH]; simpl List.length; simpl sumQ.
  - reflexivity.
  - rewrite IH, Nat2Z.inj_succ, <- Z.add_1_l, inject_Z_plus. reflexivity.
Qed.

Lemma stocked_count_spec (items : list data_row) :
  stocked_count items == inject_Z (Z.of_nat (stocked_packages items)).
Proof.
  unfold stocked_count, stocked_packages.
  rewrite py_sum_sumQ. apply sumQ_ones.
Qed.

(** ** Dicts *)

Lemma dict_getitem_setitem {V} (d : pydict V) (k k' : string) (v : V) :
  dict_getitem (dict_setitem d k v) k'
  = if (k =? k')%string then Ok v else dict_getitem d k'.
Proof.
  induction d as [|[k0 v0] d IH]; simpl.
  - reflexivity.
  - destruct (String.eqb_spec k0 k) as [->|Hne]; simpl.
    + destruct (k =? k')%string; reflexivity.
    + rewrite IH.
      destruct (String.eqb_spec k0 k') as [->|Hne'].
      * destruct (String.eqb_spec k k') as [->|_]; [congruence | reflexivity].
      * reflexivity.
Qed.

Lemma find_app {A} (f : A -> bool) (l1 l2 : list A) :
  find f (l1 ++ l2) = match find f l1 with Some x => Some x | None => find f l2 end.
Proof.
  induction l1 as [|x l1 IH]; simpl; [reflexivity|].
  destruct (f x); [reflexivity | exact IH].
Qed.

Lemma buy_qty_getitem_gen (l : list data_row) (acc : pydict LpVariable) (d : string) :
  dict_getitem
    (fold_left (fun dict x => dict_setitem dict (Package_Description x) (make_buy_var x))
       l acc) d
  = match find (fun r => (Package_Description r =? d)%string) (rev l) with
    | Some r => Ok (make_buy_var r)
    | None => dict_getitem acc d
    end.
Proof.
  revert acc; induction l as [|x l IH]; intros acc; simpl.
  - reflexivity.
  - rewrite IH, find_app.
    destruct (find _ (rev l)); [reflexivity|].
    simpl. rewrite dict_getitem_setitem.
    destruct (Package_Description x =? d)%string; reflexivity.
Qed.

Lemma buy_qty_getitem (data : list data_row) (d : string) :
  dict_getitem (buy_qty data) d
  = match last_row_of data d with
    | Some r => Ok (make_buy_var r)
    | None => Raise (KeyError d)
    end.
Proof. unfold buy_qty, dict_comprehension, last_row_of. apply buy_qty_getitem_gen. Qed.

Lemma last_row_of_some (data : list data_row) (d : string) (r : data_row) :
  last_row_of data d = Some r -> In r data /\ Package_Description r = d.
Proof.
  unfold last_row_of. intros H. apply find_some in H. destruct H as [Hin Heq].
  split; [now apply in_rev | now apply String.eqb_eq].
Qed.

Lemma last_row_of_in (data : list data_row) (r : data_row) :
  In r data -> exists r', last_row_of data (Package_Description r) = Some r'.
Proof.
  intros Hin. unfold last_row_of.
  destruct (find _ (rev data)) as [r'|] eqn:E; [now exists r'|].
  pose proof (find_none _ _ E r) as Hn. simpl in Hn.
  rewrite String.eqb_refl in Hn. apply in_rev in Hin.
  specialize (Hn Hin). discriminate.
Qed.

Lemma make_buy_var_last (data : list data_row) (d : string) (r : data_row) :
  last_row_of data d = Some r -> make_buy_var r = PurchaseDecision data d.
Proof.
  intros H. pose proof (last_row_of_some _ _ _ H) as [_ Hd].
  unfold make_buy_var, PurchaseDecision, declared_max. rewrite H, Hd. reflexivity.
Qed.

Lemma buy_qty_getitem_in (data : list data_row) (r : data_row) :
  In r data ->
  dict_getitem (buy_qty data) (Package_Description r)
  = Ok (PurchaseDecision data (Package_Description r)).
Proof.
  intros Hin. rewrite buy_qty_getitem.
  destruct (last_row_of_in _ _ Hin) as [r' Hr']. rewrite Hr'.
  now rewrite (make_buy_var_last _ _ _ Hr').
Qed.

Lemma lpSum_rows_ok (data : list data_row) (coef : data_row -> Q) (rows : list data_row) :
  incl rows data ->
  lpSum_rows (buy_qty data) coef rows = Ok (purchase_terms data coef rows).
Proof.
  unfold lpSum_rows, purchase_terms.
  induction rows as [|r rows IH]; intros Hincl; simpl.
  - reflexivity.
  - rewrite buy_qty_getitem_in by (apply Hincl; now left). simpl.
    rewrite IH by (intros x Hx; apply Hincl; now right). reflexivity.
Qed.

Lemma cat_items_incl (data : list data_row) (c : string) : incl (cat_items data c) data.
Proof. intros x Hx. unfold cat_items in Hx. now apply filter_In in Hx. Qed.

(** ** The model builder never raises, and what it builds *)

Lemma build_nutrient_model_ok (data : list data_row) (req : required) :
  build_nutrient_model data req = Ok (nutrient_model data req).
Proof.
  unfold build_nutrient_model, build_objective, nutrient_loop.
  rewrite lpSum_rows_ok by apply incl_refl. simpl.
  unfold nutrient_step.
  repeat (rewrite lpSum_rows_ok by apply incl_refl; simpl).
  reflexivity.
Qed.

Lemma has_cat_getitem (c : string) :
  In c basket_categories -> dict_getitem has_cat c = Ok (CategoryPresenceIndicator c).
Proof.
  unfold basket_categories. simpl.
  intros [<-|[<-|[<-|[<-|[<-|[]]]]]]; reflexivity.
Qed.

Lemma with_constraints_id (m : LpProblem) :
  {| prob_name := prob_name m; objective := objective m;
     constraints := constraints m ++ [] |} = m.
Proof. destruct m; simpl. now rewrite app_nil_r. Qed.

Lemma diversity_step_ok (data : list data_row) (m : LpProblem) (c : string) :
  In c basket_categories ->
  diversity_step (buy_qty data) has_cat data m c
  = Ok {| prob_name := prob_name m; objective := objective m;
          constraints := constraints m ++ diversity_of data c |}.
Proof.
  intros Hc. unfold diversity_step.
  rewrite lpSum_rows_ok by apply cat_items_incl.
  rewrite (has_cat_getitem c Hc). simpl.
  unfold diversity_of, presence_constraint, indicator_bound, add_constraint.
  destruct (cat_items data c) as [|r items]; simpl.
  - now rewrite with_constraints_id.
  - now rewrite <- app_assoc.
Qed.

Lemma diversity_loop_ok (data : list data_row) (cats : list string) :
  incl cats basket_categories ->
  forall m,
    for_loop (diversity_step (buy_qty data) has_cat data) cats m
    = Ok {| prob_name := prob_name m; objective := objective m;
            constraints := constraints m ++ flat_map (diversity_of data) cats |}.
Proof.
  induction cats as [|c cats IH]; intros Hincl m; simpl.
  - now rewrite with_constraints_id.
  - rewrite diversity_step_ok by (apply Hincl; now left). simpl.
    rewrite IH by (intros x Hx; apply Hincl; now right). simpl.
    now rewrite <- app_assoc.
Qed.

Lemma build_model_ok (data : list data_row) (req : required) :
  build_model data req = Ok (full_model data req).
Proof.
  unfold build_model. rewrite build_nutrient_model_ok. cbn [bind].
  rewrite diversity_loop_ok by apply incl_refl. reflexivity.
Qed.

(** ** Reading the constraints *)

Lemma eval_purchase_terms (a : assignment) (data : list data_row)
  (coef : data_row -> Q) (rows : list data_row) :
  eval_terms a (purchase_terms data coef rows)
  = sumQ (map (fun p => coef p * a (buy_qty_slot (Package_Description p))) rows).
Proof.
  unfold eval_terms, purchase_terms, sumQ.
  induction rows as [|r rows IH]; simpl; [reflexivity | now rewrite IH].
Qed.

Lemma filter_nil_of {A} (f : A -> bool) (l : list A) :
  (forall x, In x l -> f x = false) -> filter f l = [].
Proof.
  induction l as [|x l IH]; intros H; simpl; [reflexivity|].
  rewrite (H x) by now left. apply IH. intros y Hy. apply H. now right.
Qed.

Lemma in_diversity_constraints (data : list data_row) (c : LpConstraint) :
  In c (diversity_constraints data) ->
  exists cat, In cat basket_categories /\ cat_items data cat <> []
              /\ (c = presence_constraint data cat \/ c = indicator_bound cat).
Proof.
  unfold diversity_constraints. intros H. apply in_flat_map in H.
  destruct H as [cat [Hcat Hc]]. exists cat. split; [exact Hcat|].
  unfold diversity_of in Hc. destruct (cat_items data cat) eqn:E; simpl in Hc.
  - contradiction.
  - split; [discriminate|]. destruct Hc as [<-|[<-|[]]]; [left | right]; reflexivity.
Qed.

Lemma diversity_not_nutrient (data : list data_row) (n : nutrient) (c : LpConstraint) :
  In c (diversity_constraints data) ->
  named (nutrient_key n ++ "_requirement") c = false /\ floor_shaped c = false.
Proof.
  intros H. destruct (in_diversity_constraints _ _ H) as [cat [Hcat [_ Hc]]].
  unfold basket_categories in Hcat. simpl in Hcat.
  destruct Hc as [-> | ->]; (split; [|reflexivity]).
  - destruct Hcat as [<-|[<-|[<-|[<-|[<-|[]]]]]]; destruct n; reflexivity.
  - reflexivity.
Qed.

Lemma purchase_terms_coefficients (data : list data_row) (coef : data_row -> Q)
  (rows : list data_row) :
  map fst (purchase_terms data coef rows) = map coef rows
  /\ map (fun t => var_slot (snd t)) (purchase_terms data coef rows)
     = map (fun p => buy_qty_slot (Package_Description p)) rows.
Proof.
  unfold purchase_terms. rewrite !map_map. split; reflexivity.
Qed.

Lemma nutrient_floor_reads (data : list data_row) (req : required) (n : nutrient) :
  floor_constraint_reads data (full_model data req)
    (nutrient_key n ++ "_requirement") (nutrient_col n) (required_get req n).
Proof.
  assert (Hstock : stock_term data n
                   == sumQ (map (fun p => nutrient_col n p * Quantity_in_Stock_lb p) data))
    by (unfold stock_term; apply py_sum_sumQ).
  exists (nutrient_requirement data req n).
  split.
  { unfold full_model; cbn [constraints]. rewrite filter_app.
    rewrite (filter_nil_of _ (diversity_constraints data))
      by (intros c Hc; apply (diversity_not_nutrient data n c Hc)).
    rewrite app_nil_r. destruct n; reflexivity. }
  split; [reflexivity|]. split; [reflexivity|].
  unfold nutrient_requirement; cbn [con_lhs terms constant].
  split; [apply purchase_terms_coefficients|].
  split; [apply purchase_terms_coefficients|].
  split; [exact Hstock|].
  intros a. unfold holds, eval_expr;
    cbn [con_sense con_lhs con_rhs terms constant expr_of_number].
  change (eval_terms a []) with 0.
  rewrite Qle_bool_iff, eval_purchase_terms, Hstock.
  split; intros H; lra.
Qed.

Lemma floor_shaped_constraints (data : list data_row) (req : required) :
  filter floor_shaped (constraints (full_model data req))
  = map (nutrient_requirement data req) nutrient_loop.
Proof.
  unfold full_model; cbn [constraints]. rewrite filter_app.
  rewrite (filter_nil_of _ (diversity_constraints data))
    by (intros c Hc; apply (diversity_not_nutrient data Protein c Hc)).
  rewrite app_nil_r. reflexivity.
Qed.

(** C1.  The model handed to the solver holds, for each of the four
    nutrients, exactly one requirement constraint.  Under the name
    [Min_Calorie_requirement] there is one constraint and it reads
    Σ_p kcal(p) × PurchaseDecision[p] + Σ_p kcal(p) × stock_lb(p)
    >= (aggregate daily calories) × 7, the stock sum being the constant of
    its left-hand side; likewise protein with the column Protein (g),
    carbohydrate with Carbs (g) and fat with Fat (g), each against its own
    daily requirement.  These four are the only constraints of the model
    with a number on the right of [>=]. *)
Theorem nutrient_constraint_per_nutrient (data : list data_row) (req : required) :
  exists m,
    build_model data req = Ok m
    /\ floor_constraint_reads data m "Min_Calorie_requirement" kcal
         (req_Min_Calorie req)
    /\ floor_constraint_reads data m "Min_Protein_requirement" Protein_g
         (req_Min_Protein req)
    /\ floor_constraint_reads data m "Min_Carbohydrate_requirement" Carbs_g
         (req_Min_Carbohydrate req)
    /\ floor_constraint_reads data m "Min_Fat_requirement" Fat_g
         (req_Min_Fat req)
    /\ List.length (filter floor_shaped (constraints m)) = 4%nat
    /\ (forall c, In c (filter floor_shaped (constraints m)) ->
                   In (con_name c)
                      [ Some "Min_Calorie_requirement";
                        Some "Min_Protein_requirement";
                        Some "Min_Carbohydrate_requirement";
                        Some "Min_Fat_requirement" ]).
Proof.
  exists (full_model data req). split; [apply build_model_ok|].
  split; [exact (nutrient_floor_reads data req Calorie)|].
  split; [exact (nutrient_floor_reads data req Protein)|].
  split; [exact (nutrient_floor_reads data req Carbohydrate)|].
  split; [exact (nutrient_floor_reads data req Fat)|].
  rewrite floor_shaped_constraints. split; [reflexivity|].
  intros c Hc. apply in_map_iff in Hc. destruct Hc as [n [<- _]].
  destruct n; simpl; tauto.
Qed.

(** ** Requirement resolver *)

Lemma lower_ascii_fold_case (c : ascii) : lower_ascii c = fold_case c.
Proof. destruct c as [[] [] [] [] [] [] [] []]; reflexivity. Qed.

Lemma lower_fold_case_text (s : string) : lower s = fold_case_text s.
Proof.
  induction s as [|c s IH]; simpl; [reflexivity|].
  now rewrite lower_ascii_fold_case, IH.
Qed.

Lemma fold_case_gender_str (g : gender_t) :
  fold_case_text (gender_str g) = gender_str g.
Proof. destruct g; reflexivity. Qed.

Lemma row_mask_suits (m : member) (r : check_row) :
  row_mask m r = true <-> row_suits m r.
Proof.
  unfold row_mask, row_suits, case_insensitive_eq.
  rewrite !andb_true_iff, String.eqb_eq, !Qle_bool_iff.
  rewrite lower_fold_case_text, fold_case_gender_str.
  tauto.
Qed.

Lemma selected_row_none (check : list check_row) (m : member) :
  selected_row check m = None -> forall r, In r check -> ~ row_suits m r.
Proof.
  unfold selected_row. intros H r Hin Hs.
  apply row_mask_suits in Hs.
  assert (Hf : In r (filter (row_mask m) check)) by (apply filter_In; now split).
  destruct (filter (row_mask m) check); [contradiction | discriminate].
Qed.

Lemma selected_row_some (check : list check_row) (m : member) (r : check_row) :
  selected_row check m = Some r -> first_suiting check m r.
Proof.
  unfold selected_row, first_suiting.
  induction check as [|x check IH]; simpl; [discriminate|].
  destruct (row_mask m x) eqn:E; simpl.
  - intros [= ->]. exists [], check.
    split; [reflexivity|]. split; [now apply row_mask_suits | intros r' []].
  - intros H. destruct (IH H) as [before [after [-> [Hs Hb]]]].
    exists (x :: before), after. split; [reflexivity|]. split; [exact Hs|].
    intros r' [<-|Hin].
    + intros Hx. apply row_mask_suits in Hx. congruence.
    + now apply Hb.
Qed.

Lemma add_member_selected (check : list check_row) (acc : required) (m : member) :
  add_member check acc m
  = match selected_row check m with
    | Some r => required_add acc (contribution (Some r))
    | None => acc
    end.
Proof.
  unfold add_member, selected_row.
  destruct (filter (row_mask m) check); reflexivity.
Qed.

Lemma required_eq_refl (a : required) : required_eq a a.
Proof. unfold required_eq; repeat split; reflexivity. Qed.

Lemma fold_add_member (check : list check_row) (members : list member) (acc : required) :
  required_eq (fold_left (add_member check) members acc)
    (required_add acc
       (required_total (map (fun m => contribution (selected_row check m)) members))).
Proof.
  revert acc; induction members as [|m members IH]; intros acc; simpl.
  - unfold required_eq; simpl; repeat split; ring.
  - specialize (IH (add_member check acc m)).
    rewrite add_member_selected in IH |- *.
    destruct IH as (H1 & H2 & H3 & H4).
    destruct (selected_row check m) as [r|]; simpl in *;
      unfold required_eq; simpl; rewrite H1, H2, H3, H4;
      repeat split; ring.
Qed.

Lemma resolve_requirements_ok (s : session_state) (check : list check_row) :
  check_df s = Some check ->
  resolve_requirements s = Ok (required_nutrients check (household_members s)).
Proof.
  intros H. unfold resolve_requirements, required_nutrients. rewrite H.
  generalize required_zero.
  induction (household_members s) as [|m ms IH]; intros acc; simpl;
    [reflexivity | apply IH].
Qed.

(** C6.  With the requirement table loaded, the resolver returns without
    raising.  For each member it reads the first row of the table whose
    group equals the member's gender up to letter case and whose inclusive
    range [Min_Age, Max_Age] holds the member's age, and adds that row's
    four daily minimums; a member no row suits adds nothing.  The
    aggregate is the sum of these contributions. *)
Theorem requirement_resolver_selects (s : session_state) (check : list check_row) :
  check_df s = Some check ->
  resolve_requirements s = Ok (required_nutrients check (household_members s))
  /\ required_eq (required_nutrients check (household_members s))
       (required_total
          (map (fun m => contribution (selected_row check m)) (household_members s)))
  /\ (forall m acc,
        match selected_row check m with
        | Some r => first_suiting check m r
                    /\ add_member check acc m
                       = required_add acc (contribution (Some r))
        | None => (forall r, In r check -> ~ row_suits m r)
                  /\ add_member check acc m = acc
        end).
Proof.
  intros Hc. split; [now apply resolve_requirements_ok|]. split.
  - unfold required_nutrients.
    pose proof (fold_add_member check (household_members s) required_zero) as H.
    destruct H as (H1 & H2 & H3 & H4).
    unfold required_eq. rewrite H1, H2, H3, H4. simpl. repeat split; ring.
  - intros m acc. rewrite add_member_selected.
    destruct (selected_row check m) as [r|] eqn:E.
    + split; [now apply selected_row_some | reflexivity].
    + split; [now apply selected_row_none | reflexivity].
Qed.

Lemma requirement_resolver_selects_witness :
  check_df sample_session = Some [men_19_30; women_19_30]
  /\ case_insensitive_eq "Male" "male"
  /\ case_insensitive_eq "Female" "female"
  /\ ~ case_insensitive_eq "Male" "female"
  /\ first_suiting [men_19_30; women_19_30] adam men_19_30
  /\ first_suiting [men_19_30; women_19_30] eve women_19_30
  /\ exists r,
       resolve_requirements sample_session = Ok r
       /\ req_Min_Calorie r == 4400
       /\ req_Min_Protein r == 102
       /\ req_Min_Carbohydrate r == 260
       /\ req_Min_Fat r == 110.
Proof.
  destruct (requirement_resolver_selects sample_session
              [men_19_30; women_19_30] eq_refl) as (Hres & _ & Hsel).
  split; [reflexivity|]. split; [reflexivity|]. split; [reflexivity|].
  split; [discriminate|].
  split; [exact (proj1 (Hsel adam required_zero))|].
  split; [exact (proj1 (Hsel eve required_zero))|].
  exists (required_nutrients [men_19_30; women_19_30] [adam; eve]).
  split; [exact Hres|]. repeat split; vm_compute; reflexivity.
Defined.

(** ** Diversity constraints *)







Lemma holds_presence (data : list data_row) (c : string) (a : assignment) :
  holds a (presence_constraint data c) = true
  <-> a (has_cat_slot c)
      <= sumQ (map (fun p => a (buy_qty_slot (Package_Description p)))
                 (cat_items data c))
         + inject_Z (Z.of_nat (stocked_packages (cat_items data c))).
Proof.
  unfold holds, presence_constraint, eval_expr;
    cbn [con_sense con_lhs con_rhs terms constant expr_of_var CategoryPresenceIndicator].
  rewrite Qle_bool_iff, eval_purchase_terms, stocked_count_spec.
  unfold eval_terms; cbn [fold_right fst snd make_has_cat var_slot].
  assert (E : sumQ (map (fun p => 1 * a (buy_qty_slot (Package_Description p)))
                     (cat_items data c))
              == sumQ (map (fun p => a (buy_qty_slot (Package_Description p)))
                         (cat_items data c))).
  { induction (cat_items data c) as [|r l IH]; simpl; [reflexivity|].
    rewrite IH. ring. }
  rewrite E. cbn [var_slot CategoryPresenceIndicator make_has_cat].
  split; intros H; lra.
Qed.

Lemma holds_indicator_bound (c : string) (a : assignment) :
  holds a (indicator_bound c) = true <-> a (has_cat_slot c) <= 1.
Proof.
  unfold holds, indicator_bound, eval_expr, eval_terms; simpl.
  rewrite Qle_bool_iff. split; intros H; lra.
Qed.




(** ** The dict of purchase variables *)

Lemma dict_getitem_In {V} (d : pydict V) (k : string) (v : V) :
  dict_getitem d k = Ok v -> In (k, v) d.
Proof.
  induction d as [|[k0 v0] d IH]; simpl; [discriminate|].
  destruct (String.eqb_spec k0 k) as [->|Hne].
  - intros [= ->]. now left.
  - intros H. right. now apply IH.
Qed.

Lemma dict_setitem_keys {V} (d : pydict V) (k : string) (v : V) :
  map fst (dict_setitem d k v)
  = if existsb (String.eqb k) (map fst d) then map fst d else map fst d ++ [k].
Proof.
  induction d as [|[k0 v0] d IH]; simpl; [reflexivity|].
  rewrite (String.eqb_sym k k0).
  destruct (k0 =? k)%string; simpl; [reflexivity|].
  rewrite IH. destruct (existsb (String.eqb k) (map fst d)); reflexivity.
Qed.

Lemma dict_setitem_NoDup {V} (d : pydict V) (k : string) (v : V) :
  NoDup (map fst d) -> NoDup (map fst (dict_setitem d k v)).
Proof.
  intros Hnd. rewrite dict_setitem_keys.
  destruct (existsb (String.eqb k) (map fst d)) eqn:E; [exact Hnd|].
  apply NoDup_app; [exact Hnd | repeat constructor; intros [] |].
  intros x Hx [<-|[]].
  assert (existsb (String.eqb k) (map fst d) = true); [|congruence].
  apply existsb_exists. exists k. split; [exact Hx | apply String.eqb_refl].
Qed.

Lemma dict_comprehension_NoDup {A V} (key : A -> string) (val : A -> V) (l : list A) :
  NoDup (map fst (dict_comprehension key val l)).
Proof.
  unfold dict_comprehension.
  assert (G : forall acc : pydict V,
             NoDup (map fst acc) ->
             NoDup (map fst (fold_left (fun d x => dict_setitem d (key x) (val x)) l acc))).
  { induction l as [|x l IH]; intros acc Hacc; simpl; [exact Hacc|].
    apply IH. now apply dict_setitem_NoDup. }
  apply G. constructor.
Qed.

Lemma dict_In_getitem {V} (d : pydict V) (k : string) (v : V) :
  NoDup (map fst d) -> In (k, v) d -> dict_getitem d k = Ok v.
Proof.
  induction d as [|[k0 v0] d IH]; simpl; [intros _ []|].
  intros Hnd [[= -> ->]|Hin].
  - now rewrite String.eqb_refl.
  - inversion Hnd as [|? ? Hnot Hnd']; subst.
    destruct (String.eqb_spec k0 k) as [->|Hne].
    + exfalso. apply Hnot. change k with (fst (k, v)). now apply in_map.
    + now apply IH.
Qed.

(** An entry of [buy_qty] is a description of the joined catalog with the
    purchase variable of that description. *)
Lemma buy_qty_entry (data : list data_row) (food : string) (v : LpVariable) :
  In (food, v) (buy_qty data) ->
  v = PurchaseDecision data food
  /\ exists r, last_row_of data food = Some r.
Proof.
  intros Hin.
  apply dict_In_getitem in Hin; [|apply dict_comprehension_NoDup].
  rewrite buy_qty_getitem in Hin.
  destruct (last_row_of data food) as [r|] eqn:E; [|discriminate].
  injection Hin as <-. split; [now apply make_buy_var_last | now exists r].
Qed.

Lemma buy_qty_has_row (data : list data_row) (p : data_row) :
  In p data ->
  In (Package_Description p, PurchaseDecision data (Package_Description p))
    (buy_qty data).
Proof. intros Hin. apply dict_getitem_In. now apply buy_qty_getitem_in. Qed.

Lemma in_domain_purchase (data : list data_row) (d : string) (x : Q) :
  in_domain (PurchaseDecision data d) x = true ->
  0 <= x /\ x <= declared_max data d /\ is_integer x = true.
Proof.
  unfold in_domain, PurchaseDecision; simpl.
  rewrite !andb_true_iff, !Qle_bool_iff. tauto.
Qed.

(** ** The diversity constraints do not bind *)

Lemma purchase_terms_vars (data : list data_row) (coef : data_row -> Q)
  (rows : list data_row) (v : LpVariable) :
  In v (map snd (purchase_terms data coef rows)) ->
  exists p, In p rows /\ v = PurchaseDecision data (Package_Description p).
Proof.
  unfold purchase_terms. rewrite map_map. simpl. intros H.
  apply in_map_iff in H. destruct H as [p [<- Hp]]. now exists p.
Qed.

Lemma purchases_in_bounds_nonneg (data : list data_row) (a : assignment) :
  purchases_in_bounds data a ->
  forall p, In p data -> 0 <= a (buy_qty_slot (Package_Description p)).
Proof.
  intros Hb p Hp. specialize (Hb _ _ (buy_qty_has_row data p Hp)).
  now apply in_domain_purchase in Hb.
Qed.

Lemma feasible_nutrient_in_bounds (data : list data_row) (req : required)
  (a : assignment) :
  feasible (nutrient_model data req) a -> purchases_in_bounds data a.
Proof.
  intros [Hv _] food v Hin.
  destruct (buy_qty_entry _ _ _ Hin) as [-> [r Hr]].
  destruct (last_row_of_some _ _ _ Hr) as [Hrin <-].
  apply Hv. unfold model_vars, nutrient_model, expr_vars; cbn [objective terms].
  apply in_or_app. left. unfold purchase_terms.
  apply in_map_iff. exists (price r, PurchaseDecision data (Package_Description r)).
  split; [reflexivity|].
  apply in_map_iff. now exists r.
Qed.

Lemma sumQ_nonneg {A} (f : A -> Q) (l : list A) :
  (forall x, In x l -> 0 <= f x) -> 0 <= sumQ (map f l).
Proof.
  induction l as [|x l IH]; intros H; simpl.
  - apply Qle_refl.
  - assert (0 <= f x) by (apply H; now left).
    assert (0 <= sumQ (map f l)) by (apply IH; intros y Hy; apply H; now right).
    lra.
Qed.

Lemma inject_nat_nonneg (n : nat) : 0 <= inject_Z (Z.of_nat n).
Proof. unfold Qle; simpl. lia. Qed.

Lemma diversity_holds_at_zero (data : list data_row) (a : assignment) :
  (forall p, In p data -> 0 <= a (buy_qty_slot (Package_Description p))) ->
  forall c, In c (diversity_constraints data) -> holds (zero_indicators a) c = true.
Proof.
  intros Hnn c Hc.
  destruct (in_diversity_constraints _ _ Hc) as [cat [_ [_ [-> | ->]]]].
  - apply holds_presence. cbn [zero_indicators].
    assert (0 <= sumQ (map (fun p => a (buy_qty_slot (Package_Description p)))
                         (cat_items data cat))).
    { apply sumQ_nonneg. intros p Hp. apply Hnn. now apply (cat_items_incl data cat). }
    pose proof (inject_nat_nonneg (stocked_packages (cat_items data cat))).
    lra.
  - apply holds_indicator_bound. cbn [zero_indicators]. lra.
Qed.

Lemma eval_terms_zero_indicators (data : list data_row) (coef : data_row -> Q)
  (rows : list data_row) (a : assignment) :
  eval_terms (zero_indicators a) (purchase_terms data coef rows)
  = eval_terms a (purchase_terms data coef rows).
Proof. now rewrite !eval_purchase_terms. Qed.

Lemma holds_nutrient_zero_indicators (data : list data_row) (req : required)
  (n : nutrient) (a : assignment) :
  holds (zero_indicators a) (nutrient_requirement data req n)
  = holds a (nutrient_requirement data req n).
Proof.
  unfold holds, nutrient_requirement, eval_expr;
    cbn [con_sense con_lhs con_rhs terms constant expr_of_number].
  now rewrite eval_terms_zero_indicators.
Qed.

Lemma objective_zero_indicators (data : list data_row) (req : required) (a : assignment) :
  objective_value (full_model data req) (zero_indicators a)
  = objective_value (nutrient_model data req) a.
Proof.
  unfold objective_value, full_model, nutrient_model, eval_expr; cbn [objective terms constant].
  now rewrite eval_terms_zero_indicators.
Qed.

Lemma model_vars_full (data : list data_row) (req : required) (v : LpVariable) :
  In v (model_vars (full_model data req)) ->
  (exists p, In p data /\ v = PurchaseDecision data (Package_Description p))
  \/ (exists c, v = CategoryPresenceIndicator c).
Proof.
  unfold model_vars, full_model, expr_vars; cbn [objective constraints terms].
  intros H. apply in_app_or in H. destruct H as [H|H].
  - left. now apply purchase_terms_vars in H.
  - apply in_flat_map in H. destruct H as [c [Hc Hv]].
    apply in_app_or in Hc. destruct Hc as [Hc|Hc].
    + apply in_map_iff in Hc. destruct Hc as [n [<- _]].
      unfold nutrient_requirement in Hv; cbn [con_lhs con_rhs terms expr_of_number] in Hv.
      rewrite app_nil_r in Hv. left. now apply purchase_terms_vars in Hv.
    + destruct (in_diversity_constraints _ _ Hc) as [cat [_ [_ [-> | ->]]]].
      * unfold presence_constraint in Hv; cbn [con_lhs con_rhs terms expr_of_var] in Hv.
        apply in_app_or in Hv. destruct Hv as [Hv|Hv].
        -- left. apply purchase_terms_vars in Hv. destruct Hv as [p [Hp ->]].
           exists p. split; [now apply (cat_items_incl data cat) | reflexivity].
        -- right. exists cat. simpl in Hv. now destruct Hv as [<-|[]].
      * right. exists cat. simpl in Hv. now destruct Hv as [<-|[]].
Qed.

Lemma feasible_full_nutrient (data : list data_row) (req : required) (a : assignment) :
  feasible (full_model data req) a -> feasible (nutrient_model data req) a.
Proof.
  intros [Hv Hc]. split.
  - intros v Hin. apply Hv. revert Hin.
    unfold model_vars, full_model, nutrient_model; cbn [objective constraints].
    rewrite flat_map_app, !in_app_iff. tauto.
  - intros c Hin. apply Hc. unfold full_model; cbn [constraints].
    apply in_or_app. now left.
Qed.

Lemma feasible_nutrient_full (data : list data_row) (req : required) (a : assignment) :
  feasible (nutrient_model data req) a ->
  feasible (full_model data req) (zero_indicators a).
Proof.
  intros Hf. pose proof (feasible_nutrient_in_bounds _ _ _ Hf) as Hb.
  destruct Hf as [_ Hc]. split.
  - intros v Hin. apply model_vars_full in Hin.
    destruct Hin as [[p [Hp ->]] | [c ->]].
    + apply (Hb _ _ (buy_qty_has_row data p Hp)).
    + reflexivity.
  - intros c Hin. unfold full_model in Hin; cbn [constraints] in Hin.
    apply in_app_or in Hin. destruct Hin as [Hin|Hin].
    + pose proof (Hc c Hin) as H.
      unfold nutrient_model in Hin; cbn [constraints] in Hin.
      apply in_map_iff in Hin. destruct Hin as [n [<- _]].
      rewrite (holds_nutrient_zero_indicators data req n a). exact H.
    + apply (diversity_holds_at_zero data); [|exact Hin].
      now apply purchases_in_bounds_nonneg.
Qed.

Lemma optimal_value_same (data : list data_row) (req : required) (v : Q) :
  optimal_value (full_model data req) v <-> optimal_value (nutrient_model data req) v.
Proof.
  unfold optimal_value. split; intros [[a0 [Hf Hv]] Hmin]; split.
  - exists a0. split; [now apply feasible_full_nutrient | exact Hv].
  - intros b Hb. rewrite <- objective_zero_indicators.
    apply Hmin. now apply feasible_nutrient_full.
  - exists (zero_indicators a0). split; [now apply feasible_nutrient_full|].
    now rewrite objective_zero_indicators.
  - intros b Hb. apply (Hmin b). now apply feasible_full_nutrient.
Qed.

(** C4.  Whatever the catalog, the stock and the requirements, and
    whatever values the purchase variables take inside their bounds,
    putting every category-presence indicator to 0 satisfies every
    diversity constraint.  Hence the model with the diversity constraints
    and the model built just before them have the same feasible purchase
    values (an assignment feasible for the first is feasible for the
    second, and one feasible for the second becomes feasible for the first
    once its indicators are set to 0, its purchases unchanged), the same
    objective, and the same optimal objective value. *)
Theorem diversity_constraints_do_not_bind (data : list data_row) (req : required)
  (a : assignment) :
  purchases_in_bounds data a ->
  exists mN m,
    build_nutrient_model data req = Ok mN
    /\ build_model data req = Ok m
    /\ constraints m = constraints mN ++ diversity_constraints data
    /\ (forall c, In c (diversity_constraints data) ->
                  holds (zero_indicators a) c = true)
    /\ (forall food, zero_indicators a (buy_qty_slot food) = a (buy_qty_slot food))
    /\ (forall b, feasible m b -> feasible mN b)
    /\ (forall b, feasible mN b -> feasible m (zero_indicators b))
    /\ (forall b, objective_value m b = objective_value mN b)
    /\ (forall v, optimal_value m v <-> optimal_value mN v).
Proof.
  intros Hb. exists (nutrient_model data req), (full_model data req).
  split; [apply build_nutrient_model_ok|]. split; [apply build_model_ok|].
  split; [reflexivity|]. split.
  { apply diversity_holds_at_zero. now apply purchases_in_bounds_nonneg. }
  split; [reflexivity|].
  split; [apply feasible_full_nutrient|].
  split; [apply feasible_nutrient_full|].
  split; [reflexivity|].
  apply optimal_value_same.
Qed.

Lemma sample_purchases_in_bounds : purchases_in_bounds sample_data sample_assignment.
Proof.
  intros food v Hin. cbv in Hin.
  destruct Hin as [H|[H|[]]]; injection H as <- <-; reflexivity.
Qed.

Lemma diversity_constraints_do_not_bind_witness :
  purchases_in_bounds sample_data sample_assignment
  /\ forall c, In c (diversity_constraints sample_data) ->
               holds (zero_indicators sample_assignment) c = true.
Proof.
  split; [exact sample_purchases_in_bounds|].
  destruct (diversity_constraints_do_not_bind sample_data sample_required
              sample_assignment sample_purchases_in_bounds)
    as [mN [m [_ [_ [_ [H _]]]]]].
  exact H.
Defined.

(** The sample model is feasible, with and without its diversity
    constraints. *)
Example sample_model_feasible :
  feasible (nutrient_model sample_data sample_required) sample_assignment
  /\ feasible (full_model sample_data sample_required)
       (zero_indicators sample_assignment).
Proof.
  assert (F : feasible (nutrient_model sample_data sample_required) sample_assignment).
  { split.
    - intros v Hin. cbv in Hin.
      repeat (destruct Hin as [<-|Hin]; [reflexivity|]). destruct Hin.
    - intros c Hin. cbv in Hin.
      repeat (destruct Hin as [<-|Hin]; [reflexivity|]). destruct Hin. }
  split; [exact F | now apply feasible_nutrient_full].
Qed.

(** ** Rounding *)

Lemma py_round_cases (x : Q) :
  let r := x - inject_Z (Qfloor x) in
  0 <= r < 1
  /\ ((r < 1 # 2 /\ py_round x = Qfloor x)
      \/ (1 # 2 < r /\ py_round x = (Qfloor x + 1)%Z)
      \/ (r == 1 # 2 /\ (py_round x = Qfloor x \/ py_round x = (Qfloor x + 1)%Z))).
Proof.
  intros r. subst r.
  pose proof (Qfloor_le x) as Hlo. pose proof (Qlt_floor x) as Hhi.
  rewrite inject_Z_plus in Hhi. change (inject_Z 1) with 1 in Hhi.
  split; [split; lra|].
  unfold py_round.
  destruct (Qcompare_spec (x - inject_Z (Qfloor x)) (1 # 2)) as [E|L|G].
  - right; right. split; [exact E|]. destruct (Z.even (Qfloor x)); tauto.
  - left. tauto.
  - right; left. tauto.
Qed.

Lemma py_round_nearest (x : Q) :
  - (1 # 2) <= inject_Z (py_round x) - x <= 1 # 2.
Proof.
  destruct (py_round_cases x) as [Hr [[H ->]|[[H ->]|[H [-> | ->]]]]];
    rewrite ?inject_Z_plus; change (inject_Z 1) with 1; simpl in Hr; lra.
Qed.

Lemma py_round_nonneg (x : Q) : 0 <= x -> (0 <= py_round x)%Z.
Proof.
  intros Hx.
  assert (Hf : (0 <= Qfloor x)%Z).
  { change 0%Z with (Qfloor 0). now apply Qfloor_resp_le. }
  destruct (py_round_cases x) as [_ [[_ ->]|[[_ ->]|[_ [-> | ->]]]]]; lia.
Qed.

Lemma py_round_integer (x : Q) : is_integer x = true -> inject_Z (py_round x) == x.
Proof.
  unfold is_integer. intros H. apply Qeq_bool_iff in H.
  destruct (py_round_cases x) as [Hr [[_ ->]|[[Hgt _]|[Heq _]]]]; simpl in Hr.
  - exact H.
  - lra.
  - lra.
Qed.

Lemma py_round2_nearest (y : Q) :
  - (1 # 200) <= py_round2 y - y <= 1 # 200.
Proof.
  unfold py_round2. pose proof (py_round_nearest (y * 100)) as H.
  set (z := inject_Z (py_round (y * 100))) in *.
  assert (E : z / 100 == z * (1 # 100)) by (unfold Qdiv; reflexivity).
  rewrite E. lra.
Qed.

Lemma py_round2_cents (y : Q) : py_round2 y * 100 == inject_Z (py_round (y * 100)).
Proof. unfold py_round2. field. Qed.

Lemma py_round2_hundredths (y : Q) : is_integer (py_round2 y * 100) = true.
Proof.
  unfold is_integer. apply Qeq_bool_iff.
  pose proof (py_round2_cents y) as Ec.
  rewrite (Qfloor_comp _ _ Ec), Qfloor_Z. symmetry. exact Ec.
Qed.

(** ** Result extractor *)

Lemma qty_selected_iff (q : option Q) :
  qty_selected q = true <-> exists x, q = Some x /\ 0 < x.
Proof.
  unfold qty_selected, truthy. destruct q as [x|]; simpl.
  - rewrite andb_true_iff, !negb_true_iff.
    split.
    + intros [_ H]. exists x. split; [reflexivity|].
      apply Qnot_le_lt. intros Hle. apply Qle_bool_iff in Hle. congruence.
    + intros [y [[= <-] Hy]]. split.
      * destruct (Qeq_bool x 0) eqn:E; [|reflexivity].
        apply Qeq_bool_iff in E. lra.
      * destruct (Qle_bool x 0) eqn:E; [|reflexivity].
        apply Qle_bool_iff in E. lra.
  - split; [discriminate | intros [x [H _]]; discriminate].
Qed.

Lemma qty_selected_some (x : Q) : qty_selected (Some x) = negb (Qle_bool x 0).
Proof.
  destruct (qty_selected (Some x)) eqn:E.
  - apply qty_selected_iff in E. destruct E as [y [[= <-] Hy]].
    destruct (Qle_bool x 0) eqn:L; [|reflexivity].
    apply Qle_bool_iff in L. lra.
  - destruct (Qle_bool x 0) eqn:L; [reflexivity|].
    assert (H : qty_selected (Some x) = true).
    { apply qty_selected_iff. exists x. split; [reflexivity|].
      apply Qnot_le_lt. intros Hle. apply Qle_bool_iff in Hle. congruence. }
    congruence.
Qed.

Lemma hd_error_filter {A} (f : A -> bool) (l : list A) :
  hd_error (filter f l) = find f l.
Proof.
  induction l as [|x l IH]; simpl; [reflexivity|].
  destruct (f x); [reflexivity | exact IH].
Qed.

Lemma first_row_of_find (data : list data_row) (food : string) :
  first_row_of data food
  = match first_row_with data food with
    | Some r => Ok r
    | None => Raise (IndexError "single positional indexer is out-of-bounds")
    end.
Proof.
  unfold first_row_of, first_row_with. rewrite <- hd_error_filter.
  destruct (filter _ data); reflexivity.
Qed.

Lemma first_row_with_entry (data : list data_row) (food : string) (v : LpVariable) :
  In (food, v) (buy_qty data) ->
  exists r, first_row_with data food = Some r
            /\ In r data /\ Package_Description r = food.
Proof.
  intros Hin. destruct (buy_qty_entry _ _ _ Hin) as [_ [r' Hr']].
  destruct (last_row_of_some _ _ _ Hr') as [Hin' Hd].
  unfold first_row_with.
  destruct (find _ data) as [r|] eqn:E.
  - exists r. apply find_some in E. destruct E as [E1 E2].
    apply String.eqb_eq in E2. tauto.
  - pose proof (find_none _ _ E r' Hin') as Hn. simpl in Hn.
    rewrite Hd, String.eqb_refl in Hn. discriminate.
Qed.

Lemma collect_step_extracted (data : list data_row) (vals : values)
  (results : list result_row) (entry : string * LpVariable) :
  In entry (buy_qty data) ->
  collect_step data vals results entry = Ok (results ++ extracted data vals entry).
Proof.
  destruct entry as [food v]. intros Hin.
  destruct (first_row_with_entry _ _ _ Hin) as [r [Hr _]].
  unfold collect_step, extracted; cbn [fst snd].
  rewrite first_row_of_find, Hr.
  destruct (vals (var_slot v)) as [x|]; simpl.
  - rewrite qty_selected_some. destruct (Qle_bool x 0); simpl.
    + now rewrite app_nil_r.
    + reflexivity.
  - now rewrite app_nil_r.
Qed.

Lemma collect_loop_extracted (data : list data_row) (vals : values)
  (entries : list (string * LpVariable)) :
  incl entries (buy_qty data) ->
  forall results,
    for_loop (collect_step data vals) entries results
    = Ok (results ++ flat_map (extracted data vals) entries).
Proof.
  induction entries as [|e entries IH]; intros Hincl results; simpl.
  - now rewrite app_nil_r.
  - rewrite collect_step_extracted by (apply Hincl; now left). simpl.
    rewrite IH by (intros x Hx; apply Hincl; now right).
    now rewrite <- app_assoc.
Qed.

Lemma collect_results_ok (data : list data_row) (vals : values) :
  collect_results data vals = Ok (flat_map (extracted data vals) (buy_qty data)).
Proof.
  unfold collect_results. rewrite collect_loop_extracted by apply incl_refl.
  reflexivity.
Qed.

Lemma in_extracted (data : list data_row) (vals : values) (food : string)
  (v : LpVariable) (row : result_row) :
  In row (extracted data vals (food, v))
  <-> exists x r, vals (var_slot v) = Some x /\ 0 < x
                  /\ first_row_with data food = Some r
                  /\ row = plan_row r food x.
Proof.
  unfold extracted; cbn [fst snd]. split.
  - destruct (vals (var_slot v)) as [x|]; [|intros []].
    destruct (first_row_with data food) as [r|]; [|intros []].
    destruct (Qle_bool x 0) eqn:E; [intros []|].
    intros [<-|[]]. exists x, r. repeat split.
    apply Qnot_le_lt. intros Hle. apply Qle_bool_iff in Hle. congruence.
  - intros [x [r [-> [Hx [-> ->]]]]].
    destruct (Qle_bool x 0) eqn:E; [|now left].
    apply Qle_bool_iff in E. lra.
Qed.

(** C5, as the code has it.  The extractor returns without raising.  A
    package of [buy_qty] gets a row of the plan exactly when its solved
    value is present and strictly above zero (the code has no tolerance: a
    value a hair above zero is kept).  The row's quantity is the value
    rounded to a nearest integer; its cost is price × rounded quantity and
    its weight is unit weight × rounded quantity, each stored rounded to
    two decimals: a whole number of hundredths at most half a hundredth
    away from the product. *)
Theorem result_extractor_rows (data : list data_row) (vals : values) :
  exists results,
    collect_results data vals = Ok results
    /\ (forall food v,
          In (food, v) (buy_qty data) ->
          ((exists row, In row results /\ res_Package_Description row = food)
           <-> (exists x, vals (var_slot v) = Some x /\ 0 < x)))
    /\ (forall row,
          In row results ->
          exists food v x r,
            In (food, v) (buy_qty data)
            /\ vals (var_slot v) = Some x /\ 0 < x
            /\ first_row_with data food = Some r
            /\ res_Package_Description row = food
            /\ Qty_to_Buy row = py_round x
            /\ - (1 # 2) <= inject_Z (Qty_to_Buy row) - x <= 1 # 2
            /\ price_per_package row = price r
            /\ lb_per_package row = lb r
            /\ is_integer (Weekly_Cost row * 100) = true
            /\ is_integer (Total_Weight_lb row * 100) = true
            /\ - (1 # 200)
               <= Weekly_Cost row - price r * inject_Z (Qty_to_Buy row)
               <= 1 # 200
            /\ - (1 # 200)
               <= Total_Weight_lb row - lb r * inject_Z (Qty_to_Buy row)
               <= 1 # 200).
Proof.
  exists (flat_map (extracted data vals) (buy_qty data)).
  split; [apply collect_results_ok|]. split.
  - intros food v Hin. split.
    + intros [row [Hrow Hd]]. apply in_flat_map in Hrow.
      destruct Hrow as [[food' v'] [Hin' Hex]].
      apply in_extracted in Hex. destruct Hex as [x [r [Hv [Hx [_ ->]]]]].
      cbn [res_Package_Description plan_row] in Hd. subst food'.
      assert (v' = v) as ->.
      { pose proof (dict_comprehension_NoDup Package_Description make_buy_var data) as Hnd.
        fold (buy_qty data) in Hnd.
        pose proof (dict_In_getitem _ _ _ Hnd Hin) as G1.
        pose proof (dict_In_getitem _ _ _ Hnd Hin') as G2.
        congruence. }
      now exists x.
    + intros [x [Hv Hx]].
      destruct (first_row_with_entry _ _ _ Hin) as [r [Hr _]].
      exists (plan_row r food x). split; [|reflexivity].
      apply in_flat_map. exists (food, v). split; [exact Hin|].
      apply in_extracted. now exists x, r.
  - intros row Hrow. apply in_flat_map in Hrow.
    destruct Hrow as [[food v] [Hin Hex]].
    apply in_extracted in Hex. destruct Hex as [x [r [Hv [Hx [Hr ->]]]]].
    exists food, v, x, r. cbn [res_Package_Description Qty_to_Buy Weekly_Cost
                                 Total_Weight_lb price_per_package lb_per_package
                                 plan_row].
    repeat (split; [first [assumption | reflexivity | apply py_round_nearest
                           | apply py_round2_hundredths
                           | apply py_round2_nearest]|]).
    apply py_round2_nearest.
Qed.

(** C5 as stated fails.  No positive tolerance separates the values kept
    from the values dropped; a value of one billionth is kept and gives a
    row of quantity 0; and the stored weight of the milk row, a whole
    number of hundredths, is not unit weight × quantity, 8.625. *)
Lemma near_zero_value_is_kept :
  (~ exists tol, 0 < tol
                 /\ forall x, qty_selected (Some x) = true <-> tol < x)
  /\ exists results rice_row milk_row,
       collect_results sample_data
         (snd (near_zero_solver (full_model sample_data sample_required)))
       = Ok results
       /\ results = [rice_row; milk_row]
       /\ res_Package_Description rice_row = "Rice, 5 lb (bag)"
       /\ Qty_to_Buy rice_row = 0%Z
       /\ Qty_to_Buy milk_row = 1%Z
       /\ lb_per_package milk_row == 8625 # 1000
       /\ is_integer (Total_Weight_lb milk_row * 100) = true
       /\ ~ Total_Weight_lb milk_row
            == lb_per_package milk_row * inject_Z (Qty_to_Buy milk_row).
Proof.
  split.
  - intros [tol [Htol H]].
    assert (Hsel : qty_selected (Some (tol / 2)) = true).
    { apply qty_selected_iff. exists (tol / 2). split; [reflexivity|].
      assert (E : tol / 2 == tol * (1 # 2)) by (unfold Qdiv; reflexivity). lra. }
    apply H in Hsel.
    assert (E : tol / 2 == tol * (1 # 2)) by (unfold Qdiv; reflexivity). lra.
  - eexists. eexists. eexists.
    split; [vm_compute; reflexivity|].
    split; [reflexivity|].
    repeat (split; [reflexivity|]).
    intros H. vm_compute in H. discriminate.
Qed.

(** ** The handler *)

Lemma LpStatus_optimal (st : status_t) :
  (LpStatus st =? "Optimal")%string = true <-> st = LpStatusOptimal.
Proof. destruct st; simpl; split; intros H; congruence. Qed.

Lemma show_store_trace (df : DataFrame) (store : string) (w : list event) :
  df_columns df = result_columns ->
  show_store df store w = (Ok tt, w ++ [store_event df store]).
Proof.
  intros Hc. unfold show_store, bindA, lift, getcol, emit.
  cbn [df_columns store_frame]. rewrite Hc. reflexivity.
Qed.

Lemma show_stores_trace (df : DataFrame) (stores : list string) (w : list event) :
  df_columns df = result_columns ->
  for_app (show_store df) stores w = (Ok tt, w ++ map (store_event df) stores).
Proof.
  intros Hc. revert w. induction stores as [|st stores IH]; intros w.
  - simpl. unfold ret. now rewrite app_nil_r.
  - cbn [for_app]. unfold bindA at 1. rewrite (show_store_trace df st w Hc).
    rewrite IH. cbn [map]. now rewrite <- app_assoc.
Qed.

Lemma show_plan_trace (data : list data_row) (vals : values) (w : list event) :
  show_plan data vals w
  = match flat_map (extracted data vals) (buy_qty data) with
    | [] =>
        (Raise (KeyError "Weekly_Cost"),
         w ++ [st_success "✅ Optimization Complete!"])
    | r :: rs => (Ok tt, w ++ plan_events (r :: rs))
    end.
Proof.
  unfold show_plan. unfold bindA at 1. unfold emit at 1.
  unfold bindA at 1. unfold lift at 1. rewrite collect_results_ok.
  destruct (flat_map (extracted data vals) (buy_qty data)) as [|r rs].
  - reflexivity.
  - set (results := r :: rs).
    assert (Hc : df_columns (DataFrame_of results) = result_columns) by reflexivity.
    unfold bindA, lift, getcol, emit. rewrite Hc.
    change (existsb (String.eqb "Weekly_Cost") result_columns) with true.
    change (existsb (String.eqb "Qty_to_Buy") result_columns) with true.
    change (existsb (String.eqb "Total_Weight_lb") result_columns) with true.
    change (existsb (String.eqb "Store") result_columns) with true.
    cbv iota beta.
    rewrite (show_stores_trace (DataFrame_of results) _ _ Hc).
    unfold plan_events. cbn [DataFrame_of df_rows].
    f_equal. rewrite <- !app_assoc. reflexivity.
Qed.

Lemma optimize_trace (solver : LpProblem -> status_t * values) (s : session_state)
  (cost : list cost_row) (nutrition : list nutrition_row) (check : list check_row)
  (stock : list stock_row) (w : list event) :
  loaded s cost nutrition check stock ->
  let data := session_data cost nutrition stock in
  let m := session_model s cost nutrition check stock in
  optimize solver s cost w
  = if (LpStatus (fst (solver m)) =? "Optimal")%string
    then show_plan data (snd (solver m)) (w ++ [model_solve m])
    else (Ok tt, w ++ [model_solve m; st_error (status_message (fst (solver m)))]).
Proof.
  intros (_ & _ & Hn & Hc & Hs) data m.
  unfold optimize, bindA, lift, solve, merge_session.
  rewrite (resolve_requirements_ok s check Hc), Hn, Hs, build_model_ok.
  fold data. fold (session_data cost nutrition stock). fold data.
  change (full_model data (required_nutrients check (household_members s))) with m.
  destruct (LpStatus (fst (solver m)) =? "Optimal")%string; [reflexivity|].
  unfold emit, status_message. now rewrite <- app_assoc.
Qed.

Lemma tab3_loaded (solver : LpProblem -> status_t * values) (s : session_state)
  (cost : list cost_row) (nutrition : list nutrition_row) (check : list check_row)
  (stock : list stock_row) :
  loaded s cost nutrition check stock ->
  tab3 solver s true = try_except (optimize solver s cost) (on_exception).
Proof.
  intros (Hm & Hcost & _). unfold tab3.
  destruct (household_members s); [congruence|]. now rewrite Hcost.
Qed.

(** The whole trace of a run on a loaded session, by solver answer. *)
Lemma run_tab3_trace (solver : LpProblem -> status_t * values) (s : session_state)
  (cost : list cost_row) (nutrition : list nutrition_row) (check : list check_row)
  (stock : list stock_row) :
  loaded s cost nutrition check stock ->
  let data := session_data cost nutrition stock in
  let m := session_model s cost nutrition check stock in
  run_tab3 solver s true
  = model_solve m
    :: if (LpStatus (fst (solver m)) =? "Optimal")%string
       then match flat_map (extracted data (snd (solver m))) (buy_qty data) with
            | [] => empty_plan_events
            | r :: rs => plan_events (r :: rs)
            end
       else [st_error (status_message (fst (solver m)))].
Proof.
  intros Hl data m. unfold run_tab3. rewrite (tab3_loaded _ _ _ _ _ _ Hl).
  unfold try_except. rewrite (optimize_trace _ _ _ _ _ _ _ Hl).
  fold data. fold m.
  destruct (LpStatus (fst (solver m)) =? "Optimal")%string; [|reflexivity].
  rewrite show_plan_trace.
  destruct (flat_map (extracted data (snd (solver m))) (buy_qty data)); reflexivity.
Qed.

(** C7.  On a loaded session, when the solver's status is anything but
    Optimal, the run consists of the single call of the solver followed by
    the error line carrying the status text of [LpStatus]: the solver is
    called once, no second model is built, and no plan row is shown. *)
Theorem non_optimal_status_is_surfaced (solver : LpProblem -> status_t * values)
  (s : session_state) (cost : list cost_row) (nutrition : list nutrition_row)
  (check : list check_row) (stock : list stock_row) :
  loaded s cost nutrition check stock ->
  fst (solver (session_model s cost nutrition check stock)) <> LpStatusOptimal ->
  let m := session_model s cost nutrition check stock in
  build_model (session_data cost nutrition stock)
    (required_nutrients check (household_members s)) = Ok m
  /\ run_tab3 solver s true
     = [model_solve m;
        st_error ("Optimization failed with status: " ++ LpStatus (fst (solver m)))]
  /\ solve_calls (run_tab3 solver s true) = [model_solve m]
  /\ plan_rows (run_tab3 solver s true) = [].
Proof.
  intros Hl Hst m.
  assert (E : run_tab3 solver s true
              = [model_solve m; st_error (status_message (fst (solver m)))]).
  { rewrite (run_tab3_trace _ _ _ _ _ _ Hl). fold m.
    destruct (LpStatus (fst (solver m)) =? "Optimal")%string eqn:Eo; [|reflexivity].
    apply LpStatus_optimal in Eo. contradiction. }
  split; [apply build_model_ok|]. rewrite E.
  split; [reflexivity|]. split; reflexivity.
Qed.

Lemma sample_session_loaded :
  loaded sample_session [rice; milk] [rice_nutrition; milk_nutrition]
    [men_19_30; women_19_30] [milk_stock].
Proof. unfold loaded; simpl; repeat split; discriminate. Qed.

Lemma non_optimal_status_is_surfaced_witness :
  run_tab3 infeasible_solver sample_session true
  = [model_solve (session_model sample_session [rice; milk]
                    [rice_nutrition; milk_nutrition] [men_19_30; women_19_30]
                    [milk_stock]);
     st_error "Optimization failed with status: Infeasible"].
Proof.
  refine (proj1 (proj2 (non_optimal_status_is_surfaced infeasible_solver
                          sample_session _ _ _ _ sample_session_loaded _))).
  simpl. discriminate.
Defined.

(** C9.  With no household member the handler is the single warning: no
    model is built, the solver is not called, whatever the tables and
    whether or not the button was pressed. *)
Theorem empty_household_short_circuits (solver : LpProblem -> status_t * values)
  (s : session_state) (button : bool) :
  household_members s = [] ->
  tab3 solver s button = emit (st_warning "⚠️ Please add household members first")
  /\ run_tab3 solver s button
     = [st_warning "⚠️ Please add household members first"]
  /\ solve_calls (run_tab3 solver s button) = [].
Proof.
  intros H.
  assert (E : tab3 solver s button
              = emit (st_warning "⚠️ Please add household members first"))
    by (unfold tab3; now rewrite H).
  split; [exact E|]. unfold run_tab3. rewrite E. split; reflexivity.
Qed.

Lemma empty_household_short_circuits_witness :
  household_members empty_session = []
  /\ solve_calls (run_tab3 sample_solver empty_session true) = [].
Proof.
  split; [reflexivity|].
  exact (proj2 (proj2 (empty_household_short_circuits sample_solver empty_session
                         true eq_refl))).
Defined.

Lemma extracted_nothing (data : list data_row) (vals : values) :
  (forall food x, vals (buy_qty_slot food) = Some x -> x <= 0) ->
  flat_map (extracted data vals) (buy_qty data) = [].
Proof.
  intros H.
  destruct (flat_map (extracted data vals) (buy_qty data)) as [|row rows] eqn:E;
    [reflexivity|].
  assert (Hin : In row (flat_map (extracted data vals) (buy_qty data)))
    by (rewrite E; now left).
  apply in_flat_map in Hin. destruct Hin as [[food v] [Hin Hex]].
  apply in_extracted in Hex. destruct Hex as [x [r [Hv [Hx _]]]].
  destruct (buy_qty_entry _ _ _ Hin) as [-> _]. cbn [var_slot PurchaseDecision] in Hv.
  specialize (H _ _ Hv). lra.
Qed.

(** C10.  On a loaded session, when the status is Optimal and every
    purchase variable's value is absent or not above zero, the list of
    results is empty, the frame built from it has no column, and reading
    its column [Weekly_Cost] raises [KeyError]: the run ends in the
    handler's error lines, with no metrics and no plan shown. *)
Theorem optimal_with_nothing_to_buy_raises (solver : LpProblem -> status_t * values)
  (s : session_state) (cost : list cost_row) (nutrition : list nutrition_row)
  (check : list check_row) (stock : list stock_row) :
  loaded s cost nutrition check stock ->
  fst (solver (session_model s cost nutrition check stock)) = LpStatusOptimal ->
  (forall food x,
      snd (solver (session_model s cost nutrition check stock)) (buy_qty_slot food)
      = Some x -> x <= 0) ->
  let m := session_model s cost nutrition check stock in
  let data := session_data cost nutrition stock in
  collect_results data (snd (solver m)) = Ok []
  /\ getcol (DataFrame_of []) "Weekly_Cost" Weekly_Cost = Raise (KeyError "Weekly_Cost")
  /\ show_plan data (snd (solver m)) []
     = (Raise (KeyError "Weekly_Cost"), [st_success "✅ Optimization Complete!"])
  /\ run_tab3 solver s true
     = [model_solve m;
        st_success "✅ Optimization Complete!";
        st_error "Error during optimization: 'Weekly_Cost'";
        st_exception (KeyError "Weekly_Cost")]
  /\ plan_rows (run_tab3 solver s true) = [].
Proof.
  intros Hl Hst Hv m data.
  pose proof (extracted_nothing data _ Hv) as Hnone. fold m in Hnone.
  assert (E : run_tab3 solver s true = model_solve m :: empty_plan_events).
  { rewrite (run_tab3_trace _ _ _ _ _ _ Hl). fold m. fold data.
    rewrite Hnone. fold m in Hst. rewrite Hst. reflexivity. }
  split; [rewrite collect_results_ok; now rewrite Hnone|].
  split; [reflexivity|].
  split; [rewrite show_plan_trace; now rewrite Hnone|].
  rewrite E. split; reflexivity.
Qed.

Lemma optimal_with_nothing_to_buy_raises_witness :
  run_tab3 zero_solver sample_session true
  = [model_solve (session_model sample_session [rice; milk]
                    [rice_nutrition; milk_nutrition] [men_19_30; women_19_30]
                    [milk_stock]);
     st_success "✅ Optimization Complete!";
     st_error "Error during optimization: 'Weekly_Cost'";
     st_exception (KeyError "Weekly_Cost")].
Proof.
  refine (proj1 (proj2 (proj2 (proj2
            (optimal_with_nothing_to_buy_raises zero_solver sample_session
               _ _ _ _ sample_session_loaded eq_refl _))))).
  intros food x H. simpl in H. injection H as <-. apply Qle_refl.
Defined.

(** ** Quantities of the plan *)

Lemma plan_rows_store_events (df : DataFrame) (stores : list string) :
  plan_rows (map (store_event df) stores) = [].
Proof. induction stores as [|st stores IH]; simpl; [reflexivity | exact IH]. Qed.

Lemma plan_rows_plan_events (results : list result_row) :
  plan_rows (plan_events results) = results.
Proof.
  unfold plan_events, plan_rows. rewrite flat_map_app.
  fold (plan_rows (map (store_event (DataFrame_of results))
                     (sorted (unique (map res_Store results))))).
  rewrite plan_rows_store_events. simpl. now rewrite !app_nil_r.
Qed.


Lemma NoDup_map_eq {A B} (f : A -> B) (l : list A) (x y : A) :
  NoDup (map f l) -> In x l -> In y l -> f x = f y -> x = y.
Proof.
  induction l as [|a l IH]; simpl; [intros _ []|].
  intros Hnd Hx Hy Hf. inversion Hnd as [|? ? Hnot Hnd']; subst.
  destruct Hx as [->|Hx], Hy as [->|Hy].
  - reflexivity.
  - exfalso. apply Hnot. rewrite Hf. now apply in_map.
  - exfalso. apply Hnot. rewrite <- Hf. now apply in_map.
  - now apply IH.
Qed.







(** ** Duplicate package descriptions *)

Lemma solve_calls_store_events (df : DataFrame) (stores : list string) :
  solve_calls (map (store_event df) stores) = [].
Proof. induction stores as [|st stores IH]; simpl; [reflexivity | exact IH]. Qed.

Lemma solve_calls_run (solver : LpProblem -> status_t * values) (s : session_state)
  (cost : list cost_row) (nutrition : list nutrition_row) (check : list check_row)
  (stock : list stock_row) :
  loaded s cost nutrition check stock ->
  solve_calls (run_tab3 solver s true)
  = [model_solve (session_model s cost nutrition check stock)].
Proof.
  intros Hl. rewrite (run_tab3_trace _ _ _ _ _ _ Hl).
  cbn [solve_calls filter is_model_solve]. f_equal.
  destruct (LpStatus _ =? "Optimal")%string; [|reflexivity].
  destruct (flat_map _ _) as [|r rs]; [reflexivity|].
  unfold plan_events. rewrite filter_app. cbn [filter is_model_solve app].
  apply solve_calls_store_events.
Qed.

Lemma merge_on_Food_In (cost : list cost_row) (nutrition : list nutrition_row)
  (c : cost_row) (n : nutrition_row) :
  In (c, n) (merge_on_Food cost nutrition)
  <-> In c cost /\ In n nutrition /\ nut_Food n = cost_Food c.
Proof.
  unfold merge_on_Food. rewrite in_flat_map. split.
  - intros [c' [Hc Hin]]. apply in_map_iff in Hin.
    destruct Hin as [n' [[= -> ->] Hn]]. apply filter_In in Hn.
    destruct Hn as [Hn E]. apply String.eqb_eq in E. tauto.
  - intros (Hc & Hn & E). exists c. split; [exact Hc|].
    apply in_map. apply filter_In. split; [exact Hn | now apply String.eqb_eq].
Qed.

Lemma merge_left_stock_keeps (d : list (cost_row * nutrition_row))
  (stock : list stock_row) (c : cost_row) (n : nutrition_row) :
  In (c, n) d ->
  exists q, In (joined c n q) (merge_left_stock d stock).
Proof.
  intros Hin. unfold merge_left_stock.
  destruct (filter (fun s => (stock_Package_Description s
                              =? cost_Package_Description c)%string) stock)
    as [|s0 found] eqn:E.
  - exists 0. apply in_flat_map. exists (c, n). split; [exact Hin|].
    cbn [fst snd]. rewrite E. now left.
  - exists (stock_Quantity_in_Stock_lb s0). apply in_flat_map.
    exists (c, n). split; [exact Hin|]. cbn [fst snd]. rewrite E. now left.
Qed.

(** C2, as the code has it.  The handler has no uniqueness check.  When
    the cost table holds a package description twice, the join still
    succeeds and keeps every cost row that has a nutrition row, the model
    is built with one purchase variable per distinct description, bounded
    by the [Max_quantity] of the last joined row of that description, and
    the model is handed to the solver once. *)
Theorem duplicate_descriptions_are_not_rejected
  (solver : LpProblem -> status_t * values) (s : session_state)
  (cost : list cost_row) (nutrition : list nutrition_row)
  (check : list check_row) (stock : list stock_row) :
  loaded s cost nutrition check stock ->
  ~ NoDup (map cost_Package_Description cost) ->
  let data := session_data cost nutrition stock in
  let m := session_model s cost nutrition check stock in
  merge_session cost s = Ok data
  /\ build_model data (required_nutrients check (household_members s)) = Ok m
  /\ solve_calls (run_tab3 solver s true) = [model_solve m]
  /\ (forall c n, In c cost -> In n nutrition -> nut_Food n = cost_Food c ->
                  exists q, In (joined c n q) data)
  /\ NoDup (map fst (buy_qty data))
  /\ (forall r, In r data ->
                dict_getitem (buy_qty data) (Package_Description r)
                = Ok (PurchaseDecision data (Package_Description r))).
Proof.
  intros Hl _ data m. pose proof Hl as (_ & _ & Hn & _ & Hs).
  split. { unfold merge_session. now rewrite Hn, Hs. }
  split; [apply build_model_ok|].
  split; [now apply solve_calls_run|].
  split.
  { intros c n Hc Hnn E. apply merge_left_stock_keeps.
    apply merge_on_Food_In. tauto. }
  split; [apply dict_comprehension_NoDup|].
  intros r Hr. now apply buy_qty_getitem_in.
Qed.

Lemma duplicate_session_loaded :
  loaded duplicate_session [rice; milk; rice_again]
    [rice_nutrition; milk_nutrition] [men_19_30; women_19_30] [milk_stock].
Proof. unfold loaded; simpl; repeat split; discriminate. Qed.

Lemma duplicate_cost_descriptions :
  ~ NoDup (map cost_Package_Description [rice; milk; rice_again]).
Proof.
  intros H. inversion H as [|? ? Hnot _]; subst. apply Hnot.
  simpl. right. now left.
Qed.

Lemma duplicate_descriptions_are_not_rejected_witness :
  solve_calls (run_tab3 sample_solver duplicate_session true)
  = [model_solve (session_model duplicate_session [rice; milk; rice_again]
                    [rice_nutrition; milk_nutrition] [men_19_30; women_19_30]
                    [milk_stock])].
Proof.
  exact (proj1 (proj2 (proj2
           (duplicate_descriptions_are_not_rejected sample_solver duplicate_session
              _ _ _ _ duplicate_session_loaded duplicate_cost_descriptions)))).
Defined.

(** C2 as stated fails: the cost table of [duplicate_session] holds the
    description of the rice package twice, and the run reports no
    exception, calls the solver on a model and shows a plan. *)
Lemma duplicate_description_is_solved :
  ~ NoDup (map cost_Package_Description [rice; milk; rice_again])
  /\ cost_df duplicate_session = Some [rice; milk; rice_again]
  /\ existsb is_st_exception (run_tab3 sample_solver duplicate_session true) = false
  /\ List.length (solve_calls (run_tab3 sample_solver duplicate_session true)) = 1%nat
  /\ List.length (plan_rows (run_tab3 sample_solver duplicate_session true)) = 2%nat.
Proof.
  split; [exact duplicate_cost_descriptions|].
  split; [reflexivity|].
  split; [vm_compute; reflexivity|].
  split; vm_compute; reflexivity.
Qed.

(** * Further properties of the handler's code *)

(** ** Sorting and grouping by store *)

Lemma string_leb_trans (a b c : string) :
  String.leb a b = true -> String.leb b c = true -> String.leb a c = true.
Proof.
  unfold String.leb. revert b c.
  induction a as [|x a IH]; intros [|y b] [|z c]; simpl; try congruence.
  unfold Ascii.compare.
  destruct (N.compare_spec (N_of_ascii x) (N_of_ascii y)) as [E1|L1|G1];
    destruct (N.compare_spec (N_of_ascii y) (N_of_ascii z)) as [E2|L2|G2];
    try congruence.
  - rewrite E1, E2, N.compare_refl. apply IH.
  - rewrite E1. rewrite (proj2 (N.compare_lt_iff _ _) L2). reflexivity.
  - rewrite <- E2. rewrite (proj2 (N.compare_lt_iff _ _) L1). reflexivity.
  - rewrite (proj2 (N.compare_lt_iff _ _) (N.lt_trans _ _ _ L1 L2)). reflexivity.
Qed.

Lemma unique_In (l : list string) (x : string) : In x (unique l) <-> In x l.
Proof.
  induction l as [|y l IH]; simpl; [tauto|].
  rewrite filter_In, IH, negb_true_iff, String.eqb_neq.
  destruct (String.eqb_spec y x) as [->|Hne]; [tauto|].
  split; [tauto|]. intros [H|H]; [congruence|]. right. split; [exact H|congruence].
Qed.

Lemma unique_NoDup (l : list string) : NoDup (unique l).
Proof.
  induction l as [|y l IH]; simpl; constructor.
  - rewrite filter_In, negb_true_iff, String.eqb_neq. tauto.
  - now apply NoDup_filter.
Qed.

Lemma insert_sorted_perm (x : string) (l : list string) :
  Permutation.Permutation (insert_sorted x l) (x :: l).
Proof.
  induction l as [|y l IH]; simpl; [apply Permutation.Permutation_refl|].
  destruct (String.leb x y); [apply Permutation.Permutation_refl|].
  eapply Permutation.perm_trans; [apply Permutation.perm_skip, IH|].
  apply Permutation.perm_swap.
Qed.

Lemma sorted_perm (l : list string) : Permutation.Permutation (sorted l) l.
Proof.
  unfold sorted. induction l as [|x l IH]; simpl; [constructor|].
  eapply Permutation.perm_trans; [apply insert_sorted_perm|].
  now apply Permutation.perm_skip.
Qed.

Lemma insert_sorted_ascending (x : string) (l : list string) :
  ascending l -> ascending (insert_sorted x l).
Proof.
  induction l as [|y l IH]; simpl.
  - intros _. split; [intros z []|exact I].
  - intros [Hy Hl]. destruct (String.leb x y) eqn:E; simpl.
    + split; [|split; assumption].
      intros z [<-|Hz]; [exact E|].
      apply (string_leb_trans x y z E). now apply Hy.
    + split; [|now apply IH].
      intros z Hz.
      apply (Permutation.Permutation_in _ (insert_sorted_perm x l)) in Hz.
      destruct Hz as [<-|Hz]; [|now apply Hy].
      destruct (String.leb_total x y) as [H|H]; [congruence | exact H].
Qed.

Lemma sorted_ascending (l : list string) : ascending (sorted l).
Proof.
  unfold sorted. induction l as [|x l IH]; simpl; [exact I|].
  now apply insert_sorted_ascending.
Qed.

Lemma store_lines_plan_events (results : list result_row) :
  store_lines (plan_events results)
  = map (fun s => (s,
                   sum_Z (map Qty_to_Buy (filter (fun r => (res_Store r =? s)%string) results)),
                   py_sum (map Weekly_Cost (filter (fun r => (res_Store r =? s)%string) results)),
                   filter (fun r => (res_Store r =? s)%string) results))
      (sorted (unique (map res_Store results))).
Proof.
  unfold plan_events, store_lines. rewrite flat_map_app. cbn [flat_map app].
  induction (sorted (unique (map res_Store results))) as [|s l IH]; simpl;
    [reflexivity|].
  now rewrite IH.
Qed.

Lemma plan_events_stores (results : list result_row) :
  let stores := map line_store (store_lines (plan_events results)) in
  ascending stores
  /\ NoDup stores
  /\ forall s, In s stores <-> exists row, In row results /\ res_Store row = s.
Proof.
  intros stores.
  assert (E : stores = sorted (unique (map res_Store results))).
  { unfold stores. rewrite store_lines_plan_events, map_map. cbn [line_store fst].
    apply map_id. }
  rewrite E. split; [apply sorted_ascending|]. split.
  - apply (Permutation.Permutation_NoDup
             (Permutation.Permutation_sym (sorted_perm _))).
    apply unique_NoDup.
  - intros s. split.
    + intros H. apply (Permutation.Permutation_in _ (sorted_perm _)) in H.
      apply unique_In, in_map_iff in H. destruct H as [row [Hs Hin]]. now exists row.
    + intros [row [Hin Hs]].
      apply (Permutation.Permutation_in _ (Permutation.Permutation_sym (sorted_perm _))).
      apply unique_In, in_map_iff. now exists row.
Qed.

Lemma groups_skip (r : result_row) (rows : list result_row) (L : list string) :
  ~ In (res_Store r) L ->
  flat_map (fun s => filter (fun x => (res_Store x =? s)%string) (r :: rows)) L
  = flat_map (fun s => filter (fun x => (res_Store x =? s)%string) rows) L.
Proof.
  induction L as [|s L IH]; intros Hn; [reflexivity|].
  cbn [flat_map].
  change (filter (fun x => (res_Store x =? s)%string) (r :: rows))
    with (if (res_Store r =? s)%string
          then r :: filter (fun x => (res_Store x =? s)%string) rows
          else filter (fun x => (res_Store x =? s)%string) rows).
  destruct (String.eqb_spec (res_Store r) s) as [E|_].
  - exfalso. apply Hn. now left.
  - rewrite IH; [reflexivity|]. intros H. apply Hn. now right.
Qed.

Lemma groups_cons (r : result_row) (rows : list result_row) (L : list string) :
  NoDup L -> In (res_Store r) L ->
  Permutation.Permutation
    (flat_map (fun s => filter (fun x => (res_Store x =? s)%string) (r :: rows)) L)
    (r :: flat_map (fun s => filter (fun x => (res_Store x =? s)%string) rows) L).
Proof.
  induction L as [|s L IH]; intros Hnd Hin; [destruct Hin|].
  inversion Hnd as [|? ? Hnot Hnd']; subst.
  cbn [flat_map].
  change (filter (fun x => (res_Store x =? s)%string) (r :: rows))
    with (if (res_Store r =? s)%string
          then r :: filter (fun x => (res_Store x =? s)%string) rows
          else filter (fun x => (res_Store x =? s)%string) rows).
  destruct (String.eqb_spec (res_Store r) s) as [E|Hne].
  - subst s. rewrite (groups_skip r rows L Hnot). apply Permutation.Permutation_refl.
  - destruct Hin as [E|Hin]; [congruence|].
    eapply Permutation.perm_trans.
    + apply Permutation.Permutation_app_head. now apply IH.
    + apply Permutation.Permutation_sym, Permutation.Permutation_middle.
Qed.

Lemma groups_partition (rows : list result_row) (L : list string) :
  NoDup L -> (forall r, In r rows -> In (res_Store r) L) ->
  Permutation.Permutation
    (flat_map (fun s => filter (fun x => (res_Store x =? s)%string) rows) L) rows.
Proof.
  intros Hnd. induction rows as [|r rows IH]; intros Hall.
  - assert (E : flat_map (fun s => filter (fun x => (res_Store x =? s)%string) []) L
                = @nil result_row)
      by (clear; induction L; simpl; auto).
    rewrite E. constructor.
  - eapply Permutation.perm_trans.
    + apply groups_cons; [exact Hnd | apply Hall; now left].
    + apply Permutation.perm_skip, IH. intros x Hx. apply Hall. now right.
Qed.

Lemma stores_cover (results : list result_row) :
  NoDup (sorted (unique (map res_Store results)))
  /\ forall r, In r results -> In (res_Store r) (sorted (unique (map res_Store results))).
Proof.
  split.
  - apply (Permutation.Permutation_NoDup
             (Permutation.Permutation_sym (sorted_perm _))), unique_NoDup.
  - intros r Hr.
    apply (Permutation.Permutation_in _ (Permutation.Permutation_sym (sorted_perm _))).
    apply unique_In, in_map. exact Hr.
Qed.

Lemma line_rows_plan_events (results : list result_row) :
  flat_map line_rows (store_lines (plan_events results))
  = flat_map (fun s => filter (fun x => (res_Store x =? s)%string) results)
      (sorted (unique (map res_Store results))).
Proof.
  rewrite store_lines_plan_events.
  induction (sorted (unique (map res_Store results))) as [|s l IH]; simpl;
    [reflexivity | now rewrite IH].
Qed.

Lemma plan_events_partition (results : list result_row) :
  Permutation.Permutation
    (flat_map line_rows (store_lines (plan_events results))) results
  /\ forall l row, In l (store_lines (plan_events results)) ->
                   In row (line_rows l) -> res_Store row = line_store l.
Proof.
  split.
  - rewrite line_rows_plan_events.
    destruct (stores_cover results) as [Hnd Hall]. now apply groups_partition.
  - intros l row Hl Hrow. rewrite store_lines_plan_events in Hl.
    apply in_map_iff in Hl. destruct Hl as [s [<- _]].
    cbn [line_rows line_store fst snd] in *.
    apply filter_In in Hrow. destruct Hrow as [_ E]. now apply String.eqb_eq.
Qed.

(** ** Subtotals and totals *)

Lemma sum_Z_fold (l : list Z) (acc : Z) :
  fold_left Z.add l acc = (acc + fold_right Z.add 0 l)%Z.
Proof.
  revert acc; induction l as [|x l IH]; intros acc; simpl; [lia|].
  rewrite IH. lia.
Qed.

Lemma sum_Z_right (l : list Z) : sum_Z l = fold_right Z.add 0%Z l.
Proof. unfold sum_Z. rewrite sum_Z_fold. lia. Qed.

Lemma sum_Z_app (l1 l2 : list Z) : sum_Z (l1 ++ l2) = (sum_Z l1 + sum_Z l2)%Z.
Proof.
  rewrite !sum_Z_right. induction l1 as [|x l1 IH]; simpl; [reflexivity|].
  rewrite IH. lia.
Qed.

Lemma sum_Z_perm (l1 l2 : list Z) :
  Permutation.Permutation l1 l2 -> sum_Z l1 = sum_Z l2.
Proof.
  rewrite !sum_Z_right.
  induction 1; simpl; lia.
Qed.

Lemma sumQ_app (l1 l2 : list Q) : sumQ (l1 ++ l2) == sumQ l1 + sumQ l2.
Proof.
  induction l1 as [|x l1 IH]; simpl; [ring|]. rewrite IH. ring.
Qed.

Lemma sumQ_perm (l1 l2 : list Q) :
  Permutation.Permutation l1 l2 -> sumQ l1 == sumQ l2.
Proof.
  induction 1; simpl.
  - reflexivity.
  - now rewrite IHPermutation.
  - ring.
  - now rewrite IHPermutation1.
Qed.

Lemma subtotal_packages (results : list result_row) (L : list string) :
  sum_Z (map (fun s => sum_Z (map Qty_to_Buy
                                (filter (fun x => (res_Store x =? s)%string) results))) L)
  = sum_Z (map Qty_to_Buy
             (flat_map (fun s => filter (fun x => (res_Store x =? s)%string) results) L)).
Proof.
  induction L as [|s L IH]; simpl; [reflexivity|].
  rewrite map_app, sum_Z_app, <- IH.
  change (sum_Z (?a :: ?l)) with (sum_Z ([a] ++ l)).
  rewrite sum_Z_app. unfold sum_Z at 1. simpl. lia.
Qed.

Lemma subtotal_costs (results : list result_row) (L : list string) :
  sumQ (map (fun s => py_sum (map Weekly_Cost
                                (filter (fun x => (res_Store x =? s)%string) results))) L)
  == sumQ (map Weekly_Cost
             (flat_map (fun s => filter (fun x => (res_Store x =? s)%string) results) L)).
Proof.
  induction L as [|s L IH]; simpl; [reflexivity|].
  rewrite map_app, sumQ_app, <- IH, py_sum_sumQ. reflexivity.
Qed.

Lemma plan_events_subtotals (results : list result_row) (tc : Q) (ti : Z) (tw : Q) :
  In (tc, ti, tw) (metrics_lines (plan_events results)) ->
  sum_Z (map line_packages (store_lines (plan_events results))) = ti
  /\ sumQ (map line_cost (store_lines (plan_events results))) == tc.
Proof.
  intros Hm.
  assert (Em : metrics_lines (plan_events results)
               = [(py_sum (map Weekly_Cost results), sum_Z (map Qty_to_Buy results),
                   py_sum (map Total_Weight_lb results))]).
  { unfold plan_events, metrics_lines. rewrite flat_map_app. cbn [flat_map app].
    assert (E : forall l, flat_map
                 (fun e => match e with
                           | st_metrics tc0 ti0 tw0 => [(tc0, ti0, tw0)]
                           | _ => []
                           end) (map (store_event (DataFrame_of results)) l) = [])
      by (induction l; simpl; auto).
    now rewrite E. }
  rewrite Em in Hm. destruct Hm as [[= <- <- <-]|[]].
  destruct (stores_cover results) as [Hnd Hall].
  pose proof (groups_partition results _ Hnd Hall) as P.
  rewrite store_lines_plan_events, !map_map. cbn [line_packages line_cost fst snd].
  split.
  - rewrite subtotal_packages. apply sum_Z_perm. now apply Permutation.Permutation_map.
  - rewrite subtotal_costs, py_sum_sumQ. apply sumQ_perm.
    now apply Permutation.Permutation_map.
Qed.

(** What the Optimal branch leaves in the trace, by cases. *)
Lemma show_plan_cases (data : list data_row) (vals : values) :
  let w := snd (show_plan data vals []) in
  (w = [st_success "✅ Optimization Complete!"]
   /\ store_lines w = [] /\ metrics_lines w = [] /\ plan_rows w = [])
  \/ (exists results, w = plan_events results /\ plan_rows w = results).
Proof.
  intros w. unfold w. rewrite show_plan_trace.
  destruct (flat_map (extracted data vals) (buy_qty data)) as [|r rs].
  - left. repeat split; reflexivity.
  - right. exists (r :: rs). split; [reflexivity|].
    cbn [snd app]. apply plan_rows_plan_events.
Qed.

(** X1.  In the per-store listing of the Optimal branch, the stores are
    those of the plan rows shown, each once, in ascending order. *)
Theorem stores_sorted_and_distinct (data : list data_row) (vals : values) :
  let w := snd (show_plan data vals []) in
  let stores := map line_store (store_lines w) in
  ascending stores
  /\ NoDup stores
  /\ forall s, In s stores <-> exists row, In row (plan_rows w) /\ res_Store row = s.
Proof.
  cbv zeta. pose proof (show_plan_cases data vals) as C. cbv zeta in C.
  destruct C as [(_ & Hs & _ & Hp) | [results [Hw Hp]]].
  - rewrite Hs, Hp. simpl. split; [exact I|]. split; [constructor|].
    intros s. split; [intros [] | intros [row [[] _]]].
  - rewrite Hp, Hw. apply plan_events_stores.
Qed.

(** X2.  The per-store listing is a partition of the plan shown: the rows
    listed under the stores, taken together, are the rows of the plan, each
    exactly once, and every row under a store has that store. *)
Theorem store_groups_partition_plan (data : list data_row) (vals : values) :
  let w := snd (show_plan data vals []) in
  Permutation.Permutation (flat_map line_rows (store_lines w)) (plan_rows w)
  /\ forall l row, In l (store_lines w) -> In row (line_rows l) ->
                   res_Store row = line_store l.
Proof.
  cbv zeta. pose proof (show_plan_cases data vals) as C. cbv zeta in C.
  destruct C as [(_ & Hs & _ & Hp) | [results [Hw Hp]]].
  - rewrite Hs, Hp. split; [constructor | intros l row []].
  - rewrite Hp, Hw. apply plan_events_partition.
Qed.

(** X3.  The per-store subtotals add up to the plan totals: the store
    package counts sum to the total of packages shown in the metrics, and
    the store costs sum to the total cost shown there. *)
Theorem store_subtotals_add_up (data : list data_row) (vals : values)
  (tc : Q) (ti : Z) (tw : Q) :
  let w := snd (show_plan data vals []) in
  In (tc, ti, tw) (metrics_lines w) ->
  sum_Z (map line_packages (store_lines w)) = ti
  /\ sumQ (map line_cost (store_lines w)) == tc.
Proof.
  cbv zeta. intros Hm. pose proof (show_plan_cases data vals) as C. cbv zeta in C.
  destruct C as [(_ & _ & Hmt & _) | [results [Hw _]]].
  - rewrite Hmt in Hm. destruct Hm.
  - rewrite Hw in Hm |- *. now apply (plan_events_subtotals results tc ti tw).
Qed.

Lemma sample_metrics_line :
  In (183300 # 10000, 4%Z, 236200 # 10000)
     (metrics_lines
        (snd (show_plan sample_data
                (snd (sample_solver (full_model sample_data sample_required))) []))).
Proof. vm_compute. left. reflexivity. Qed.

Lemma store_subtotals_add_up_witness :
  sum_Z (map line_packages
           (store_lines
              (snd (show_plan sample_data
                      (snd (sample_solver (full_model sample_data sample_required)))
                      []))))
  = 4%Z.
Proof.
  exact (proj1 (store_subtotals_add_up sample_data _ _ _ _ sample_metrics_line)).
Defined.

(** ** Order of the purchase variables and of the plan *)

Lemma filter_filter_implied {A} (P Q : A -> bool) (l : list A) :
  (forall y, P y = true -> Q y = true) ->
  filter P (filter Q l) = filter P l.
Proof.
  intros H. induction l as [|x l IH]; simpl; [reflexivity|].
  destruct (Q x) eqn:EQ; simpl.
  - now rewrite IH.
  - destruct (P x) eqn:EP; [|exact IH].
    apply H in EP. congruence.
Qed.

Lemma filter_filter_and {A} (P Q : A -> bool) (l : list A) :
  filter P (filter Q l) = filter (fun y => Q y && P y) l.
Proof.
  induction l as [|x l IH]; simpl; [reflexivity|].
  destruct (Q x); simpl; [destruct (P x); now rewrite IH | exact IH].
Qed.

Lemma dict_keys_fold {A V} (key : A -> string) (val : A -> V) (l : list A)
  (acc : pydict V) :
  map fst (fold_left (fun d x => dict_setitem d (key x) (val x)) l acc)
  = map fst acc
    ++ filter (fun k => negb (existsb (String.eqb k) (map fst acc)))
         (unique (map key l)).
Proof.
  revert acc. induction l as [|x l IH]; intros acc; simpl.
  - now rewrite app_nil_r.
  - rewrite IH, dict_setitem_keys.
    destruct (existsb (String.eqb (key x)) (map fst acc)) eqn:E; simpl.
    + f_equal. symmetry. apply filter_filter_implied.
      intros y Hy. apply negb_true_iff in Hy. apply negb_true_iff.
      apply String.eqb_neq. intros ->. congruence.
    + rewrite <- app_assoc. simpl. f_equal. f_equal.
      rewrite filter_filter_and. apply filter_ext. intros y.
      rewrite existsb_app. simpl. rewrite orb_false_r, negb_orb.
      apply andb_comm.
Qed.

Lemma buy_qty_keys (data : list data_row) :
  map fst (buy_qty data) = unique (map Package_Description data).
Proof.
  unfold buy_qty, dict_comprehension. rewrite dict_keys_fold. simpl.
  induction (unique (map Package_Description data)) as [|x l IH]; simpl;
    [reflexivity | now rewrite IH].
Qed.

Lemma extracted_descriptions (data : list data_row) (vals : values)
  (entries : list (string * LpVariable)) :
  incl entries (buy_qty data) ->
  map res_Package_Description (flat_map (extracted data vals) entries)
  = filter (fun d => qty_selected (vals (buy_qty_slot d))) (map fst entries).
Proof.
  induction entries as [|[food v] entries IH]; intros Hincl; [reflexivity|].
  cbn [flat_map map filter fst]. rewrite map_app, IH
    by (intros x Hx; apply Hincl; now right).
  assert (Hin : In (food, v) (buy_qty data)) by (apply Hincl; now left).
  destruct (buy_qty_entry _ _ _ Hin) as [-> _].
  destruct (first_row_with_entry _ _ _ Hin) as [r [Hr _]].
  unfold extracted; cbn [fst snd var_slot PurchaseDecision]. rewrite Hr.
  destruct (vals (buy_qty_slot food)) as [x|]; [|reflexivity].
  rewrite qty_selected_some. destruct (Qle_bool x 0); reflexivity.
Qed.

(** X4.  The dict of purchase variables has one entry per distinct
    package description, in the order of first occurrence in the joined
    catalog; the plan lists, in that same order and at most once each, the
    descriptions whose solved value is present and above zero. *)
Theorem plan_follows_catalog_order (data : list data_row) (vals : values) :
  map fst (buy_qty data) = unique (map Package_Description data)
  /\ exists results,
       collect_results data vals = Ok results
       /\ map res_Package_Description results
          = filter (fun d => qty_selected (vals (buy_qty_slot d)))
              (unique (map Package_Description data))
       /\ NoDup (map res_Package_Description results).
Proof.
  split; [apply buy_qty_keys|].
  exists (flat_map (extracted data vals) (buy_qty data)).
  split; [apply collect_results_ok|].
  assert (E : map res_Package_Description
                (flat_map (extracted data vals) (buy_qty data))
              = filter (fun d => qty_selected (vals (buy_qty_slot d)))
                  (unique (map Package_Description data))).
  { rewrite extracted_descriptions by apply incl_refl. now rewrite buy_qty_keys. }
  split; [exact E|]. rewrite E. apply NoDup_filter, unique_NoDup.
Qed.

(** ** Quantities written by the extractor *)

Lemma Qfloor_unit (x : Q) : 0 <= x -> x < 1 -> Qfloor x = 0%Z.
Proof.
  intros H0 H1.
  pose proof (Qfloor_le x) as Hlo. pose proof (Qlt_floor x) as Hhi.
  assert (A : inject_Z (Qfloor x) < inject_Z 1) by (change (inject_Z 1) with 1; lra).
  assert (B : inject_Z 0 < inject_Z (Qfloor x + 1)) by (change (inject_Z 0) with 0; lra).
  rewrite <- Zlt_Qlt in A, B. lia.
Qed.

Lemma py_round_small (x : Q) : 0 <= x -> x <= 1 # 2 -> py_round x = 0%Z.
Proof.
  intros H0 H1. unfold py_round.
  rewrite (Qfloor_unit x H0) by lra. change (inject_Z 0) with 0.
  destruct (Qcompare_spec (x - 0) (1 # 2)) as [E|L|G]; [reflexivity | reflexivity | lra].
Qed.

Lemma py_round_large (x : Q) : 1 # 2 < x -> (1 <= py_round x)%Z.
Proof.
  intros H.
  assert (Hf : (0 <= Qfloor x)%Z).
  { change 0%Z with (Qfloor 0). apply Qfloor_resp_le. lra. }
  destruct (Z.eq_dec (Qfloor x) 0) as [E0|Hne].
  - unfold py_round. rewrite E0. change (inject_Z 0) with 0.
    destruct (Qcompare_spec (x - 0) (1 # 2)) as [E|L|G]; [lra | lra | lia].
  - destruct (py_round_cases x) as [_ [[_ ->]|[[_ ->]|[_ [-> | ->]]]]]; lia.
Qed.

(** X5.  Every row the extractor writes has a quantity that is not
    negative, whatever the solver reported.  The quantity is 0 exactly
    when the solved value, which is above zero, is at most one half: such
    a package is listed with nothing to buy. *)
Theorem plan_quantity_edge (data : list data_row) (vals : values) :
  exists results,
    collect_results data vals = Ok results
    /\ forall row, In row results ->
         exists x,
           vals (buy_qty_slot (res_Package_Description row)) = Some x
           /\ 0 < x
           /\ (0 <= Qty_to_Buy row)%Z
           /\ (Qty_to_Buy row = 0%Z <-> x <= 1 # 2).
Proof.
  exists (flat_map (extracted data vals) (buy_qty data)).
  split; [apply collect_results_ok|].
  intros row Hrow. apply in_flat_map in Hrow.
  destruct Hrow as [[food v] [Hin Hex]].
  apply in_extracted in Hex. destruct Hex as [x [r [Hv [Hx [_ ->]]]]].
  destruct (buy_qty_entry _ _ _ Hin) as [-> _].
  cbn [var_slot PurchaseDecision] in Hv.
  exists x. cbn [res_Package_Description Qty_to_Buy plan_row].
  split; [exact Hv|]. split; [exact Hx|]. split.
  { apply py_round_nonneg. lra. }
  split.
  - intros E. destruct (Qlt_le_dec (1 # 2) x) as [Hgt|Hle]; [|exact Hle].
    pose proof (py_round_large x Hgt). lia.
  - intros Hle. apply py_round_small; lra.
Qed.

(** ** Error paths of the handler *)

Lemma resolve_requirements_none (s : session_state) :
  check_df s = None -> household_members s <> [] ->
  resolve_requirements s
  = Raise (TypeError "'NoneType' object is not subscriptable").
Proof.
  intros Hc Hm. unfold resolve_requirements. rewrite Hc.
  destruct (household_members s); [congruence | reflexivity].
Qed.

Lemma tab3_pressed (solver : LpProblem -> status_t * values) (s : session_state)
  (cost : list cost_row) :
  household_members s <> [] -> cost_df s = Some cost ->
  tab3 solver s true = try_except (optimize solver s cost) on_exception.
Proof.
  intros Hm Hc. unfold tab3.
  destruct (household_members s); [congruence|]. now rewrite Hc.
Qed.

Lemma tab3_no_check_table (solver : LpProblem -> status_t * values)
  (s : session_state) (cost : list cost_row) :
  household_members s <> [] -> cost_df s = Some cost -> check_df s = None ->
  tab3 solver s true []
  = (Ok tt,
     [st_error "Error during optimization: 'NoneType' object is not subscriptable";
      st_exception (TypeError "'NoneType' object is not subscriptable")]).
Proof.
  intros Hm Hc Hk. rewrite (tab3_pressed solver s cost Hm Hc).
  unfold try_except, optimize, bindA, lift.
  rewrite (resolve_requirements_none s Hk Hm). reflexivity.
Qed.

Lemma tab3_no_catalog_table (solver : LpProblem -> status_t * values)
  (s : session_state) (cost : list cost_row) (check : list check_row) :
  household_members s <> [] -> cost_df s = Some cost -> check_df s = Some check ->
  nutrition_df s = None \/ stock_df s = None ->
  tab3 solver s true []
  = (Ok tt,
     [st_error ("Error during optimization: " ++ exn_str merge_error);
      st_exception merge_error]).
Proof.
  intros Hm Hc Hk Hmiss.
  assert (Hmerge : merge_session cost s = Raise merge_error).
  { unfold merge_session. destruct (nutrition_df s); [|reflexivity].
    destruct Hmiss as [H|H]; [discriminate | now rewrite H]. }
  rewrite (tab3_pressed solver s cost Hm Hc).
  unfold try_except, optimize, bindA, lift.
  rewrite (resolve_requirements_ok s check Hk), Hmerge. reflexivity.
Qed.

Lemma tab3_no_cost_table (solver : LpProblem -> status_t * values)
  (s : session_state) (button : bool) :
  household_members s <> [] -> cost_df s = None ->
  tab3 solver s button []
  = (Ok tt, [st_warning "⚠️ Please upload the grocery list file"]).
Proof.
  intros Hm Hc. unfold tab3.
  destruct (household_members s); [congruence|]. now rewrite Hc.
Qed.

(** X6.  With a roster and a cost table but no requirement table loaded,
    pressing the button ends in the handler's two error lines carrying the
    [TypeError] of the first member's lookup; the tables are not joined and
    the solver is not called. *)
Theorem missing_requirement_table_is_reported
  (solver : LpProblem -> status_t * values) (s : session_state)
  (cost : list cost_row) :
  household_members s <> [] -> cost_df s = Some cost -> check_df s = None ->
  tab3 solver s true []
  = (Ok tt,
     [st_error "Error during optimization: 'NoneType' object is not subscriptable";
      st_exception (TypeError "'NoneType' object is not subscriptable")])
  /\ solve_calls (run_tab3 solver s true) = [].
Proof.
  intros Hm Hc Hk.
  pose proof (tab3_no_check_table solver s cost Hm Hc Hk) as E.
  split; [exact E|]. unfold run_tab3. now rewrite E.
Qed.

Lemma missing_requirement_table_is_reported_witness :
  solve_calls
    (run_tab3 sample_solver
       {| household_members := [adam]; cost_df := Some [rice];
          nutrition_df := None; check_df := None; stock_df := None |} true)
  = [].
Proof.
  refine (proj2 (missing_requirement_table_is_reported sample_solver _ [rice] _ _ _));
    [discriminate | reflexivity | reflexivity].
Defined.

(** X7.  With a roster, a cost table and a requirement table, but the
    nutrition table or the stock table missing, pressing the button ends in
    the handler's two error lines carrying the [TypeError] of [pd.merge];
    no model is built and the solver is not called. *)
Theorem missing_catalog_table_is_reported
  (solver : LpProblem -> status_t * values) (s : session_state)
  (cost : list cost_row) (check : list check_row) :
  household_members s <> [] -> cost_df s = Some cost -> check_df s = Some check ->
  nutrition_df s = None \/ stock_df s = None ->
  tab3 solver s true []
  = (Ok tt,
     [st_error ("Error during optimization: " ++ exn_str merge_error);
      st_exception merge_error])
  /\ solve_calls (run_tab3 solver s true) = [].
Proof.
  intros Hm Hc Hk Hmiss.
  pose proof (tab3_no_catalog_table solver s cost check Hm Hc Hk Hmiss) as E.
  split; [exact E|]. unfold run_tab3. now rewrite E.
Qed.

Lemma missing_catalog_table_is_reported_witness :
  solve_calls
    (run_tab3 sample_solver
       {| household_members := [adam]; cost_df := Some [rice];
          nutrition_df := Some [rice_nutrition]; check_df := Some [men_19_30];
          stock_df := None |} true)
  = [].
Proof.
  refine (proj2 (missing_catalog_table_is_reported sample_solver _ [rice] [men_19_30]
                   _ _ _ _));
    [discriminate | reflexivity | reflexivity | right; reflexivity].
Defined.

(** X8.  With a roster but no cost table, tab 3 is the single warning that
    asks for the grocery file, pressed or not; the solver is not called. *)
Theorem missing_cost_table_warns (solver : LpProblem -> status_t * values)
  (s : session_state) (button : bool) :
  household_members s <> [] -> cost_df s = None ->
  tab3 solver s button [] 
  = (Ok tt, [st_warning "⚠️ Please upload the grocery list file"])
  /\ solve_calls (run_tab3 solver s button) = [].
Proof.
  intros Hm Hc.
  pose proof (tab3_no_cost_table solver s button Hm Hc) as E.
  split; [exact E|]. unfold run_tab3. now rewrite E.
Qed.

Lemma missing_cost_table_warns_witness :
  solve_calls
    (run_tab3 sample_solver
       {| household_members := [adam]; cost_df := None;
          nutrition_df := Some [rice_nutrition]; check_df := Some [men_19_30];
          stock_df := Some [milk_stock] |} true)
  = [].
Proof.
  refine (proj2 (missing_cost_table_warns sample_solver _ true _ _));
    [discriminate | reflexivity].
Defined.

Lemma tab3_loaded_result (solver : LpProblem -> status_t * values) (s : session_state)
  (cost : list cost_row) (nutrition : list nutrition_row) (check : list check_row)
  (stock : list stock_row) :
  loaded s cost nutrition check stock ->
  fst (tab3 solver s true []) = Ok tt.
Proof.
  intros Hl. rewrite (tab3_loaded _ _ _ _ _ _ Hl).
  unfold try_except. rewrite (optimize_trace _ _ _ _ _ _ _ Hl).
  destruct (LpStatus _ =? "Optimal")%string; [|reflexivity].
  rewrite show_plan_trace.
  destruct (flat_map _ _); reflexivity.
Qed.

Lemma quiet_run (solver : LpProblem -> status_t * values) (s : session_state)
  (button : bool) (w : list event) :
  tab3 solver s button [] = (Ok tt, w) ->
  solve_calls w = [] -> plan_rows w = [] ->
  fst (tab3 solver s button []) = Ok tt
  /\ (List.length (solve_calls (run_tab3 solver s button)) <= 1)%nat
  /\ (forall m, In (model_solve m) (run_tab3 solver s button) ->
        button = true
        /\ exists cost nutrition check stock,
             loaded s cost nutrition check stock
             /\ m = session_model s cost nutrition check stock)
  /\ (button = false ->
      solve_calls (run_tab3 solver s button) = []
      /\ plan_rows (run_tab3 solver s button) = []).
Proof.
  intros E Hs Hp. unfold run_tab3. rewrite E. cbn [fst snd].
  split; [reflexivity|]. split; [rewrite Hs; simpl; lia|]. split.
  - intros m Hin.
    assert (Hf : In (model_solve m) (solve_calls w))
      by (apply filter_In; split; [exact Hin | reflexivity]).
    rewrite Hs in Hf. destruct Hf.
  - intros _. now split.
Qed.

(** X9.  Whatever the session, the solver and the button, a run of tab 3
    returns normally (every exception of the body is caught), calls the
    solver at most once, and calls it only on the model of a session whose
    four tables are loaded and whose roster is not empty; without the
    button pressed it does not call it at all and shows no plan. *)
Theorem tab3_never_raises_and_solves_at_most_once
  (solver : LpProblem -> status_t * values) (s : session_state) (button : bool) :
  fst (tab3 solver s button []) = Ok tt
  /\ (List.length (solve_calls (run_tab3 solver s button)) <= 1)%nat
  /\ (forall m, In (model_solve m) (run_tab3 solver s button) ->
        button = true
        /\ exists cost nutrition check stock,
             loaded s cost nutrition check stock
             /\ m = session_model s cost nutrition check stock)
  /\ (button = false ->
      solve_calls (run_tab3 solver s button) = []
      /\ plan_rows (run_tab3 solver s button) = []).
Proof.
  destruct (household_members s) as [|m0 ms] eqn:Hm.
  { apply (quiet_run solver s button
             [st_warning "⚠️ Please add household members first"]);
      [unfold tab3; now rewrite Hm | reflexivity | reflexivity]. }
  assert (Hne : household_members s <> []) by (rewrite Hm; discriminate).
  destruct (cost_df s) as [cost|] eqn:Hc.
  2:{ now apply (quiet_run solver s button _
                       (tab3_no_cost_table solver s button Hne Hc)). }
  destruct button.
  2:{ apply (quiet_run solver s false []);
        [unfold tab3; rewrite Hm, Hc; reflexivity | reflexivity | reflexivity]. }
  destruct (check_df s) as [check|] eqn:Hk.
  2:{ now apply (quiet_run solver s true _
                       (tab3_no_check_table solver s cost Hne Hc Hk)). }
  destruct (nutrition_df s) as [nutrition|] eqn:Hn.
  2:{ now apply (quiet_run solver s true _
                       (tab3_no_catalog_table solver s cost check Hne Hc Hk
                          (or_introl Hn))). }
  destruct (stock_df s) as [stock|] eqn:Hs.
  2:{ now apply (quiet_run solver s true _
                       (tab3_no_catalog_table solver s cost check Hne Hc Hk
                          (or_intror Hs))). }
  assert (Hl : loaded s cost nutrition check stock) by (unfold loaded; tauto).
  split; [now apply (tab3_loaded_result _ _ _ _ _ _ Hl)|].
  split; [rewrite (solve_calls_run _ _ _ _ _ _ Hl); simpl; lia|].
  split; [|discriminate].
  intros m Hin. split; [reflexivity|].
  exists cost, nutrition, check, stock. split; [exact Hl|].
  assert (Hf : In (model_solve m) (solve_calls (run_tab3 solver s true)))
    by (apply filter_In; split; [exact Hin | reflexivity]).
  rewrite (solve_calls_run _ _ _ _ _ _ Hl) in Hf.
  destruct Hf as [[= <-]|[]]. reflexivity.
Qed.

(** ** The Optimal branch *)

Lemma metrics_plan_events (results : list result_row) :
  metrics_lines (plan_events results)
  = [(py_sum (map Weekly_Cost results), sum_Z (map Qty_to_Buy results),
      py_sum (map Total_Weight_lb results))].
Proof.
  unfold plan_events, metrics_lines. rewrite flat_map_app. cbn [flat_map app].
  induction (sorted (unique (map res_Store results))) as [|s l IH]; simpl;
    [reflexivity | exact IH].
Qed.




(** ** The model: objective, size, feasibility *)

Lemma holds_nutrient_requirement (data : list data_row) (req : required)
  (n : nutrient) (a : assignment) :
  holds a (nutrient_requirement data req n) = true
  <-> required_get req n * 7
      <= sumQ (map (fun p => nutrient_col n p
                             * a (buy_qty_slot (Package_Description p))) data)
         + sumQ (map (fun p => nutrient_col n p * Quantity_in_Stock_lb p) data).
Proof.
  assert (Hstock : stock_term data n
                   == sumQ (map (fun p => nutrient_col n p * Quantity_in_Stock_lb p) data))
    by (unfold stock_term; apply py_sum_sumQ).
  unfold holds, nutrient_requirement, eval_expr;
    cbn [con_sense con_lhs con_rhs terms constant expr_of_number].
  change (eval_terms a []) with 0.
  rewrite Qle_bool_iff, eval_purchase_terms, Hstock. split; intros H; lra.
Qed.

Lemma sumQ_le {A} (f g : A -> Q) (l : list A) :
  (forall x, In x l -> f x <= g x) -> sumQ (map f l) <= sumQ (map g l).
Proof.
  induction l as [|x l IH]; intros H; simpl; [apply Qle_refl|].
  assert (f x <= g x) by (apply H; now left).
  assert (sumQ (map f l) <= sumQ (map g l))
    by (apply IH; intros y Hy; apply H; now right).
  lra.
Qed.

(** X11.  The objective of the model handed to the solver is the purchase
    cost Σ_p price(p) × PurchaseDecision[p] over the rows of the joined
    catalog; it does not depend on the indicators, and it is not negative
    when prices are not negative and the purchases lie in their bounds. *)
Theorem objective_is_purchase_cost (data : list data_row) (req : required) :
  exists m,
    build_model data req = Ok m
    /\ (forall a,
          objective_value m a
          == sumQ (map (fun p => price p * a (buy_qty_slot (Package_Description p)))
                     data))
    /\ (forall a, objective_value m (zero_indicators a) == objective_value m a)
    /\ (forall a, (forall p, In p data -> 0 <= price p) ->
                  purchases_in_bounds data a -> 0 <= objective_value m a).
Proof.
  exists (full_model data req). split; [apply build_model_ok|].
  assert (E : forall a,
             objective_value (full_model data req) a
             == sumQ (map (fun p => price p * a (buy_qty_slot (Package_Description p)))
                        data)).
  { intros a. unfold objective_value, full_model, eval_expr; cbn [objective terms constant].
    rewrite eval_purchase_terms. ring. }
  split; [exact E|]. split.
  - intros a. rewrite !E. reflexivity.
  - intros a Hprice Hb. rewrite E. apply sumQ_nonneg. intros p Hp.
    pose proof (Hprice p Hp). pose proof (purchases_in_bounds_nonneg data a Hb p Hp).
    apply Qmult_le_0_compat; assumption.
Qed.

Lemma diversity_length (data : list data_row) (cats : list string) :
  List.length (flat_map (diversity_of data) cats)
  = (2 * List.length
           (filter (fun c => match cat_items data c with [] => false | _ :: _ => true end)
              cats))%nat.
Proof.
  induction cats as [|c cats IH]; [reflexivity|].
  cbn [flat_map filter]. rewrite length_app, IH. unfold diversity_of.
  destruct (cat_items data c); simpl; lia.
Qed.

(** X12.  The model has 4 constraints plus 2 for each listed category
    that has a package in the joined catalog, hence between 4 and 14. *)
Theorem model_size (data : list data_row) (req : required) :
  exists m,
    build_model data req = Ok m
    /\ List.length (constraints m)
       = (4 + 2 * List.length (present_categories data))%nat
    /\ (4 <= List.length (constraints m) <= 14)%nat.
Proof.
  exists (full_model data req). split; [apply build_model_ok|].
  assert (E : List.length (constraints (full_model data req))
              = (4 + 2 * List.length (present_categories data))%nat).
  { unfold full_model; cbn [constraints]. rewrite length_app, length_map.
    unfold diversity_constraints, present_categories. now rewrite diversity_length. }
  split; [exact E|]. rewrite E.
  assert (List.length (present_categories data) <= 5)%nat.
  { unfold present_categories.
    pose proof (filter_length_le
                  (fun c => match cat_items data c with [] => false | _ :: _ => true end)
                  basket_categories) as H.
    exact H. }
  lia.
Qed.

(** X13.  When, for some nutrient whose contents are not negative, buying
    every package up to the upper bound of its variable still leaves the
    nutrient, stock included, below seven times the daily requirement, the
    model has no feasible assignment. *)
Theorem unreachable_floor_is_infeasible (data : list data_row) (req : required)
  (n : nutrient) :
  (forall p, In p data -> 0 <= nutrient_col n p) ->
  sumQ (map (fun p => nutrient_col n p * declared_max data (Package_Description p)) data)
  + sumQ (map (fun p => nutrient_col n p * Quantity_in_Stock_lb p) data)
  < required_get req n * 7 ->
  exists m, build_model data req = Ok m /\ infeasible m.
Proof.
  intros Hnn Hlt. exists (full_model data req). split; [apply build_model_ok|].
  intros a Hf. apply feasible_full_nutrient in Hf.
  pose proof (feasible_nutrient_in_bounds _ _ _ Hf) as Hb.
  destruct Hf as [_ Hc].
  assert (Hin : In (nutrient_requirement data req n)
                  (constraints (nutrient_model data req))).
  { unfold nutrient_model; cbn [constraints]. apply in_map.
    destruct n; simpl; tauto. }
  apply Hc, holds_nutrient_requirement in Hin.
  assert (Hle : sumQ (map (fun p => nutrient_col n p
                                    * a (buy_qty_slot (Package_Description p))) data)
                <= sumQ (map (fun p => nutrient_col n p
                                       * declared_max data (Package_Description p)) data)).
  { apply sumQ_le. intros p Hp.
    pose proof (Hb _ _ (buy_qty_has_row data p Hp)) as Hd.
    apply in_domain_purchase in Hd. cbn [var_slot PurchaseDecision] in Hd.
    destruct Hd as (_ & Hmax & _). pose proof (Hnn p Hp).
    rewrite (Qmult_comm (nutrient_col n p) (a _)),
      (Qmult_comm (nutrient_col n p) (declared_max _ _)).
    apply Qmult_le_compat_r; assumption. }
  lra.
Qed.

Lemma unreachable_floor_is_infeasible_witness :
  infeasible (full_model broth_data broth_required).
Proof.
  destruct (unreachable_floor_is_infeasible broth_data broth_required Protein)
    as [m [Hm Hinf]].
  - intros p [<-|[]]. vm_compute. discriminate.
  - vm_compute. reflexivity.
  - rewrite build_model_ok in Hm. injection Hm as <-. exact Hinf.
Defined.

Lemma required_nutrients_unmatched (check : list check_row) (members : list member) :
  (forall m, In m members -> selected_row check m = None) ->
  required_nutrients check members = required_zero.
Proof.
  unfold required_nutrients. generalize required_zero.
  induction members as [|m members IH]; intros acc H; simpl; [reflexivity|].
  rewrite add_member_selected, (H m) by now left.
  apply IH. intros x Hx. apply H. now right.
Qed.

Lemma buy_nothing_feasible (data : list data_row) (req : required) :
  nonneg_catalog data ->
  (forall p, In p data -> 0 <= Max_quantity p) ->
  (forall n, required_get req n <= 0) ->
  feasible (full_model data req) buy_nothing.
Proof.
  intros Hnn Hmax Hreq.
  assert (F : feasible (nutrient_model data req) (fun _ => 0)).
  { split.
    - intros v Hv. unfold model_vars, nutrient_model, expr_vars in Hv;
        cbn [objective constraints terms] in Hv.
      assert (Hpd : exists p, In p data
                              /\ v = PurchaseDecision data (Package_Description p)).
      { apply in_app_or in Hv. destruct Hv as [Hv|Hv].
        - now apply purchase_terms_vars in Hv.
        - apply in_flat_map in Hv. destruct Hv as [c [Hc Hv]].
          apply in_map_iff in Hc. destruct Hc as [n [<- _]].
          unfold nutrient_requirement in Hv;
            cbn [con_lhs con_rhs terms expr_of_number] in Hv.
          rewrite app_nil_r in Hv. now apply purchase_terms_vars in Hv. }
      destruct Hpd as [p [Hp ->]].
      unfold in_domain, PurchaseDecision; cbn.
      destruct (last_row_of_in data p Hp) as [r Hr].
      destruct (last_row_of_some _ _ _ Hr) as [Hrin _].
      unfold declared_max. rewrite Hr.
      pose proof (Hmax r Hrin) as H0. apply Qle_bool_iff in H0.
      rewrite H0. reflexivity.
    - intros c Hc. unfold nutrient_model in Hc; cbn [constraints] in Hc.
      apply in_map_iff in Hc. destruct Hc as [n [<- _]].
      apply holds_nutrient_requirement.
      assert (H1 : 0 <= sumQ (map (fun p => nutrient_col n p * 0) data)).
      { apply sumQ_nonneg. intros p _. lra. }
      assert (H2 : 0 <= sumQ (map (fun p => nutrient_col n p * Quantity_in_Stock_lb p)
                                data)).
      { apply sumQ_nonneg. intros p Hp. destruct (Hnn p Hp) as (_ & Hs & Hn).
        apply Qmult_le_0_compat; [apply Hn | exact Hs]. }
      pose proof (Hreq n). lra. }
  exact (feasible_nutrient_full data req (fun _ => 0) F).
Qed.

(** X14.  When no member of the household suits a requirement row, the
    weekly floors are all zero; then, on a catalog whose prices, nutrient
    contents, stock and maximum quantities are not negative, buying nothing
    satisfies the model and the optimal cost is 0. *)
Theorem unmatched_household_buys_nothing (check : list check_row)
  (members : list member) (data : list data_row) :
  (forall m, In m members -> selected_row check m = None) ->
  nonneg_catalog data ->
  (forall p, In p data -> 0 <= Max_quantity p) ->
  required_nutrients check members = required_zero
  /\ exists m,
       build_model data (required_nutrients check members) = Ok m
       /\ feasible m buy_nothing
       /\ objective_value m buy_nothing == 0
       /\ optimal_value m 0.
Proof.
  intros Hun Hnn Hmax.
  pose proof (required_nutrients_unmatched check members Hun) as Hz.
  split; [exact Hz|]. rewrite Hz.
  exists (full_model data required_zero). split; [apply build_model_ok|].
  assert (F : feasible (full_model data required_zero) buy_nothing).
  { apply buy_nothing_feasible; try assumption.
    intros n. destruct n; simpl; apply Qle_refl. }
  assert (E : forall a,
             objective_value (full_model data required_zero) a
             == sumQ (map (fun p => price p * a (buy_qty_slot (Package_Description p)))
                        data)).
  { intros a. unfold objective_value, full_model, eval_expr; cbn [objective terms constant].
    rewrite eval_purchase_terms. ring. }
  assert (Z0 : objective_value (full_model data required_zero) buy_nothing == 0).
  { rewrite E. unfold buy_nothing; cbn [zero_indicators].
    clear. induction data as [|p l IH]; simpl; [reflexivity|].
    rewrite IH. ring. }
  split; [exact F|]. split; [exact Z0|].
  split; [exists buy_nothing; now split|].
  intros a Hf. rewrite E. apply sumQ_nonneg. intros p Hp.
  apply feasible_full_nutrient in Hf.
  pose proof (feasible_nutrient_in_bounds _ _ _ Hf) as Hb.
  pose proof (purchases_in_bounds_nonneg data a Hb p Hp).
  destruct (Hnn p Hp) as (Hprice & _).
  apply Qmult_le_0_compat; assumption.
Qed.

Lemma sample_catalog_nonneg : nonneg_catalog sample_data.
Proof.
  intros p [<-|[<-|[]]]; (split; [|split; [|intros n; destruct n]]);
    vm_compute; discriminate.
Qed.

Lemma unmatched_household_buys_nothing_witness :
  optimal_value
    (full_model sample_data (required_nutrients [men_19_30; women_19_30] [elder])) 0.
Proof.
  destruct (unmatched_household_buys_nothing [men_19_30; women_19_30] [elder]
              sample_data) as [_ [m [Hm [_ [_ Hopt]]]]].
  - intros m [<-|[]]. reflexivity.
  - exact sample_catalog_nonneg.
  - intros p [<-|[<-|[]]]; vm_compute; discriminate.
  - rewrite build_model_ok in Hm. injection Hm as <-. exact Hopt.
Defined.

(** ** The roster and its requirements *)

Lemma required_eq_trans (a b c : required) :
  required_eq a b -> required_eq b c -> required_eq a c.
Proof.
  unfold required_eq. intros (A1 & A2 & A3 & A4) (B1 & B2 & B3 & B4).
  rewrite A1, A2, A3, A4. tauto.
Qed.

Lemma required_eq_sym (a b : required) : required_eq a b -> required_eq b a.
Proof.
  unfold required_eq. intros (A1 & A2 & A3 & A4).
  rewrite A1, A2, A3, A4. repeat split; reflexivity.
Qed.

Lemma required_nutrients_total (check : list check_row) (members : list member) :
  required_eq (required_nutrients check members)
    (required_total (map (fun m => contribution (selected_row check m)) members)).
Proof.
  unfold required_nutrients.
  pose proof (fold_add_member check members required_zero) as (H1 & H2 & H3 & H4).
  unfold required_eq. rewrite H1, H2, H3, H4. simpl. repeat split; ring.
Qed.

Lemma required_total_perm (l1 l2 : list required) :
  Permutation.Permutation l1 l2 ->
  required_eq (required_total l1) (required_total l2).
Proof.
  induction 1 as [|x l l' _ IH|x y l|l l' l'' _ IH1 _ IH2].
  - apply required_eq_refl.
  - destruct IH as (A1 & A2 & A3 & A4). unfold required_eq; simpl.
    rewrite A1, A2, A3, A4. repeat split; reflexivity.
  - unfold required_eq; simpl. repeat split; ring.
  - eapply required_eq_trans; eassumption.
Qed.

Lemma required_total_app (l1 l2 : list required) :
  required_eq (required_total (l1 ++ l2))
    (required_add (required_total l1) (required_total l2)).
Proof.
  induction l1 as [|x l1 IH]; simpl.
  - unfold required_eq; simpl. repeat split; ring.
  - destruct IH as (A1 & A2 & A3 & A4). unfold required_eq; simpl.
    rewrite A1, A2, A3, A4. simpl. repeat split; ring.
Qed.

(** X15.  The aggregate requirement does not depend on the order in which
    the members were added, and the aggregate of two rosters put together
    is the sum of their aggregates. *)
Theorem aggregate_is_order_independent_and_additive (check : list check_row)
  (members members' : list member) :
  (Permutation.Permutation members members' ->
   required_eq (required_nutrients check members) (required_nutrients check members'))
  /\ required_eq (required_nutrients check (members ++ members'))
       (required_add (required_nutrients check members)
          (required_nutrients check members')).
Proof.
  split.
  - intros P.
    eapply required_eq_trans; [apply required_nutrients_total|].
    eapply required_eq_trans;
      [|apply required_eq_sym, required_nutrients_total].
    apply required_total_perm. now apply Permutation.Permutation_map.
  - eapply required_eq_trans; [apply required_nutrients_total|].
    rewrite map_app.
    eapply required_eq_trans; [apply required_total_app|].
    pose proof (required_nutrients_total check members) as (A1 & A2 & A3 & A4).
    pose proof (required_nutrients_total check members') as (B1 & B2 & B3 & B4).
    unfold required_eq; simpl. rewrite A1, A2, A3, A4, B1, B2, B3, B4.
    repeat split; reflexivity.
Qed.

Lemma plan_events_no_warning (results : list result_row) (msg : string) :
  ~ In (st_warning msg) (plan_events results).
Proof.
  unfold plan_events. intros H. apply in_app_or in H. destruct H as [H|H].
  - destruct H as [H|[H|[H|[]]]]; discriminate.
  - apply in_map_iff in H. destruct H as [st [H _]]. discriminate.
Qed.

Lemma run_warnings (solver : LpProblem -> status_t * values) (s : session_state)
  (button : bool) (msg : string) :
  household_members s <> [] ->
  In (st_warning msg) (run_tab3 solver s button) ->
  cost_df s = None /\ msg = "⚠️ Please upload the grocery list file".
Proof.
  intros Hne Hin.
  destruct (cost_df s) as [cost|] eqn:Hc.
  2:{ unfold run_tab3 in Hin. rewrite (tab3_no_cost_table solver s button Hne Hc) in Hin.
      destruct Hin as [[= <-]|[]]. now split. }
  exfalso. destruct button.
  2:{ unfold run_tab3, tab3 in Hin. rewrite Hc in Hin.
      destruct (household_members s); [congruence | destruct Hin]. }
  destruct (check_df s) as [check|] eqn:Hk.
  2:{ unfold run_tab3 in Hin.
      rewrite (tab3_no_check_table solver s cost Hne Hc Hk) in Hin.
      destruct Hin as [H|[H|[]]]; discriminate. }
  destruct (nutrition_df s) as [nutrition|] eqn:Hn.
  2:{ unfold run_tab3 in Hin.
      rewrite (tab3_no_catalog_table solver s cost check Hne Hc Hk (or_introl Hn)) in Hin.
      destruct Hin as [H|[H|[]]]; discriminate. }
  destruct (stock_df s) as [stock|] eqn:Hs.
  2:{ unfold run_tab3 in Hin.
      rewrite (tab3_no_catalog_table solver s cost check Hne Hc Hk (or_intror Hs)) in Hin.
      destruct Hin as [H|[H|[]]]; discriminate. }
  assert (Hl : loaded s cost nutrition check stock) by (unfold loaded; tauto).
  rewrite (run_tab3_trace _ _ _ _ _ _ Hl) in Hin.
  destruct Hin as [H|Hin]; [discriminate|].
  destruct (LpStatus _ =? "Optimal")%string.
  - destruct (flat_map _ _) as [|r rs].
    + destruct Hin as [H|[H|[H|[]]]]; discriminate.
    + now apply plan_events_no_warning in Hin.
  - destruct Hin as [H|[]]; discriminate.
Qed.

(** X16.  "Add Member" appends the member to the roster and leaves the
    tables alone; the aggregate grows by the minimums of the row read for
    the new member, or stays the same when no row suits; and tab 3 no
    longer asks for members. *)
Theorem add_member_click_effect (solver : LpProblem -> status_t * values)
  (s : session_state) (member_age : Z) (member_gender : gender_t)
  (check : list check_row) (button : bool) :
  let s' := add_member_click s member_age member_gender in
  let m := {| age := member_age; gender := member_gender |} in
  household_members s' = household_members s ++ [m]
  /\ (cost_df s', nutrition_df s', check_df s', stock_df s')
     = (cost_df s, nutrition_df s, check_df s, stock_df s)
  /\ required_nutrients check (household_members s')
     = add_member check (required_nutrients check (household_members s)) m
  /\ required_eq (required_nutrients check (household_members s'))
       (required_add (required_nutrients check (household_members s))
          (contribution (selected_row check m)))
  /\ ~ In (st_warning "⚠️ Please add household members first")
          (run_tab3 solver s' button).
Proof.
  intros s' m.
  split; [reflexivity|]. split; [reflexivity|]. split.
  { unfold s', add_member_click, with_members, required_nutrients;
      cbn [household_members]. now rewrite fold_left_app. }
  split.
  { unfold s', add_member_click, with_members, required_nutrients;
      cbn [household_members]. rewrite fold_left_app. cbn [fold_left].
    rewrite add_member_selected. unfold m.
    destruct (selected_row check _); [apply required_eq_refl|].
    unfold required_eq; simpl. repeat split; ring. }
  assert (Hne : household_members s' <> [])
    by (unfold s', add_member_click, with_members; cbn [household_members];
        destruct (household_members s); discriminate).
  intros Hin. apply (run_warnings solver s' button _ Hne) in Hin.
  destruct Hin as [_ Hmsg]. discriminate.
Qed.

Lemma total_step_agrees (check : list check_row) (members : list member)
  (t : total_requirements_t) (r : required) :
  (tot_Calories t, tot_Protein t, tot_Carbohydrates t, tot_Fat t)
  = (req_Min_Calorie r, req_Min_Protein r, req_Min_Carbohydrate r, req_Min_Fat r) ->
  let t' := fold_left (total_step check) members t in
  let r' := fold_left (add_member check) members r in
  (tot_Calories t', tot_Protein t', tot_Carbohydrates t', tot_Fat t')
  = (req_Min_Calorie r', req_Min_Protein r', req_Min_Carbohydrate r', req_Min_Fat r').
Proof.
  revert t r. induction members as [|m members IH]; intros t r H; [exact H|].
  cbn [fold_left]. apply IH. unfold total_step, add_member.
  injection H as H1 H2 H3 H4.
  destruct (filter (row_mask m) check) as [|row rows]; simpl; congruence.
Qed.

Lemma format_0f_shows_floor (data : list data_row) (req : required) (n : nutrient)
  (daily : Q) :
  daily = required_get req n ->
  shown_floor (full_model data req) (nutrient_key n ++ "_requirement")
    (format_0f (daily * 7)).
Proof.
  intros ->.
  destruct (nutrient_floor_reads data req n) as [c (Hc & Hs & Hr & _)].
  exists c, (required_get req n * 7). split; [exact Hc|]. split; [exact Hs|].
  split; [exact Hr|]. unfold format_0f. split.
  - apply py_round_nearest.
  - apply py_round_integer.
Qed.

(** X17.  The daily totals computed for tab 1 are the aggregate the
    optimizer computes in tab 3.  Each number of the "Weekly Requirements"
    line, printed without decimals, stands for the floor of the constraint
    of the same nutrient in the model built for the same roster: the
    calories shown for [Min_Calorie_requirement], the protein for
    [Min_Protein_requirement], the carbohydrates for
    [Min_Carbohydrate_requirement], the fat for [Min_Fat_requirement];
    the shown number is at most one half away from the floor enforced, and
    is the floor itself when that is a whole number. *)
Theorem shown_requirements_are_enforced (check : list check_row)
  (members : list member) (data : list data_row) :
  let t := total_requirements check members in
  let req := required_nutrients check members in
  let line := weekly_line t in
  (tot_Calories t = req_Min_Calorie req
   /\ tot_Protein t = req_Min_Protein req
   /\ tot_Carbohydrates t = req_Min_Carbohydrate req
   /\ tot_Fat t = req_Min_Fat req)
  /\ exists m,
       build_model data req = Ok m
       /\ shown_floor m "Min_Calorie_requirement" (shown_calories line)
       /\ shown_floor m "Min_Protein_requirement" (shown_protein line)
       /\ shown_floor m "Min_Carbohydrate_requirement" (shown_carbs line)
       /\ shown_floor m "Min_Fat_requirement" (shown_fat line).
Proof.
  intros t req line.
  assert (E : (tot_Calories t, tot_Protein t, tot_Carbohydrates t, tot_Fat t)
              = (req_Min_Calorie req, req_Min_Protein req, req_Min_Carbohydrate req,
                 req_Min_Fat req)).
  { unfold t, req, total_requirements, required_nutrients.
    now apply (total_step_agrees check members total_zero required_zero). }
  injection E as E1 E2 E3 E4.
  split; [tauto|].
  exists (full_model data req). split; [apply build_model_ok|].
  unfold line, weekly_line; cbn [shown_calories shown_protein shown_carbs shown_fat].
  split; [exact (format_0f_shows_floor data req Calorie _ E1)|].
  split; [exact (format_0f_shows_floor data req Protein _ E2)|].
  split; [exact (format_0f_shows_floor data req Carbohydrate _ E3)|].
  exact (format_0f_shows_floor data req Fat _ E4).
Qed.

Lemma members_data_numbers (start : nat) (members : list member) :
  map Member_no (members_data_from start members)
  = seq (start + 1) (List.length members).
Proof.
  revert start. induction members as [|m members IH]; intros start; [reflexivity|].
  cbn [members_data_from map List.length seq Member_no]. f_equal.
  rewrite IH. reflexivity.
Qed.

(** X18.  The members table of tab 1 has one line per member, numbered
    1, 2, ... in roster order, with the member's age and with the gender
    written "Male" or "Female"; lower-casing the shown gender gives back
    the stored one. *)
Theorem members_table_lines (members : list member) :
  map Member_no (members_data members) = seq 1 (List.length members)
  /\ map line_Age (members_data members) = map age members
  /\ map line_Gender (members_data members)
     = map (fun m => match gender m with male => "Male" | female => "Female" end)
         members
  /\ map (fun l => lower (line_Gender l)) (members_data members)
     = map (fun m => gender_str (gender m)) members.
Proof.
  split; [apply (members_data_numbers 0)|].
  unfold members_data. generalize 0%nat.
  induction members as [|m members IH]; intros k; [repeat split; reflexivity|].
  destruct (IH (S k)) as (A & B & C).
  cbn [members_data_from map line_Age line_Gender].
  rewrite A, B, C. destruct (gender m); repeat split; reflexivity.
Qed.

(** ** The stock inventory of tab 2 *)

Lemma stock_display_positive_rows (stock : list stock_row) :
  stock_display stock = positive_rows stock.
Proof.
  unfold stock_display. induction stock as [|r rest IH]; [reflexivity|].
  cbn [filter positive_rows]. rewrite IH.
  destruct (Qlt_le_dec 0 (stock_Quantity_in_Stock_lb r)) as [Hp|Hle].
  - destruct (Qle_bool (stock_Quantity_in_Stock_lb r) 0) eqn:E; [|reflexivity].
    apply Qle_bool_iff in E. lra.
  - apply Qle_bool_iff in Hle. rewrite Hle. reflexivity.
Qed.

Lemma positive_rows_In (stock : list stock_row) (r : stock_row) :
  In r (positive_rows stock) <-> In r stock /\ 0 < stock_Quantity_in_Stock_lb r.
Proof.
  induction stock as [|r0 rest IH]; [simpl; tauto|].
  cbn [positive_rows].
  destruct (Qlt_le_dec 0 (stock_Quantity_in_Stock_lb r0)) as [Hp|Hle]; simpl;
    rewrite IH; split.
  - intros [<-|[H1 H2]]; tauto.
  - intros [[<-|H1] H2]; tauto.
  - tauto.
  - intros [[<-|H1] H2]; [lra | tauto].
Qed.

Lemma tab2_reads (s : session_state) (u : upload) :
  snd (stock_page s u)
  = match table_after s u with
    | Some stock =>
        match positive_rows stock with
        | [] => no_items_warning
        | r :: rs => stock_table (r :: rs) (List.length (r :: rs))
        end
    | None => no_file_warning
    end.
Proof.
  unfold stock_page, sidebar_stock, table_after, tab2; cbn [snd].
  destruct u as [|message|table]; cbn [snd with_stock stock_df];
    try (destruct (stock_df s) as [stock|]; [|reflexivity]);
    rewrite stock_display_positive_rows; reflexivity.
Qed.

Lemma stock_count_positive_rows (stock : list stock_row) :
  stock_count stock = List.length (positive_rows stock).
Proof.
  unfold stock_count. fold (stock_display stock).
  now rewrite stock_display_positive_rows.
Qed.

(** X19.  Tab 2 reads the stock table the sidebar leaves in the session:
    the uploaded one when a workbook was read in the same run, otherwise
    the one the session held.  It lists, in the order of that table,
    exactly its rows whose quantity is above zero and counts them; it
    warns that nothing is in stock exactly when no row has a quantity
    above zero, and asks for the file when there is no table.  The
    sidebar's line "Stock loaded (n items)" counts the rows above zero of
    the table the session held before the upload, and the line "Items in
    stock: n" those of the uploaded table; so the total of tab 2 is the
    number of the latter line after an upload that was read, and the
    number of the former line otherwise. *)
Theorem stock_tab_lists_positive_rows (s : session_state) (u : upload) :
  let lines := fst (stock_page s u) in
  let view := snd (stock_page s u) in
  (forall n, In (stock_loaded n) lines
             <-> exists stock, stock_df s = Some stock
                               /\ n = List.length (positive_rows stock))
  /\ (forall n, In (items_in_stock n) lines
                <-> exists table, u = stock_file table
                                  /\ n = List.length (positive_rows table))
  /\ match table_after s u with
     | None => view = no_file_warning
     | Some stock =>
         (forall r, In r (positive_rows stock)
                    <-> In r stock /\ 0 < stock_Quantity_in_Stock_lb r)
         /\ (view = no_items_warning
             <-> forall r, In r stock -> stock_Quantity_in_Stock_lb r <= 0)
         /\ (positive_rows stock <> [] ->
             view = stock_table (positive_rows stock)
                      (List.length (positive_rows stock)))
     end
  /\ (forall rows total, view = stock_table rows total ->
        match u with
        | stock_file _ => In (items_in_stock total) lines
        | _ => In (stock_loaded total) lines
        end).
Proof.
  intros lines view.
  assert (Hview : view = match table_after s u with
                         | Some stock =>
                             match positive_rows stock with
                             | [] => no_items_warning
                             | r :: rs => stock_table (r :: rs) (List.length (r :: rs))
                             end
                         | None => no_file_warning
                         end) by apply tab2_reads.
  assert (H1 : forall n, In (stock_loaded n) lines
                         <-> exists stock, stock_df s = Some stock
                                           /\ n = List.length (positive_rows stock)).
  { intros n. unfold lines, stock_page, sidebar_stock; cbn [fst]. split.
    - intros Hin.
      assert (Hl : In (stock_loaded n)
                     match stock_df s with
                     | Some stock => [stock_loaded (stock_count stock)]
                     | None => []
                     end).
      { destruct u as [|message|table]; cbn [fst] in Hin; [exact Hin| |];
          apply in_app_or in Hin; destruct Hin as [Hin|Hin]; try exact Hin;
          simpl in Hin; intuition discriminate. }
      destruct (stock_df s) as [stock|]; [|destruct Hl].
      destruct Hl as [[= <-]|[]]. exists stock. split; [reflexivity|].
      apply stock_count_positive_rows.
    - intros [stock [Hs ->]]. rewrite Hs, <- stock_count_positive_rows.
      destruct u as [|message|table]; cbn [fst];
        [now left | apply in_or_app; left; now left ..]. }
  assert (H2 : forall n, In (items_in_stock n) lines
                         <-> exists table, u = stock_file table
                                           /\ n = List.length (positive_rows table)).
  { intros n. unfold lines, stock_page, sidebar_stock; cbn [fst]. split.
    - intros Hin.
      assert (Hl : forall l, In (items_in_stock n)
                     (match stock_df s with
                      | Some stock => [stock_loaded (stock_count stock)]
                      | None => []
                      end ++ l) -> In (items_in_stock n) l).
      { intros l Hl. apply in_app_or in Hl. destruct Hl as [Hl|Hl]; [|exact Hl].
        destruct (stock_df s); simpl in Hl; intuition discriminate. }
      destruct u as [|message|table]; cbn [fst] in Hin.
      + specialize (Hl []). rewrite app_nil_r in Hl. destruct (Hl Hin).
      + apply Hl in Hin. simpl in Hin. intuition discriminate.
      + apply Hl in Hin. simpl in Hin. destruct Hin as [Hin|[[= <-]|[]]];
          [discriminate|].
        exists table. split; [reflexivity | apply stock_count_positive_rows].
    - intros [table [-> ->]]. cbn [fst]. apply in_or_app. right.
      rewrite stock_count_positive_rows. simpl. tauto. }
  split; [exact H1|]. split; [exact H2|]. split.
  - rewrite Hview. destruct (table_after s u) as [stock|]; [|reflexivity].
    split; [intros r; apply positive_rows_In|]. split.
    + destruct (positive_rows stock) as [|r rs] eqn:E.
      * split; [|reflexivity]. intros _ r Hr.
        destruct (Qlt_le_dec 0 (stock_Quantity_in_Stock_lb r)) as [Hp|Hle]; [|exact Hle].
        exfalso. assert (Hin : In r (positive_rows stock))
          by (apply positive_rows_In; tauto).
        rewrite E in Hin. destruct Hin.
      * split; [discriminate|]. intros H. exfalso.
        assert (Hr : In r (positive_rows stock)) by (rewrite E; now left).
        apply positive_rows_In in Hr. destruct Hr as [Hr Hp].
        specialize (H r Hr). lra.
    + intros Hne. destruct (positive_rows stock); [congruence | reflexivity].
  - intros rows total Hv. rewrite Hview in Hv.
    destruct u as [|message|table]; cbn [table_after] in Hv.
    + apply H1. destruct (stock_df s) as [stock|]; [|discriminate].
      exists stock. split; [reflexivity|].
      destruct (positive_rows stock); [discriminate|]. now injection Hv as _ <-.
    + apply H1. destruct (stock_df s) as [stock|]; [|discriminate].
      exists stock. split; [reflexivity|].
      destruct (positive_rows stock); [discriminate|]. now injection Hv as _ <-.
    + apply H2. exists table. split; [reflexivity|].
      destruct (positive_rows table); [discriminate|]. now injection Hv as _ <-.
Qed.

(** An upload that is read changes the count within one run: on a session
    with an empty pantry the sidebar first writes "Stock loaded (0
    items)", the upload block then counts one item, and tab 2 lists that
    one row. *)
Example upload_changes_the_count :
  stock_page empty_pantry_session (stock_file [milk_stock])
  = ([stock_loaded 0; custom_stock_loaded; items_in_stock 1],
     stock_table [milk_stock] 1).
Proof. reflexivity. Qed.

(** ** The catalog join *)

Lemma stock_filter_nil (stock : list stock_row) (d : string) :
  (forall st, In st stock -> stock_Package_Description st <> d) ->
  filter (fun st => (stock_Package_Description st =? d)%string) stock = [].
Proof.
  intros H. apply filter_nil_of. intros st Hst. apply String.eqb_neq. now apply H.
Qed.

Lemma merge_left_stock_In (d : list (cost_row * nutrition_row))
  (stock : list stock_row) (r : data_row) :
  In r (merge_left_stock d stock)
  <-> exists c n,
        In (c, n) d
        /\ ((exists st, In st stock
                        /\ stock_Package_Description st = cost_Package_Description c
                        /\ r = joined c n (stock_Quantity_in_Stock_lb st))
            \/ ((forall st, In st stock ->
                            stock_Package_Description st <> cost_Package_Description c)
                /\ r = joined c n 0)).
Proof.
  unfold merge_left_stock. rewrite in_flat_map. split.
  - intros [[c n] [Hin Hr]]. exists c, n. split; [exact Hin|]. cbn [fst snd] in Hr.
    destruct (filter _ stock) as [|s0 found] eqn:E.
    + right. destruct Hr as [<-|[]]. split; [|reflexivity].
      intros st Hst Heq.
      assert (Hf : In st (filter (fun s => (stock_Package_Description s
                                            =? cost_Package_Description c)%string) stock))
        by (apply filter_In; split; [exact Hst | now apply String.eqb_eq]).
      rewrite E in Hf. destruct Hf.
    + left. apply in_map_iff in Hr. destruct Hr as [st [<- Hst]].
      rewrite <- E in Hst. apply filter_In in Hst. destruct Hst as [Hst Heq].
      apply String.eqb_eq in Heq. now exists st.
  - intros [c [n [Hin [[st [Hst [Heq ->]]] | [Hnone ->]]]]]; exists (c, n);
      (split; [exact Hin|]); cbn [fst snd].
    + assert (Hf : In st (filter (fun s => (stock_Package_Description s
                                            =? cost_Package_Description c)%string) stock))
        by (apply filter_In; split; [exact Hst | now apply String.eqb_eq]).
      destruct (filter _ stock) as [|s0 found]; [destruct Hf|].
      now apply (in_map (fun s => joined c n (stock_Quantity_in_Stock_lb s))).
    + rewrite (stock_filter_nil stock _ Hnone). now left.
Qed.

(** X20.  The joined catalog holds exactly these rows: for every cost
    row and nutrition row of the same Food, one row per stock row of the
    cost row's package description, carrying that stock, or, when there is
    no such stock row, one row with stock 0.  A cost row whose Food has no
    nutrition row leaves no row. *)
Theorem joined_catalog_rows (cost : list cost_row) (nutrition : list nutrition_row)
  (stock : list stock_row) (r : data_row) :
  In r (merge_data cost nutrition stock)
  <-> exists c n,
        In c cost /\ In n nutrition /\ nut_Food n = cost_Food c
        /\ ((exists st, In st stock
                        /\ stock_Package_Description st = cost_Package_Description c
                        /\ r = joined c n (stock_Quantity_in_Stock_lb st))
            \/ ((forall st, In st stock ->
                            stock_Package_Description st <> cost_Package_Description c)
                /\ r = joined c n 0)).
Proof.
  unfold merge_data. rewrite merge_left_stock_In. split.
  - intros [c [n [Hin H]]]. apply merge_on_Food_In in Hin. exists c, n. tauto.
  - intros [c [n (Hc & Hn & Hf & H)]]. exists c, n. split; [|exact H].
    apply merge_on_Food_In. tauto.
Qed.

Lemma filter_key_unique {A} (f : A -> string) (k : string) (l : list A) :
  NoDup (map f l) ->
  filter (fun x => (f x =? k)%string) l = []
  \/ exists x, filter (fun x => (f x =? k)%string) l = [x].
Proof.
  induction l as [|a l IH]; intros Hnd; [now left|].
  inversion Hnd as [|? ? Hnot Hnd']; subst. cbn [filter].
  destruct (String.eqb_spec (f a) k) as [E|Hne].
  - right. exists a. f_equal. apply filter_nil_of. intros x Hx.
    apply String.eqb_neq. intros Hk. apply Hnot. rewrite E, <- Hk. now apply in_map.
  - now apply IH.
Qed.

Lemma merge_left_stock_descriptions (d : list (cost_row * nutrition_row))
  (stock : list stock_row) :
  NoDup (map stock_Package_Description stock) ->
  map Package_Description (merge_left_stock d stock)
  = map (fun cn => cost_Package_Description (fst cn)) d.
Proof.
  intros Hnd. unfold merge_left_stock.
  induction d as [|[c n] d IH]; [reflexivity|].
  cbn [flat_map]. rewrite map_app, IH. cbn [fst snd].
  destruct (filter_key_unique stock_Package_Description (cost_Package_Description c)
              stock Hnd) as [E|[st E]]; rewrite E; reflexivity.
Qed.

Lemma merge_on_Food_costs (cost : list cost_row) (nutrition : list nutrition_row) :
  NoDup (map nut_Food nutrition) ->
  map fst (merge_on_Food cost nutrition)
  = filter (fun c => existsb (fun n => (nut_Food n =? cost_Food c)%string) nutrition)
      cost.
Proof.
  intros Hnd. unfold merge_on_Food.
  induction cost as [|c cost IH]; [reflexivity|].
  cbn [flat_map filter]. rewrite map_app, IH.
  destruct (filter_key_unique nut_Food (cost_Food c) nutrition Hnd) as [E|[n E]].
  - rewrite E.
    assert (Hex : existsb (fun n => (nut_Food n =? cost_Food c)%string) nutrition = false).
    { destruct (existsb _ nutrition) eqn:X; [|reflexivity].
      apply existsb_exists in X. destruct X as [n [Hn Hk]].
      assert (Hf : In n (filter (fun x => (nut_Food x =? cost_Food c)%string) nutrition))
        by (apply filter_In; now split).
      rewrite E in Hf. destruct Hf. }
    rewrite Hex. reflexivity.
  - rewrite E.
    assert (Hex : existsb (fun n => (nut_Food n =? cost_Food c)%string) nutrition = true).
    { apply existsb_exists. exists n.
      assert (Hf : In n (filter (fun x => (nut_Food x =? cost_Food c)%string) nutrition))
        by (rewrite E; now left).
      now apply filter_In in Hf. }
    rewrite Hex. reflexivity.
Qed.

Lemma NoDup_map_filter {A B} (f : A -> B) (P : A -> bool) (l : list A) :
  NoDup (map f l) -> NoDup (map f (filter P l)).
Proof.
  induction l as [|a l IH]; intros Hnd; [constructor|].
  inversion Hnd as [|? ? Hnot Hnd']; subst. cbn [filter].
  destruct (P a); [|now apply IH].
  cbn [map]. constructor; [|now apply IH].
  intros H. apply Hnot. apply in_map_iff in H. destruct H as [x [Hx Hin]].
  apply filter_In in Hin. apply in_map_iff. exists x. tauto.
Qed.

(** X21.  When each Food has at most one nutrition row and each package
    description at most one stock row, the joined catalog has one row per
    cost row that has a nutrition row, in the order of the cost table.  If
    the descriptions of the cost table are also unique, so are those of the
    joined catalog, and then every purchase variable is bounded by the
    [Max_quantity] of its own row, which is also the row the extractor
    reads. *)
Theorem unique_keys_give_one_row_per_package (cost : list cost_row)
  (nutrition : list nutrition_row) (stock : list stock_row) :
  NoDup (map nut_Food nutrition) ->
  NoDup (map stock_Package_Description stock) ->
  let data := merge_data cost nutrition stock in
  map Package_Description data
  = map cost_Package_Description
      (filter (fun c => existsb (fun n => (nut_Food n =? cost_Food c)%string) nutrition)
         cost)
  /\ (List.length data <= List.length cost)%nat
  /\ (NoDup (map cost_Package_Description cost) ->
      NoDup (map Package_Description data)
      /\ forall r, In r data ->
           upBound (PurchaseDecision data (Package_Description r))
           = Some (Max_quantity r)
           /\ first_row_with data (Package_Description r) = Some r).
Proof.
  intros Hn Hs data.
  assert (E : map Package_Description data
              = map cost_Package_Description
                  (filter (fun c => existsb (fun n => (nut_Food n =? cost_Food c)%string)
                                      nutrition) cost)).
  { unfold data, merge_data. rewrite merge_left_stock_descriptions by exact Hs.
    rewrite <- (map_map fst cost_Package_Description).
    now rewrite merge_on_Food_costs. }
  split; [exact E|]. split.
  { rewrite <- (length_map Package_Description data), E, length_map.
    apply filter_length_le. }
  intros Hc.
  assert (Hnd : NoDup (map Package_Description data))
    by (rewrite E; now apply NoDup_map_filter).
  split; [exact Hnd|]. intros r Hr. split.
  - destruct (last_row_of_in data r Hr) as [r' Hr'].
    destruct (last_row_of_some _ _ _ Hr') as [Hin' Hd'].
    assert (r' = r) as -> by (now apply (NoDup_map_eq Package_Description data)).
    unfold PurchaseDecision, declared_max; cbn [upBound]. now rewrite Hr'.
  - unfold first_row_with.
    destruct (find _ data) as [r'|] eqn:F.
    + apply find_some in F. destruct F as [Hin' Hd']. apply String.eqb_eq in Hd'.
      f_equal. now apply (NoDup_map_eq Package_Description data).
    + pose proof (find_none _ _ F r Hr) as Hx. simpl in Hx.
      rewrite String.eqb_refl in Hx. discriminate.
Qed.

Lemma unique_keys_give_one_row_per_package_witness :
  (List.length (merge_data [rice; milk] [rice_nutrition; milk_nutrition] [milk_stock])
   <= 2)%nat.
Proof.
  refine (proj1 (proj2 (unique_keys_give_one_row_per_package [rice; milk]
                          [rice_nutrition; milk_nutrition] [milk_stock] _ _))).
  - repeat constructor; simpl; intuition discriminate.
  - repeat constructor; simpl; intuition discriminate.
Defined.

(** ** Names of the variables *)

Lemma occurs_append (c : ascii) (s t : string) :
  occurs c (s ++ t)%string = occurs c s || occurs c t.
Proof.
  induction s as [|a s IH]; simpl; [reflexivity|].
  rewrite IH. now rewrite orb_assoc.
Qed.

Lemma occurs_replace_same (c : ascii) (by_ s : string) :
  occurs c by_ = false -> occurs c (replace c by_ s) = false.
Proof.
  intros Hb. induction s as [|a s IH]; simpl; [reflexivity|].
  destruct (Ascii.eqb a c) eqn:E.
  - rewrite occurs_append, Hb, IH. reflexivity.
  - simpl. now rewrite E, IH.
Qed.

Lemma occurs_replace_other (c c' : ascii) (by_ s : string) :
  occurs c by_ = false -> occurs c s = false ->
  occurs c (replace c' by_ s) = false.
Proof.
  intros Hb. induction s as [|a s IH]; simpl; [reflexivity|].
  intros H. apply orb_false_iff in H. destruct H as [Ha Hs].
  destruct (Ascii.eqb a c').
  - rewrite occurs_append, Hb, IH by exact Hs. reflexivity.
  - simpl. now rewrite Ha, IH.
Qed.

(** X22.  The name given to the purchase variable of a row holds no
    space, comma or parenthesis, and the name given to the indicator of a
    category holds no space, comma or ampersand, whatever the description
    or the category. *)
Theorem variable_names_are_sanitised (row : data_row) (cat : string) :
  (occurs " " (var_name (make_buy_var row)) = false
   /\ occurs "," (var_name (make_buy_var row)) = false
   /\ occurs "(" (var_name (make_buy_var row)) = false
   /\ occurs ")" (var_name (make_buy_var row)) = false)
  /\ (occurs " " (var_name (make_has_cat cat)) = false
      /\ occurs "," (var_name (make_has_cat cat)) = false
      /\ occurs "&" (var_name (make_has_cat cat)) = false).
Proof.
  cbn [var_name make_buy_var make_has_cat].
  set (text := Package_Description row).
  assert (C1 : occurs "," (replace "," "" (replace " " "_" text)) = false)
    by (now apply occurs_replace_same).
  assert (S2 : occurs " " (replace "," "" (replace " " "_" text)) = false)
    by (apply occurs_replace_other; [reflexivity | now apply occurs_replace_same]).
  split.
  - unfold buy_var_name. fold text. repeat split.
    + apply occurs_replace_other; [reflexivity|].
      apply occurs_replace_other; [reflexivity|]. exact S2.
    + apply occurs_replace_other; [reflexivity|].
      apply occurs_replace_other; [reflexivity|]. exact C1.
    + apply occurs_replace_other; [reflexivity|].
      now apply occurs_replace_same.
    + now apply occurs_replace_same.
  - unfold has_cat_name. rewrite !occurs_append. repeat split.
    + simpl. apply occurs_replace_other; [reflexivity|].
      apply occurs_replace_other; [reflexivity|]. now apply occurs_replace_same.
    + simpl. apply occurs_replace_other; [reflexivity|].
      now apply occurs_replace_same.
    + simpl. now apply occurs_replace_same.
Qed.

(** ** More or fewer members *)

Lemma contribution_nonneg (check : list check_row) (m : member) (n : nutrient) :
  (forall r, In r check ->
     0 <= Min_Calorie r /\ 0 <= min_Protein r
     /\ 0 <= min_Carbohydrate r /\ 0 <= min_Fat r) ->
  0 <= required_get (contribution (selected_row check m)) n.
Proof.
  intros H. destruct (selected_row check m) as [r|] eqn:E.
  - apply selected_row_some in E. destruct E as [b [a [-> _]]].
    assert (Hr : In r (b ++ r :: a)) by (apply in_or_app; right; now left).
    destruct (H r Hr) as (H1 & H2 & H3 & H4). destruct n; simpl; assumption.
  - destruct n; simpl; apply Qle_refl.
Qed.

Lemma required_total_nonneg (check : list check_row) (members : list member)
  (n : nutrient) :
  (forall r, In r check ->
     0 <= Min_Calorie r /\ 0 <= min_Protein r
     /\ 0 <= min_Carbohydrate r /\ 0 <= min_Fat r) ->
  0 <= required_get
         (required_total (map (fun m => contribution (selected_row check m)) members)) n.
Proof.
  intros H. induction members as [|m members IH].
  - destruct n; simpl; apply Qle_refl.
  - pose proof (contribution_nonneg check m n H) as Hc.
    cbn [map required_total fold_right].
    fold (required_total (map (fun m => contribution (selected_row check m)) members)).
    destruct n; simpl in *; lra.
Qed.

Lemma required_get_eq (a b : required) (n : nutrient) :
  required_eq a b -> required_get a n == required_get b n.
Proof. intros (H1 & H2 & H3 & H4). destruct n; simpl; assumption. Qed.

(** X23.  With a requirement table whose minimums are not negative, a
    larger household never asks for less: each weekly floor of a roster
    with more members is at least that of the roster without them, so a
    purchase that satisfies the model of the larger household satisfies
    the model of the smaller one on the same catalog. *)
Theorem fewer_members_stay_feasible (check : list check_row)
  (members more : list member) (data : list data_row) (a : assignment) :
  (forall r, In r check ->
     0 <= Min_Calorie r /\ 0 <= min_Protein r
     /\ 0 <= min_Carbohydrate r /\ 0 <= min_Fat r) ->
  (forall n, required_get (required_nutrients check members) n
             <= required_get (required_nutrients check (members ++ more)) n)
  /\ (feasible (full_model data (required_nutrients check (members ++ more))) a ->
      feasible (full_model data (required_nutrients check members)) a).
Proof.
  intros Hnn.
  assert (Hle : forall n, required_get (required_nutrients check members) n
                          <= required_get (required_nutrients check (members ++ more)) n).
  { intros n.
    pose proof (required_get_eq _ _ n (required_nutrients_total check (members ++ more)))
      as E1.
    pose proof (required_get_eq _ _ n (required_nutrients_total check members)) as E2.
    pose proof (required_get_eq _ _ n
                  (required_total_app
                     (map (fun m => contribution (selected_row check m)) members)
                     (map (fun m => contribution (selected_row check m)) more))) as E3.
    rewrite map_app in E1. rewrite E1, E2, E3.
    pose proof (required_total_nonneg check more n Hnn) as Hm.
    destruct n; simpl in *; lra. }
  split; [exact Hle|].
  intros [Hv Hc]. split.
  - intros v Hin. apply Hv. revert Hin.
    unfold model_vars, full_model; cbn [objective constraints].
    rewrite !flat_map_app, !in_app_iff.
    intros [H|[H|H]]; [tauto | | tauto].
    right; left. rewrite in_flat_map in *. destruct H as [c [Hc' Hv']].
    apply in_map_iff in Hc'. destruct Hc' as [n [<- Hn]].
    exists (nutrient_requirement data (required_nutrients check (members ++ more)) n).
    split; [now apply in_map | exact Hv'].
  - intros c Hin. unfold full_model in Hin; cbn [constraints] in Hin.
    apply in_app_or in Hin. destruct Hin as [Hin|Hin].
    + apply in_map_iff in Hin. destruct Hin as [n [<- Hn]].
      assert (H : holds a (nutrient_requirement data
                             (required_nutrients check (members ++ more)) n) = true).
      { apply Hc. unfold full_model; cbn [constraints].
        apply in_or_app. left. now apply in_map. }
      apply holds_nutrient_requirement in H. apply holds_nutrient_requirement.
      pose proof (Hle n). lra.
    + apply Hc. unfold full_model; cbn [constraints]. apply in_or_app. now right.
Qed.

Lemma fewer_members_stay_feasible_witness :
  required_get (required_nutrients [men_19_30; women_19_30] [adam]) Protein
  <= required_get (required_nutrients [men_19_30; women_19_30] ([adam] ++ [eve])) Protein.
Proof.
  refine (proj1 (fewer_members_stay_feasible [men_19_30; women_19_30] [adam] [eve]
                   sample_data sample_assignment _) Protein).
  intros r [<-|[<-|[]]]; repeat split; vm_compute; discriminate.
Defined.

(** ** More stock *)

Lemma restocked_filter (stock stock' : list stock_row) (d : string) :
  restocked stock stock' ->
  restocked (filter (fun s => (stock_Package_Description s =? d)%string) stock)
            (filter (fun s => (stock_Package_Description s =? d)%string) stock').
Proof.
  unfold restocked. induction 1 as [|st st' l l' [Hd Hq] _ IH]; [constructor|].
  cbn [filter]. rewrite Hd.
  destruct (stock_Package_Description st =? d)%string; [constructor; tauto | exact IH].
Qed.

Lemma merge_left_stock_restocked (d : list (cost_row * nutrition_row))
  (stock stock' : list stock_row) :
  restocked stock stock' ->
  Forall2 same_but_more_stock (merge_left_stock d stock) (merge_left_stock d stock').
Proof.
  intros Hr. unfold merge_left_stock.
  induction d as [|[c n] d IH]; [constructor|].
  cbn [flat_map fst snd]. apply Forall2_app; [|exact IH].
  pose proof (restocked_filter stock stock' (cost_Package_Description c) Hr) as F.
  unfold restocked in F.
  destruct F as [|st st' l l' [Hd Hq] F'].
  - constructor; [|constructor]. exists 0. split; [apply Qle_refl | reflexivity].
  - cbn [map]. constructor.
    + exists (stock_Quantity_in_Stock_lb st'). split; [exact Hq | reflexivity].
    + induction F' as [|x x' m m' [Hxd Hxq] _ IHF]; [constructor|].
      cbn [map]. constructor; [|exact IHF].
      exists (stock_Quantity_in_Stock_lb x'). split; [exact Hxq | reflexivity].
Qed.

Lemma more_stock_find (data data' : list data_row) (d : string) :
  Forall2 same_but_more_stock data data' ->
  match find (fun r => (Package_Description r =? d)%string) data,
        find (fun r => (Package_Description r =? d)%string) data' with
  | Some r, Some r' => same_but_more_stock r r'
  | None, None => True
  | _, _ => False
  end.
Proof.
  induction 1 as [|p p' l l' Hp _ IH]; [exact I|].
  cbn [find]. destruct Hp as [q [Hq ->]]. cbn [Package_Description].
  destruct (Package_Description p =? d)%string; [|exact IH].
  exists q. now split.
Qed.

Lemma more_stock_declared_max (data data' : list data_row) (d : string) :
  Forall2 same_but_more_stock data data' ->
  declared_max data' d = declared_max data d.
Proof.
  intros H. unfold declared_max, last_row_of.
  assert (Hrev : Forall2 same_but_more_stock (rev data) (rev data')).
  { induction H as [|p p' l l' Hp _ IH]; [constructor|].
    cbn [rev]. apply Forall2_app; [exact IH | now repeat constructor]. }
  pose proof (more_stock_find (rev data) (rev data') d Hrev) as F.
  destruct (find _ (rev data)) as [r|], (find _ (rev data')) as [r'|];
    try contradiction; [|reflexivity].
  destruct F as [q [_ ->]]. reflexivity.
Qed.

Lemma more_stock_purchases (rows rows' : list data_row) (a : assignment)
  (coef : data_row -> Q) :
  Forall2 same_but_more_stock rows rows' ->
  (forall p q, coef {| Food := Food p; Package_Description := Package_Description p;
                       Store := Store p; price := price p; lb := lb p;
                       kcal := kcal p; Protein_g := Protein_g p;
                       Carbs_g := Carbs_g p; Fat_g := Fat_g p;
                       Food_Basket := Food_Basket p; Max_quantity := Max_quantity p;
                       Quantity_in_Stock_lb := q |} = coef p) ->
  sumQ (map (fun p => coef p * a (buy_qty_slot (Package_Description p))) rows')
  = sumQ (map (fun p => coef p * a (buy_qty_slot (Package_Description p))) rows).
Proof.
  intros H Hcoef. induction H as [|p p' l l' [q [_ ->]] _ IH]; [reflexivity|].
  cbn [map sumQ fold_right Package_Description]. rewrite Hcoef.
  unfold sumQ in IH. now rewrite IH.
Qed.

Lemma more_stock_terms (rows rows' : list data_row) (n : nutrient) :
  Forall2 same_but_more_stock rows rows' ->
  (forall p, In p rows -> 0 <= nutrient_col n p) ->
  sumQ (map (fun p => nutrient_col n p * Quantity_in_Stock_lb p) rows)
  <= sumQ (map (fun p => nutrient_col n p * Quantity_in_Stock_lb p) rows').
Proof.
  induction 1 as [|p p' l l' [q [Hq ->]] _ IH]; intros Hnn; [apply Qle_refl|].
  cbn [map sumQ fold_right].
  assert (H1 : sumQ (map (fun p => nutrient_col n p * Quantity_in_Stock_lb p) l)
               <= sumQ (map (fun p => nutrient_col n p * Quantity_in_Stock_lb p) l'))
    by (apply IH; intros x Hx; apply Hnn; now right).
  assert (H0 : 0 <= nutrient_col n p) by (apply Hnn; now left).
  assert (H2 : nutrient_col n p * Quantity_in_Stock_lb p <= nutrient_col n p * q).
  { rewrite (Qmult_comm _ (Quantity_in_Stock_lb p)), (Qmult_comm _ q).
    now apply Qmult_le_compat_r. }
  unfold sumQ in H1.
  replace (nutrient_col n
             {| Food := Food p; Package_Description := Package_Description p;
                Store := Store p; price := price p; lb := lb p; kcal := kcal p;
                Protein_g := Protein_g p; Carbs_g := Carbs_g p; Fat_g := Fat_g p;
                Food_Basket := Food_Basket p; Max_quantity := Max_quantity p;
                Quantity_in_Stock_lb := q |})
    with (nutrient_col n p) by (destruct n; reflexivity).
  cbn [Quantity_in_Stock_lb]. lra.
Qed.

Lemma more_stock_cat_items (data data' : list data_row) (c : string) :
  Forall2 same_but_more_stock data data' ->
  Forall2 same_but_more_stock (cat_items data c) (cat_items data' c).
Proof.
  unfold cat_items. induction 1 as [|p p' l l' Hp _ IH]; [constructor|].
  cbn [filter]. destruct Hp as [q [Hq ->]]. cbn [Food_Basket].
  destruct (Food_Basket p =? c)%string; [|exact IH].
  constructor; [|exact IH]. exists q. now split.
Qed.

Lemma more_stock_count (rows rows' : list data_row) :
  Forall2 same_but_more_stock rows rows' ->
  (stocked_packages rows <= stocked_packages rows')%nat.
Proof.
  unfold stocked_packages.
  induction 1 as [|p p' l l' [q [Hq ->]] _ IH]; [apply Nat.le_refl|].
  cbn [filter Quantity_in_Stock_lb].
  destruct (Qle_bool (Quantity_in_Stock_lb p) 0) eqn:E1;
    destruct (Qle_bool q 0) eqn:E2; cbn [negb List.length]; try lia.
  apply Qle_bool_iff in E2.
  assert (Hle : Quantity_in_Stock_lb p <= 0) by lra.
  apply Qle_bool_iff in Hle. congruence.
Qed.

Lemma in_diversity_constraints_of (data : list data_row) (cat : string) :
  In cat basket_categories -> cat_items data cat <> [] ->
  In (presence_constraint data cat) (diversity_constraints data)
  /\ In (indicator_bound cat) (diversity_constraints data).
Proof.
  intros Hc Hne. unfold diversity_constraints.
  split; apply in_flat_map; exists cat; (split; [exact Hc|]);
    unfold diversity_of; destruct (cat_items data cat); try congruence;
    simpl; tauto.
Qed.

Lemma more_stock_feasible (data data' : list data_row) (req : required) (a : assignment) :
  Forall2 same_but_more_stock data data' ->
  (forall p n, In p data -> 0 <= nutrient_col n p) ->
  feasible (full_model data req) a -> feasible (full_model data' req) a.
Proof.
  intros Hms Hnn Hf.
  pose proof (feasible_nutrient_in_bounds _ _ _ (feasible_full_nutrient _ _ _ Hf)) as Hb.
  destruct Hf as [Hv Hc].
  assert (Hpd : forall d, PurchaseDecision data' d = PurchaseDecision data d)
    by (intros d; unfold PurchaseDecision; now rewrite (more_stock_declared_max data data')).
  assert (Hrow : forall p', In p' data' ->
                   exists p, In p data /\ Package_Description p' = Package_Description p).
  { clear -Hms. induction Hms as [|p p' l l' [q [_ ->]] _ IH]; intros x [].
    - subst x. exists p. split; [now left | reflexivity].
    - destruct (IH x H) as [y [Hy E]]. exists y. split; [now right | exact E]. }
  assert (Hne : forall cat, cat_items data' cat <> [] -> cat_items data cat <> []).
  { intros cat H E. apply H.
    pose proof (more_stock_cat_items data data' cat Hms) as F. rewrite E in F.
    now inversion F. }
  split.
  - intros v Hin. unfold model_vars, full_model, expr_vars in Hin;
      cbn [objective constraints terms] in Hin.
    apply in_app_or in Hin.
    assert (Hpv : forall coef rows, incl rows data' ->
              In v (map snd (purchase_terms data' coef rows)) ->
              in_domain v (a (var_slot v)) = true).
    { intros coef rows Hincl H. apply purchase_terms_vars in H.
      destruct H as [p' [Hp' ->]]. rewrite Hpd.
      destruct (Hrow p' (Hincl _ Hp')) as [p [Hp ->]].
      apply (Hb _ _ (buy_qty_has_row data p Hp)). }
    destruct Hin as [Hin|Hin]; [now apply (Hpv price data' (incl_refl _))|].
    apply in_flat_map in Hin. destruct Hin as [c [Hc' Hv']].
    apply in_app_or in Hc'. destruct Hc' as [Hc'|Hc'].
    + apply in_map_iff in Hc'. destruct Hc' as [n [<- _]].
      unfold nutrient_requirement in Hv';
        cbn [con_lhs con_rhs terms expr_of_number] in Hv'.
      rewrite app_nil_r in Hv'. now apply (Hpv (nutrient_col n) data' (incl_refl _)).
    + destruct (in_diversity_constraints _ _ Hc') as [cat [Hcat [Hcne Hcc]]].
      assert (Hind : in_domain (CategoryPresenceIndicator cat)
                       (a (var_slot (CategoryPresenceIndicator cat))) = true).
      { apply Hv. unfold model_vars, full_model; cbn [objective constraints].
        apply in_or_app. right. apply in_flat_map. exists (indicator_bound cat).
        split; [|simpl; now left].
        apply in_or_app. right.
        now apply (in_diversity_constraints_of data cat Hcat (Hne cat Hcne)). }
      destruct Hcc as [-> | ->].
      * unfold presence_constraint in Hv'; cbn [con_lhs con_rhs terms expr_of_var] in Hv'.
        apply in_app_or in Hv'. destruct Hv' as [Hv'|Hv'].
        -- now apply (Hpv (fun _ => 1) (cat_items data' cat) (cat_items_incl data' cat)).
        -- simpl in Hv'. destruct Hv' as [<-|[]]. exact Hind.
      * simpl in Hv'. destruct Hv' as [<-|[]]. exact Hind.
  - intros c Hin. unfold full_model in Hin; cbn [constraints] in Hin.
    apply in_app_or in Hin. destruct Hin as [Hin|Hin].
    + apply in_map_iff in Hin. destruct Hin as [n [<- Hn]].
      assert (H : holds a (nutrient_requirement data req n) = true).
      { apply Hc. unfold full_model; cbn [constraints]. apply in_or_app. left.
        now apply in_map. }
      apply holds_nutrient_requirement in H. apply holds_nutrient_requirement.
      rewrite (more_stock_purchases data data' a (nutrient_col n) Hms)
        by (intros p q; destruct n; reflexivity).
      pose proof (more_stock_terms data data' n Hms (fun p Hp => Hnn p n Hp)). lra.
    + destruct (in_diversity_constraints _ _ Hin) as [cat [Hcat [Hcne [-> | ->]]]].
      * assert (H : holds a (presence_constraint data cat) = true).
        { apply Hc. unfold full_model; cbn [constraints]. apply in_or_app. right.
          now apply (in_diversity_constraints_of data cat Hcat (Hne cat Hcne)). }
        apply holds_presence in H. apply holds_presence.
        pose proof (more_stock_cat_items data data' cat Hms) as Hci.
        pose proof (more_stock_purchases _ _ a (fun _ => 1) Hci
                      (fun _ _ => eq_refl)) as E.
        assert (E' : sumQ (map (fun p => a (buy_qty_slot (Package_Description p)))
                             (cat_items data' cat))
                     == sumQ (map (fun p => a (buy_qty_slot (Package_Description p)))
                                (cat_items data cat))).
        { clear -Hci. induction Hci as [|p p' l l' [q [_ ->]] _ IH]; [reflexivity|].
          cbn [map sumQ fold_right Package_Description]. unfold sumQ in IH.
          now rewrite IH. }
        pose proof (more_stock_count _ _ Hci) as Hcount.
        assert (inject_Z (Z.of_nat (stocked_packages (cat_items data cat)))
                <= inject_Z (Z.of_nat (stocked_packages (cat_items data' cat))))
          by (rewrite <- Zle_Qle; lia).
        rewrite E'. lra.
      * apply Hc. unfold full_model; cbn [constraints]. apply in_or_app. right.
        now apply (in_diversity_constraints_of data cat Hcat (Hne cat Hcne)).
Qed.

(** X24.  More stock never hurts.  When a second stock table has the rows
    of the first with quantities at least as large, and the nutrient
    contents of the catalog are not negative, every assignment that
    satisfies the model built with the first pantry satisfies the model
    built with the second, and the purchase cost of the assignment is the
    same in both. *)
Theorem more_stock_keeps_feasibility (cost : list cost_row)
  (nutrition : list nutrition_row) (stock stock' : list stock_row)
  (req : required) (a : assignment) :
  restocked stock stock' ->
  (forall n, In n nutrition ->
     0 <= nut_kcal n /\ 0 <= nut_Protein n /\ 0 <= nut_Carbs n /\ 0 <= nut_Fat n) ->
  feasible (full_model (merge_data cost nutrition stock) req) a ->
  feasible (full_model (merge_data cost nutrition stock') req) a
  /\ objective_value (full_model (merge_data cost nutrition stock') req) a
     == objective_value (full_model (merge_data cost nutrition stock) req) a.
Proof.
  intros Hr Hnn Hf.
  assert (Hms : Forall2 same_but_more_stock (merge_data cost nutrition stock)
                  (merge_data cost nutrition stock'))
    by (unfold merge_data; now apply merge_left_stock_restocked).
  split.
  - apply (more_stock_feasible _ _ req a Hms); [|exact Hf].
    intros p n Hp. unfold merge_data in Hp. apply merge_left_stock_In in Hp.
    destruct Hp as [c [nr [Hin Hcase]]]. apply merge_on_Food_In in Hin.
    destruct Hin as (_ & Hnr & _). destruct (Hnn nr Hnr) as (H1 & H2 & H3 & H4).
    destruct Hcase as [[st [_ [_ ->]]] | [_ ->]]; destruct n; simpl; assumption.
  - unfold objective_value, full_model, eval_expr; cbn [objective terms constant].
    rewrite !eval_purchase_terms.
    rewrite (more_stock_purchases _ _ a price Hms) by (intros p q; reflexivity).
    reflexivity.
Qed.

Lemma more_stock_keeps_feasibility_witness :
  feasible
    (full_model
       (merge_data [rice; milk] [rice_nutrition; milk_nutrition] [fuller_milk_stock])
       sample_required)
    (zero_indicators sample_assignment).
Proof.
  refine (proj1 (more_stock_keeps_feasibility [rice; milk]
                   [rice_nutrition; milk_nutrition] [milk_stock] [fuller_milk_stock]
                   sample_required _ _ _ _)).
  - constructor; [split; [reflexivity | vm_compute; discriminate] | constructor].
  - intros n [<-|[<-|[]]]; repeat split; vm_compute; discriminate.
  - exact (proj2 sample_model_feasible).
Defined.

(** ** Amounts of the plan *)

Lemma py_round2_nonneg (y : Q) : 0 <= y -> 0 <= py_round2 y.
Proof.
  intros Hy. unfold py_round2.
  assert (H : (0 <= py_round (y * 100))%Z) by (apply py_round_nonneg; lra).
  assert (H' : 0 <= inject_Z (py_round (y * 100)))
    by (change 0 with (inject_Z 0); now rewrite <- Zle_Qle).
  assert (E : inject_Z (py_round (y * 100)) / 100
              == inject_Z (py_round (y * 100)) * (1 # 100))
    by (unfold Qdiv; reflexivity).
  rewrite E. lra.
Qed.

Lemma sum_Z_nonneg (l : list Z) : (forall z, In z l -> (0 <= z)%Z) -> (0 <= sum_Z l)%Z.
Proof.
  rewrite sum_Z_right. induction l as [|x l IH]; intros H; simpl; [lia|].
  assert (0 <= x)%Z by (apply H; now left).
  assert (0 <= fold_right Z.add 0 l)%Z by (apply IH; intros z Hz; apply H; now right).
  lia.
Qed.

(** X25.  With prices and package weights that are not negative, every
    row of the plan has a cost and a weight that are not negative and are
    whole numbers of hundredths, and the totals shown (cost, packages,
    weight) are not negative. *)
Theorem plan_amounts_are_nonnegative_cents (data : list data_row) (vals : values) :
  (forall p, In p data -> 0 <= price p /\ 0 <= lb p) ->
  let w := snd (show_plan data vals []) in
  (forall row, In row (plan_rows w) ->
     0 <= Weekly_Cost row /\ 0 <= Total_Weight_lb row
     /\ is_integer (Weekly_Cost row * 100) = true
     /\ is_integer (Total_Weight_lb row * 100) = true)
  /\ (forall tc ti tw, In (tc, ti, tw) (metrics_lines w) ->
        0 <= tc /\ (0 <= ti)%Z /\ 0 <= tw).
Proof.
  intros Hnn. cbv zeta.
  assert (Hrow : forall row, In row (flat_map (extracted data vals) (buy_qty data)) ->
            (0 <= Qty_to_Buy row)%Z
            /\ 0 <= Weekly_Cost row /\ 0 <= Total_Weight_lb row
            /\ is_integer (Weekly_Cost row * 100) = true
            /\ is_integer (Total_Weight_lb row * 100) = true).
  { intros row Hrow. apply in_flat_map in Hrow. destruct Hrow as [[food v] [Hin Hex]].
    apply in_extracted in Hex. destruct Hex as [x [r [_ [Hx [Hr ->]]]]].
    unfold first_row_with in Hr. apply find_some in Hr. destruct Hr as [Hrin _].
    destruct (Hnn r Hrin) as [Hp Hl].
    assert (Hq : (0 <= py_round x)%Z) by (apply py_round_nonneg; lra).
    assert (Hq' : 0 <= inject_Z (py_round x))
      by (change 0 with (inject_Z 0); now rewrite <- Zle_Qle).
    cbn [Qty_to_Buy Weekly_Cost Total_Weight_lb plan_row].
    split; [exact Hq|].
    split; [apply py_round2_nonneg; now apply Qmult_le_0_compat|].
    split; [apply py_round2_nonneg; now apply Qmult_le_0_compat|].
    unfold is_integer. split; apply Qeq_bool_iff.
    - pose proof (py_round2_cents (price r * inject_Z (py_round x))) as Ec.
      rewrite (Qfloor_comp _ _ Ec), Qfloor_Z. symmetry. exact Ec.
    - pose proof (py_round2_cents (lb r * inject_Z (py_round x))) as Ec.
      rewrite (Qfloor_comp _ _ Ec), Qfloor_Z. symmetry. exact Ec. }
  rewrite show_plan_trace.
  destruct (flat_map (extracted data vals) (buy_qty data)) as [|r rs].
  - cbn [snd app]. split; [intros row [] | intros tc ti tw []].
  - cbn [snd app]. rewrite plan_rows_plan_events, metrics_plan_events. split.
    + intros row Hin. apply Hrow in Hin. tauto.
    + intros tc ti tw [H|[]]. injection H as <- <- <-.
      split; [|split].
      * rewrite py_sum_sumQ. apply (sumQ_nonneg Weekly_Cost (r :: rs)).
        intros row Hin. apply Hrow in Hin. tauto.
      * apply (sum_Z_nonneg (map Qty_to_Buy (r :: rs))). intros z Hz.
        apply in_map_iff in Hz. destruct Hz as [row [<- Hin]].
        apply Hrow in Hin. tauto.
      * rewrite py_sum_sumQ. apply (sumQ_nonneg Total_Weight_lb (r :: rs)).
        intros row Hin. apply Hrow in Hin. tauto.
Qed.

Lemma plan_amounts_are_nonnegative_cents_witness :
  0 <= 183300 # 10000.
Proof.
  refine (proj1 (proj2 (plan_amounts_are_nonnegative_cents sample_data
                          (snd (sample_solver (full_model sample_data sample_required)))
                          _) (183300 # 10000) 4%Z (236200 # 10000)
                   sample_metrics_line)).
  intros p [<-|[<-|[]]]; split; vm_compute; discriminate.
Defined.
